(** * SCM plugin providers: GithubProvider and BitbucketProvider

    A shallow embedding of [src/v1/services/github/github.provider.js]
    (the file holds both provider classes).  JavaScript values are a small
    inductive type, exceptions are values of type [Thrown], and the methods
    of a provider are computations in a state-and-exception monad whose
    state holds the fields of the provider instance ([client], [owner],
    [config]), the external configuration store and the log of HTTP calls
    made through the axios client. *)

From Stdlib Require Import String Ascii ZArith List Bool Lia DecimalString.
Import ListNotations.
Local Open Scope string_scope.
Local Open Scope Z_scope.

Set Implicit Arguments.
Set Warnings "-register-all".

(* ===================================================================== *)
(** ** JavaScript values *)
(* ===================================================================== *)

(** Numbers are the integers (the source only uses integer literals);
    strings are sequences of code units below 256.  [JObj] lists the own
    properties of a plain data object in insertion order; [JFun] stands for
    a built-in method read as a value (reading [sort] or [values] from an
    array yields the method of [Array.prototype]). *)
Inductive JsVal : Type :=
| JUndef : JsVal
| JNull : JsVal
| JBool (b : bool) : JsVal
| JNum (n : Z) : JsVal
| JStr (s : string) : JsVal
| JArr (xs : list JsVal) : JsVal
| JObj (fields : list (string * JsVal)) : JsVal
| JFun (name : string) : JsVal.

(** [ToBoolean]. *)
Definition truthy (v : JsVal) : bool :=
  match v with
  | JUndef | JNull => false
  | JBool b => b
  | JNum n => negb (n =? 0)
  | JStr s => negb (s =? "")%string
  | JArr _ | JObj _ | JFun _ => true
  end.

(** [a || b]. *)
Definition js_or (a b : JsVal) : JsVal := if truthy a then a else b.

Definition nullish (v : JsVal) : bool :=
  match v with JUndef | JNull => true | _ => false end.

(** [v === n] for a number literal and [v === s] for a string literal. *)
Definition is_num (v : JsVal) (n : Z) : bool :=
  match v with JNum m => m =? n | _ => false end.

Definition is_str (v : JsVal) (s : string) : bool :=
  match v with JStr t => (t =? s)%string | _ => false end.

Fixpoint assoc (k : string) (fs : list (string * JsVal)) : option JsVal :=
  match fs with
  | [] => None
  | (k', v) :: rest => if (k' =? k)%string then Some v else assoc k rest
  end.

(** Writing a property: an existing key keeps its place, a new key goes
    last. *)
Fixpoint obj_set (fs : list (string * JsVal)) (k : string) (v : JsVal)
  : list (string * JsVal) :=
  match fs with
  | [] => [(k, v)]
  | (k', v') :: rest =>
      if (k' =? k)%string then (k, v) :: rest else (k', v') :: obj_set rest k v
  end.

Definition string_of_Z (n : Z) : string := NilZero.string_of_int (Z.to_int n).
Definition string_of_nat (n : nat) : string := string_of_Z (Z.of_nat n).

(** [String.prototype.trim]: white space and line terminators among the
    code units below 256 are TAB, LF, VT, FF, CR, SP and NBSP. *)
Definition is_space (c : ascii) : bool :=
  let n := nat_of_ascii c in
  (Nat.eqb n 9 || Nat.eqb n 10 || Nat.eqb n 11 || Nat.eqb n 12
   || Nat.eqb n 13 || Nat.eqb n 32 || Nat.eqb n 160)%bool.

Fixpoint trim_start (s : string) : string :=
  match s with
  | EmptyString => EmptyString
  | String c r => if is_space c then trim_start r else s
  end.

Fixpoint trim_end (s : string) : string :=
  match s with
  | EmptyString => EmptyString
  | String c r =>
      match trim_end r with
      | EmptyString => if is_space c then EmptyString else String c EmptyString
      | r' => String c r'
      end
  end.

Definition trim (s : string) : string := trim_end (trim_start s).

(** [ToString], as used by template literals.  An array prints its
    elements joined by commas, [null] and [undefined] elements as the
    empty string.  The rendering is exact on strings, booleans, [null],
    [undefined], integers below 2^53 in absolute value, and arrays of
    these; a number beyond that range prints by its shortest round-trip
    digits in JavaScript, and an object may carry a [toString] of its
    own. *)
Fixpoint toString (v : JsVal) : string :=
  match v with
  | JUndef => "undefined"
  | JNull => "null"
  | JBool true => "true"
  | JBool false => "false"
  | JNum n => string_of_Z n
  | JStr s => s
  | JArr xs =>
      (fix join (l : list JsVal) : string :=
         match l with
         | [] => ""
         | x :: rest =>
             let sx := if nullish x then "" else toString x in
             match rest with
             | [] => sx
             | _ => sx ++ "," ++ join rest
             end
         end) xs
  | JObj _ => "[object Object]"
  | JFun name => "function " ++ name ++ "() { [native code] }"
  end.

(* ===================================================================== *)
(** ** Errors *)
(* ===================================================================== *)

(** Modelled from the spec: the class [AppError] of
    [core/errors/AppError.js], the NormalizedError
    [{message, statusCode, errorCode}] built by
    [new AppError(message, statusCode, errorCode)].  [errorCode] is [None]
    where the call site passes two arguments only. *)
Record AppError : Type := mkAppError {
  message : string;
  statusCode : Z;
  errorCode : option string
}.

(** Any other thrown object: a [TypeError], the bare [new Error()], or a
    rejection of the HTTP client.  The catch blocks only read
    [error.statusCode] and [error.response?.status] from it, and these two
    readings are what the record keeps.  (A thrown value is taken to be an
    object, as every [Error] is.) *)
Record RawError : Type := mkRawError {
  raw_name : string;
  raw_statusCode : JsVal;
  raw_response_status : JsVal
}.

Inductive Thrown : Type :=
| App (e : AppError)
| Raw (r : RawError).

Definition TypeError : Thrown := Raw (mkRawError "TypeError" JUndef JUndef).
Definition Error_ : Thrown := Raw (mkRawError "Error" JUndef JUndef).

(** [error.statusCode] and [error.response?.status]. *)
Definition err_statusCode (e : Thrown) : JsVal :=
  match e with
  | App a => JNum (statusCode a)
  | Raw r => raw_statusCode r
  end.

Definition err_response_status (e : Thrown) : JsVal :=
  match e with
  | App _ => JUndef
  | Raw r => raw_response_status r
  end.

(** A NormalizedError: an [AppError] that carries all three fields. *)
Definition is_normalized (e : Thrown) : Prop :=
  match e with
  | App a => exists code, errorCode a = Some code
  | Raw _ => False
  end.

(* ===================================================================== *)
(** ** Expressions that may throw *)
(* ===================================================================== *)

Definition Exn (A : Type) : Type := (Thrown + A)%type.

Definition ebind {A B : Type} (m : Exn A) (f : A -> Exn B) : Exn B :=
  match m with
  | inl e => inl e
  | inr a => f a
  end.

Declare Scope exn_scope.
Delimit Scope exn_scope with exn.
Notation "'let?' x := m 'in' k" := (ebind m (fun x => k))
  (at level 10, x name, m at level 100, k at level 200) : exn_scope.
Local Open Scope exn_scope.

(** [v.k]: a [TypeError] on [null] and [undefined]. *)
Definition get_prop (v : JsVal) (k : string) : Exn JsVal :=
  match v with
  | JUndef | JNull => inl TypeError
  | JObj fs => inr (match assoc k fs with Some x => x | None => JUndef end)
  | JArr _ =>
      inr (if (k =? "sort")%string || (k =? "values")%string
           then JFun k else JUndef)
  | _ => inr JUndef
  end.

(** [v?.k]. *)
Definition get_prop_opt (v : JsVal) (k : string) : JsVal :=
  match get_prop v k with
  | inl _ => JUndef
  | inr x => x
  end.

(** [v[0]]. *)
Definition get_index0 (v : JsVal) : Exn JsVal :=
  match v with
  | JUndef | JNull => inl TypeError
  | JArr [] => inr JUndef
  | JArr (x :: _) => inr x
  | JStr EmptyString => inr JUndef
  | JStr (String c _) => inr (JStr (String c EmptyString))
  | JObj fs => inr (match assoc "0" fs with Some x => x | None => JUndef end)
  | _ => inr JUndef
  end.

(** [v.trim()]: only strings have the method. *)
Definition call_trim (v : JsVal) : Exn JsVal :=
  match v with
  | JStr s => inr (JStr (trim s))
  | _ => inl TypeError
  end.

(** [arr.find((par) => par.key === k)] and the variant with [par?.key]
    that [init] uses; [find] exists on arrays only. *)
Fixpoint find_in (safe : bool) (k : string) (xs : list JsVal) : Exn JsVal :=
  match xs with
  | [] => inr JUndef
  | par :: rest =>
      if nullish par then
        if safe then find_in safe k rest else inl TypeError
      else if is_str (get_prop_opt par "key") k then inr par
      else find_in safe k rest
  end.

Definition call_find (safe : bool) (v : JsVal) (k : string) : Exn JsVal :=
  match v with
  | JArr xs => find_in safe k xs
  | _ => inl TypeError
  end.

(** [arr.map(f)]. *)
Fixpoint map_exn (f : JsVal -> Exn JsVal) (xs : list JsVal) : Exn (list JsVal) :=
  match xs with
  | [] => inr []
  | x :: rest =>
      match f x with
      | inl e => inl e
      | inr y =>
          match map_exn f rest with
          | inl e => inl e
          | inr ys => inr (y :: ys)
          end
      end
  end.

Definition call_map (v : JsVal) (f : JsVal -> Exn JsVal) : Exn JsVal :=
  match v with
  | JArr xs =>
      match map_exn f xs with
      | inl e => inl e
      | inr ys => inr (JArr ys)
      end
  | _ => inl TypeError
  end.

(** The own enumerable properties copied by [{...v}]. *)
Fixpoint indexed (i : nat) (xs : list JsVal) : list (string * JsVal) :=
  match xs with
  | [] => []
  | x :: rest => (string_of_nat i, x) :: indexed (S i) rest
  end.

Fixpoint chars (s : string) : list JsVal :=
  match s with
  | EmptyString => []
  | String c r => JStr (String c EmptyString) :: chars r
  end.

Definition spread (v : JsVal) : list (string * JsVal) :=
  match v with
  | JObj fs => fs
  | JArr xs => indexed 0 xs
  | JStr s => indexed 0 (chars s)
  | _ => []
  end.

(** [v?.rest]: the rest of an optional chain is skipped on [null] and
    [undefined]. *)
Definition opt_chain (v : JsVal) (rest : JsVal -> Exn JsVal) : Exn JsVal :=
  if nullish v then inr JUndef else rest v.

(** The parameter of a method declared [options = {}]. *)
Definition default_arg (options : JsVal) : JsVal :=
  match options with JUndef => JObj [] | _ => options end.

(** [options?.configs?.params || []]. *)
Definition params_of (options : JsVal) : JsVal :=
  js_or (get_prop_opt (get_prop_opt options "configs") "params") (JArr []).

(** [options?.find((par) => par.key === k)?.value[0] || dflt]. *)
Definition param (options : JsVal) (k : string) (dflt : JsVal) : Exn JsVal :=
  let? r := opt_chain options (fun o =>
              let? par := call_find false o k in
              opt_chain par (fun par =>
                let? v := get_prop par "value" in get_index0 v)) in
  inr (js_or r dflt).

(** [options?.find((par) => par.key === k)?.value[0]?.trim()]. *)
Definition param_trim_raw (options : JsVal) (k : string) : Exn JsVal :=
  opt_chain options (fun o =>
    let? par := call_find false o k in
    opt_chain par (fun par =>
      let? v := get_prop par "value" in
      let? w := get_index0 v in
      opt_chain w call_trim)).

(** [options?.find((par) => par.key === k)?.value[0]?.trim() || dflt]. *)
Definition param_trim (options : JsVal) (k : string) (dflt : JsVal) : Exn JsVal :=
  let? r := param_trim_raw options k in inr (js_or r dflt).

(** [options?.find((par) => par.key === k).value[0].trim() || ""]: only
    the first link of the chain is optional. *)
Definition param_trim_strict (options : JsVal) (k : string) : Exn JsVal :=
  let? r := opt_chain options (fun o =>
              let? par := call_find false o k in
              let? v := get_prop par "value" in
              let? w := get_index0 v in
              call_trim w) in
  inr (js_or r (JStr "")).

(** Evaluating an expression throws nothing but a [TypeError]. *)
Definition only_TypeError {A : Type} (x : Exn A) : Prop :=
  forall e, x = inl e -> e = TypeError.

(* ===================================================================== *)
(** ** The HTTP client, the configuration store and the provider state *)
(* ===================================================================== *)

(** The instance returned by [axios.create]. *)
Record Client : Type := mkClient {
  baseURL : JsVal;
  auth : option (JsVal * JsVal);
  headers : list (string * JsVal)
}.

Inductive Method : Type := GET | POST.

Record Request : Type := mkRequest {
  via : Client;
  method : Method;
  url : string;
  query : list (string * JsVal);
  body : JsVal
}.

(** A call made through the client and what it gave: the [data] of the
    response, or the rejection. *)
Definition HttpEvent : Type := (Request * Exn JsVal)%type.

(** The collaborators outside the file: [ConfigManager] (its store, with
    [getConfig] and [saveConfigs]) and the vendor behind the HTTP client,
    which answers a request given the calls made before it. *)
Record Env : Type := mkEnv {
  Store : Type;
  getConfig : Store -> string -> Exn JsVal;
  saveConfigs : Store -> JsVal -> Exn Store;
  http : list HttpEvent -> Request -> Exn JsVal
}.

(** The fields of a provider instance ([this.client], [this.owner], and
    [this.config] set by the [BaseProvider] constructor), the store of
    [ConfigManager], and the HTTP calls made so far, latest first. *)
Record State (E : Env) : Type := mkState {
  client : option Client;
  owner : JsVal;
  config : JsVal;
  store : Store E;
  trace : list HttpEvent
}.
Arguments mkState {E} _ _ _ _ _.

Section Monad.
Context {E : Env}.

(** A method body: it runs from a state to a result or a thrown value,
    and to the state it leaves; a throw keeps the writes made before it. *)
Definition M (A : Type) : Type := State E -> Exn A * State E.

Definition ret {A : Type} (a : A) : M A := fun st => (inr a, st).

Definition throw {A : Type} (e : Thrown) : M A := fun st => (inl e, st).

Definition bind {A B : Type} (m : M A) (f : A -> M B) : M B :=
  fun st =>
    match m st with
    | (inl e, st') => (inl e, st')
    | (inr a, st') => f a st'
    end.

Definition lift {A : Type} (x : Exn A) : M A := fun st => (x, st).

(** [try { body } catch (error) { handler }]. *)
Definition try_catch {A : Type} (body : M A) (handler : Thrown -> M A) : M A :=
  fun st =>
    match body st with
    | (inl e, st') => handler e st'
    | (inr a, st') => (inr a, st')
    end.

Definition set_owner (v : JsVal) : M unit :=
  fun st => (inr tt, mkState (client st) v (config st) (store st) (trace st)).

Definition set_client (c : Client) : M unit :=
  fun st => (inr tt, mkState (Some c) (owner st) (config st) (store st) (trace st)).

Definition get_owner : M JsVal := fun st => (inr (owner st), st).

(** [this.config.k]. *)
Definition get_config (k : string) : M JsVal :=
  fun st => (get_prop (config st) k, st).

(** [ConfigManager.getConfig(name)] and [ConfigManager.saveConfigs(c)]. *)
Definition ConfigManager_getConfig (name : string) : M JsVal :=
  fun st => (getConfig E (store st) name, st).

Definition ConfigManager_saveConfigs (newConfigs : JsVal) : M unit :=
  fun st =>
    match saveConfigs E (store st) newConfigs with
    | inl e => (inl e, st)
    | inr store' =>
        (inr tt, mkState (client st) (owner st) (config st) store' (trace st))
    end.

(** [this.client.get(url, {params})] and [this.client.post(url, body)],
    giving the [data] of the response.  With [this.client] still [null]
    the member access throws a [TypeError] and nothing is sent. *)
Definition request (m : Method) (u : string) (q : list (string * JsVal))
  (b : JsVal) : M JsVal :=
  fun st =>
    match client st with
    | None => (inl TypeError, st)
    | Some c =>
        let req := mkRequest c m u q b in
        let res := http E (trace st) req in
        (res, mkState (client st) (owner st) (config st) (store st)
                ((req, res) :: trace st))
    end.

Definition client_get (u : string) (q : list (string * JsVal)) : M JsVal :=
  request GET u q JUndef.

Definition client_post (u : string) (b : JsVal) : M JsVal :=
  request POST u [] b.

(** [error.response?.status === n || error.statusCode === n]. *)
Definition status_is (error : Thrown) (n : Z) : bool :=
  is_num (err_response_status error) n || is_num (err_statusCode error) n.

End Monad.

Declare Scope m_scope.
Delimit Scope m_scope with m.
Notation "x <- m ;; k" := (bind m (fun x => k))
  (at level 100, m at next level, right associativity) : m_scope.
Notation "m ;;; k" := (bind m (fun _ => k))
  (at level 100, right associativity) : m_scope.
Local Open Scope m_scope.

Definition new_AppError (msg : string) (status : Z) (code : option string) : Thrown :=
  App (mkAppError msg status code).

(* ===================================================================== *)
(** ** class GithubProvider *)
(* ===================================================================== *)

Module GithubProvider.
Section Methods.
Context {E : Env}.

(** [configs?.params?.find((par) => par?.key === k)?.value[0] || ""]. *)
Definition credential (configs : JsVal) (k : string) : Exn JsVal :=
  let? r := opt_chain configs (fun c =>
              let? ps := get_prop c "params" in
              opt_chain ps (fun ps =>
                let? par := call_find true ps k in
                opt_chain par (fun par =>
                  let? v := get_prop par "value" in get_index0 v))) in
  inr (js_or r (JStr "")).

Definition createClient (token : JsVal) : M (E:=E) JsVal :=
  try_catch
    (if negb (truthy token) then
       throw (new_AppError "GitHub authentication failed" 401 (Some "AUTH_FAILED"))
     else
       apiBaseUrl <- get_config "apiBaseUrl" ;;
       apiVersion <- get_config "apiVersion" ;;
       set_client (mkClient apiBaseUrl None
                     [("Authorization", JStr ("Bearer " ++ toString token));
                      ("Accept", JStr "application/vnd.github+json");
                      ("X-GitHub-Api-Version", apiVersion)]) ;;;
       data <- client_get "/user" [] ;;
       ret data)
    (fun error => throw error).

Definition init : M (E:=E) unit :=
  try_catch
    (configs <- ConfigManager_getConfig "github_config" ;;
     token <- lift (credential configs "token") ;;
     owner' <- lift (credential configs "owner") ;;
     set_owner owner' ;;;
     if negb (truthy token) then
       throw (new_AppError "GitHub token not found in configurations"
                401 (Some "AUTH_FAILED"))
     else if negb (truthy owner') then
       throw (new_AppError
                "GitHub owner (account username) not found in configurations"
                401 (Some "AUTH_FAILED"))
     else
       createClient token ;;; ret tt)
    (fun error =>
       if is_str (err_statusCode error) "401"
          || is_num (err_response_status error) 401
          || is_num (err_statusCode error) 401
       then throw error
       else throw (new_AppError "Failed to initialize GitHub provider" 500 None)).

Definition actionUpdatePluginConfig (options : JsVal) : M (E:=E) JsVal :=
  let options := default_arg options in
  try_catch
    (newConfigs <- lift (get_prop options "configs") ;;
     ConfigManager_saveConfigs newConfigs ;;;
     init ;;;
     ret (JObj [("message", JStr "Configuration updated successfully");
                ("configs", newConfigs)]))
    (fun error =>
       throw (new_AppError "Failed to update plugin configuration"
                500 (Some "CONFIG_UPDATE_FAILED"))).

(** The catch block that every repository action of the class repeats:
    [if (error.response?.status === 404 || error.statusCode === 404) throw
    e404; if (error.response?.status === 400 || error.statusCode === 400)
    throw error; throw e500].  Each action below is written as its try
    block, [action*_try], under its catch block. *)
Definition catch_404_400 (e404 e500 : Thrown) (error : Thrown) : M (E:=E) JsVal :=
  if status_is error 404 then throw e404
  else if status_is error 400 then throw error
  else throw e500.

Definition actionListRepos_try (options : JsVal) : M (E:=E) JsVal :=
  let options := params_of options in
  visibility <- lift (param options "visibility" (JStr "all")) ;;
  sort <- lift (param options "sort" (JStr "updated")) ;;
  page <- lift (param options "page" (JNum 1)) ;;
  data <- client_get "/user/repos"
            [("visibility", visibility); ("sort", sort);
             ("per_page", JNum 50); ("page", page)] ;;
  ret data.

Definition actionListRepos (options : JsVal) : M (E:=E) JsVal :=
  let options := default_arg options in
  try_catch (actionListRepos_try options)
    (catch_404_400
       (new_AppError "Resources not found" 404 (Some "RESOURCE_NOT_FOUND"))
       (new_AppError "Failed to fetch repositories" 500 (Some "FETCH_REPOS_FAILED"))).

Definition actionGetRepo_try (options : JsVal) : M (E:=E) JsVal :=
  let options := params_of options in
  repoName <- lift (param_trim options "repoName" (JStr "")) ;;
  if negb (truthy repoName) then
    throw (new_AppError "Repository name is required"
             400 (Some "MISSING_REQUIRED_PARAMS"))
  else
    owner <- get_owner ;;
    data <- client_get ("/repos/" ++ toString owner ++ "/" ++ toString repoName) [] ;;
    ret data.

Definition actionGetRepo (options : JsVal) : M (E:=E) JsVal :=
  let options := default_arg options in
  try_catch (actionGetRepo_try options)
    (catch_404_400
       (new_AppError "Repository not found" 404 (Some "REPOSITORY_NOT_FOUND"))
       (new_AppError "Failed to fetch repository" 500 (Some "FETCH_REPO_FAILED"))).

Definition actionListRepoContents_try (options : JsVal) : M (E:=E) JsVal :=
  let options := params_of options in
  repoName <- lift (param_trim options "repoName" (JStr "")) ;;
  path <- lift (param_trim options "path" (JStr "")) ;;
  ref <- lift (param_trim options "ref" (JStr "")) ;;
  if negb (truthy repoName) then
    throw (new_AppError "Repository name is required"
             400 (Some "MISSING_REQUIRED_PARAMS"))
  else
    let params := [("ref", js_or ref JUndef)] in
    owner <- get_owner ;;
    data <- client_get ("/repos/" ++ toString owner ++ "/" ++ toString repoName
                        ++ "/contents/" ++ toString path) params ;;
    ret data.

Definition actionListRepoContents (options : JsVal) : M (E:=E) JsVal :=
  let options := default_arg options in
  try_catch (actionListRepoContents_try options)
    (catch_404_400
       (new_AppError "Repository path or reference not found"
          404 (Some "RESOURCE_NOT_FOUND"))
       (new_AppError "Failed to fetch repository contents"
          500 (Some "FETCH_CONTENTS_FAILED"))).

Definition actionGetRepoFileContent_try (options : JsVal) : M (E:=E) JsVal :=
  let options := params_of options in
  repoName <- lift (param_trim options "repoName" (JStr "")) ;;
  path <- lift (param_trim options "path" (JStr "")) ;;
  ref <- lift (param_trim options "ref" (JStr "")) ;;
  if negb (truthy repoName) || negb (truthy path) then
    throw (new_AppError "Repository name and file path are required"
             400 (Some "MISSING_REQUIRED_PARAMS"))
  else
    let params := [("ref", js_or ref JUndef)] in
    owner <- get_owner ;;
    data <- client_get ("/repos/" ++ toString owner ++ "/" ++ toString repoName
                        ++ "/contents/" ++ toString path) params ;;
    ret data.

Definition actionGetRepoFileContent (options : JsVal) : M (E:=E) JsVal :=
  let options := default_arg options in
  try_catch (actionGetRepoFileContent_try options)
    (catch_404_400
       (new_AppError "File not found or inaccessible" 404 (Some "RESOURCE_NOT_FOUND"))
       (new_AppError "Failed to fetch file content" 500 (Some "FETCH_CONTENT_FAILED"))).

Definition actionListBranches_try (options : JsVal) : M (E:=E) JsVal :=
  let options := params_of options in
  repoName <- lift (param_trim options "repoName" (JStr "")) ;;
  if negb (truthy repoName) then
    throw (new_AppError "Repository name is required"
             400 (Some "MISSING_REQUIRED_PARAMS"))
  else
    owner <- get_owner ;;
    data <- client_get ("/repos/" ++ toString owner ++ "/" ++ toString repoName
                        ++ "/branches") [] ;;
    ret data.

Definition actionListBranches (options : JsVal) : M (E:=E) JsVal :=
  let options := default_arg options in
  try_catch (actionListBranches_try options)
    (catch_404_400
       (new_AppError "Repository not found" 404 (Some "REPOSITORY_NOT_FOUND"))
       (new_AppError "Failed to fetch branches" 500 (Some "FETCH_BRANCHES_FAILED"))).

Definition actionListBranchCommits_try (options : JsVal) : M (E:=E) JsVal :=
  let options := params_of options in
  repoName <- lift (param_trim options "repoName" (JStr "")) ;;
  branch <- lift (param_trim options "branch" (JStr "")) ;;
  if negb (truthy repoName) then
    throw (new_AppError "Repository name is required"
             400 (Some "MISSING_REQUIRED_PARAMS"))
  else
    let params := [("sha", js_or branch JUndef)] in
    owner <- get_owner ;;
    data <- client_get ("/repos/" ++ toString owner ++ "/" ++ toString repoName
                        ++ "/commits") params ;;
    ret data.

Definition actionListBranchCommits (options : JsVal) : M (E:=E) JsVal :=
  let options := default_arg options in
  try_catch (actionListBranchCommits_try options)
    (catch_404_400
       (new_AppError "Branch or repository not found" 404 (Some "RESOURCE_NOT_FOUND"))
       (new_AppError "Failed to fetch commits" 500 (Some "FETCH_COMMITS_FAILED"))).

(** [(file) => ({filename: file.filename, status: file.status, ...})]. *)
Definition file_summary (file : JsVal) : Exn JsVal :=
  let? filename := get_prop file "filename" in
  let? status := get_prop file "status" in
  let? additions := get_prop file "additions" in
  let? deletions := get_prop file "deletions" in
  let? changes := get_prop file "changes" in
  inr (JObj [("filename", filename); ("status", status);
             ("additions", additions); ("deletions", deletions);
             ("changes", changes)]).

Definition actionListCommitModifications_try (options : JsVal) : M (E:=E) JsVal :=
  let options := params_of options in
  repoName <- lift (param_trim_strict options "repoName") ;;
  commitSha <- lift (param_trim_strict options "commitSha") ;;
  includeContent <- lift (param options "includeContent" (JBool false)) ;;
  if negb (truthy repoName) || negb (truthy commitSha) then
    throw (new_AppError "Repository name and commit SHA are required"
             400 (Some "MISSING_REQUIRED_PARAMS"))
  else
    owner <- get_owner ;;
    data <- client_get ("/repos/" ++ toString owner ++ "/" ++ toString repoName
                        ++ "/commits/" ++ toString commitSha) [] ;;
    if negb (truthy includeContent) then
      files <- lift (get_prop data "files") ;;
      lift (call_map files file_summary)
    else
      lift (get_prop data "files").

Definition actionListCommitModifications (options : JsVal) : M (E:=E) JsVal :=
  let options := default_arg options in
  try_catch (actionListCommitModifications_try options)
    (catch_404_400
       (new_AppError "Commit or repository not found" 404 (Some "RESOURCE_NOT_FOUND"))
       (new_AppError "Failed to fetch commit modifications"
          500 (Some "FETCH_MODIFICATIONS_FAILED"))).

(** The object returned by [actionGetCommitDetails]. *)
Definition commit_details (data : JsVal) : Exn JsVal :=
  let? sha := get_prop data "sha" in
  let? author := get_prop data "author" in
  let? committer := get_prop data "committer" in
  let? commit := get_prop data "commit" in
  let? c_message := get_prop commit "message" in
  let? c_author := get_prop commit "author" in
  let? c_committer := get_prop commit "committer" in
  let? c_verification := get_prop commit "verification" in
  let? stats := get_prop data "stats" in
  let? files := get_prop data "files" in
  let? parents := get_prop data "parents" in
  let? html_url := get_prop data "html_url" in
  inr (JObj [("sha", sha); ("author", author); ("committer", committer);
             ("commit", JObj [("message", c_message); ("author", c_author);
                              ("committer", c_committer);
                              ("verification", c_verification)]);
             ("stats", stats); ("files", files); ("parents", parents);
             ("html_url", html_url)]).

Definition actionGetCommitDetails_try (options : JsVal) : M (E:=E) JsVal :=
  let options := params_of options in
  repoName <- lift (param_trim options "repoName" (JStr "")) ;;
  commitSha <- lift (param_trim options "commitSha" (JStr "")) ;;
  if negb (truthy repoName) || negb (truthy commitSha) then
    throw (new_AppError "Repository name and commit SHA are required"
             400 (Some "MISSING_REQUIRED_PARAMS"))
  else
    owner <- get_owner ;;
    data <- client_get ("/repos/" ++ toString owner ++ "/" ++ toString repoName
                        ++ "/commits/" ++ toString commitSha) [] ;;
    lift (commit_details data).

Definition actionGetCommitDetails (options : JsVal) : M (E:=E) JsVal :=
  let options := default_arg options in
  try_catch (actionGetCommitDetails_try options)
    (catch_404_400
       (new_AppError "Commit or repository not found" 404 (Some "RESOURCE_NOT_FOUND"))
       (new_AppError "Failed to fetch commit details"
          500 (Some "FETCH_COMMIT_DETAILS_FAILED"))).

Definition actionCommitsDiff_try (options : JsVal) : M (E:=E) JsVal :=
  let options := params_of options in
  repoName <- lift (param_trim options "repoName" (JStr "")) ;;
  baseCommit <- lift (param_trim options "baseCommit" (JStr "")) ;;
  headCommit <- lift (param_trim options "headCommit" (JStr "")) ;;
  filePath <- lift (param_trim_raw options "filePath") ;;
  if negb (truthy repoName) || negb (truthy baseCommit)
     || negb (truthy headCommit) then
    throw (new_AppError
             "Repository name, base commit and head commit are required"
             400 (Some "MISSING_REQUIRED_PARAMS"))
  else
    owner <- get_owner ;;
    data <- client_get ("/repos/" ++ toString owner ++ "/" ++ toString repoName
                        ++ "/compare/" ++ toString baseCommit ++ "..."
                        ++ toString headCommit)
              [("path", js_or filePath JUndef)] ;;
    ret data.

Definition actionCommitsDiff (options : JsVal) : M (E:=E) JsVal :=
  let options := default_arg options in
  try_catch (actionCommitsDiff_try options)
    (catch_404_400
       (new_AppError "Repository or commits not found" 404 (Some "RESOURCE_NOT_FOUND"))
       (new_AppError "Failed to compare commits" 500 (Some "COMPARE_COMMITS_FAILED"))).

Definition actionCommentPrs_try (options : JsVal) : M (E:=E) JsVal :=
  let options := params_of options in
  repoName <- lift (param_trim options "repoName" (JStr "")) ;;
  prNumber <- lift (param_trim options "prNumber" (JStr "")) ;;
  comment <- lift (param_trim options "comment" (JStr "")) ;;
  if negb (truthy repoName) || negb (truthy prNumber)
     || negb (truthy comment) then
    throw (new_AppError
             "Repository name, PR number and comment text are required"
             400 (Some "MISSING_REQUIRED_PARAMS"))
  else
    owner <- get_owner ;;
    data <- client_post ("/repos/" ++ toString owner ++ "/" ++ toString repoName
                         ++ "/issues/" ++ toString prNumber ++ "/comments")
              (JObj [("body", comment)]) ;;
    ret data.

Definition actionCommentPrs (options : JsVal) : M (E:=E) JsVal :=
  let options := default_arg options in
  try_catch (actionCommentPrs_try options)
    (catch_404_400
       (new_AppError "Pull request or repository not found"
          404 (Some "RESOURCE_NOT_FOUND"))
       (new_AppError "Failed to create PR comment" 500 (Some "CREATE_COMMENT_FAILED"))).

Definition actionListPipelines_try (options : JsVal) : M (E:=E) JsVal :=
  let options := params_of options in
  repoName <- lift (param_trim options "repoName" (JStr "")) ;;
  if negb (truthy repoName) then
    throw (new_AppError "Repository name is required"
             400 (Some "MISSING_REQUIRED_PARAMS"))
  else
    owner <- get_owner ;;
    data <- client_get ("/repos/" ++ toString owner ++ "/" ++ toString repoName
                        ++ "/methods/workflows") [] ;;
    ret data.

Definition actionListPipelines (options : JsVal) : M (E:=E) JsVal :=
  let options := default_arg options in
  try_catch (actionListPipelines_try options)
    (catch_404_400
       (new_AppError "Repository not found" 404 (Some "RESOURCE_NOT_FOUND"))
       (new_AppError "Failed to fetch pipelines" 500 (Some "FETCH_PIPELINES_FAILED"))).

Definition actionListDeployments_try (options : JsVal) : M (E:=E) JsVal :=
  let options := params_of options in
  repoName <- lift (param_trim options "repoName" (JStr "")) ;;
  if negb (truthy repoName) then
    throw (new_AppError "Repository name is required"
             400 (Some "MISSING_REQUIRED_PARAMS"))
  else
    owner <- get_owner ;;
    data <- client_get ("/repos/" ++ toString owner ++ "/" ++ toString repoName
                        ++ "/deployments") [] ;;
    ret data.

Definition actionListDeployments (options : JsVal) : M (E:=E) JsVal :=
  let options := default_arg options in
  try_catch (actionListDeployments_try options)
    (catch_404_400
       (new_AppError "Repository not found" 404 (Some "RESOURCE_NOT_FOUND"))
       (new_AppError "Failed to fetch deployments"
          500 (Some "FETCH_DEPLOYMENTS_FAILED"))).

End Methods.

(** The repository actions of the class, by name. *)
Inductive Action : Type :=
| ListRepos | GetRepo | ListRepoContents | GetRepoFileContent | ListBranches
| ListBranchCommits | ListCommitModifications | GetCommitDetails | CommitsDiff
| CommentPrs | ListPipelines | ListDeployments.

Definition invoke {E : Env} (a : Action) : JsVal -> M (E:=E) JsVal :=
  match a with
  | ListRepos => actionListRepos
  | GetRepo => actionGetRepo
  | ListRepoContents => actionListRepoContents
  | GetRepoFileContent => actionGetRepoFileContent
  | ListBranches => actionListBranches
  | ListBranchCommits => actionListBranchCommits
  | ListCommitModifications => actionListCommitModifications
  | GetCommitDetails => actionGetCommitDetails
  | CommitsDiff => actionCommitsDiff
  | CommentPrs => actionCommentPrs
  | ListPipelines => actionListPipelines
  | ListDeployments => actionListDeployments
  end.

(** The try block of each action. *)
Definition try_of {E : Env} (a : Action) : JsVal -> M (E:=E) JsVal :=
  match a with
  | ListRepos => actionListRepos_try
  | GetRepo => actionGetRepo_try
  | ListRepoContents => actionListRepoContents_try
  | GetRepoFileContent => actionGetRepoFileContent_try
  | ListBranches => actionListBranches_try
  | ListBranchCommits => actionListBranchCommits_try
  | ListCommitModifications => actionListCommitModifications_try
  | GetCommitDetails => actionGetCommitDetails_try
  | CommitsDiff => actionCommitsDiff_try
  | CommentPrs => actionCommentPrs_try
  | ListPipelines => actionListPipelines_try
  | ListDeployments => actionListDeployments_try
  end.

(** The keys tested by the guard [if (!a || !b) throw ...] of each action. *)
Definition required (a : Action) : list string :=
  match a with
  | ListRepos => []
  | GetRepo | ListRepoContents | ListBranches | ListBranchCommits
  | ListPipelines | ListDeployments => ["repoName"]
  | GetRepoFileContent => ["repoName"; "path"]
  | ListCommitModifications | GetCommitDetails => ["repoName"; "commitSha"]
  | CommitsDiff => ["repoName"; "baseCommit"; "headCommit"]
  | CommentPrs => ["repoName"; "prNumber"; "comment"]
  end.

End GithubProvider.

(* ===================================================================== *)
(** ** class BitbucketProvider *)
(* ===================================================================== *)

Module BitbucketProvider.
Section Methods.
Context {E : Env}.

(** [configs?.params?.find((par) => par?.key === k)?.value || ""]: the
    whole [value] sequence, not its first element. *)
Definition credential (configs : JsVal) (k : string) : Exn JsVal :=
  let? r := opt_chain configs (fun c =>
              let? ps := get_prop c "params" in
              opt_chain ps (fun ps =>
                let? par := call_find true ps k in
                opt_chain par (fun par => get_prop par "value"))) in
  inr (js_or r (JStr "")).

Definition createClient (username appPassword : JsVal) : M (E:=E) JsVal :=
  try_catch
    (apiBaseUrl <- get_config "apiBaseUrl" ;;
     set_client (mkClient apiBaseUrl (Some (username, appPassword))
                   [("Accept", JStr "application/json")]) ;;;
     data <- client_get "/user" [] ;;
     ret data)
    (fun error =>
       throw (new_AppError "Bitbucket authentication failed" 401 (Some "AUTH_FAILED"))).

Definition init : M (E:=E) unit :=
  try_catch
    (configs <- ConfigManager_getConfig "bitbucket_config" ;;
     username <- lift (credential configs "username") ;;
     appPassword <- lift (credential configs "appPassword") ;;
     owner' <- lift (credential configs "owner") ;;
     set_owner owner' ;;;
     if negb (truthy username) || negb (truthy appPassword) then
       throw (new_AppError "Bitbucket credentials not found" 401 (Some "AUTH_FAILED"))
     else
       createClient username appPassword ;;; ret tt)
    (fun error =>
       if status_is error 401 then throw error
       else throw (new_AppError "Failed to initialize Bitbucket provider" 500 None)).

(** [error.statusCode === "400" || error.response?.status === 400 ||
    error.statusCode === 400].  As in [GithubProvider], each action below is
    written as its try block, [action*_try], under its catch block; the
    calls to [console.error] are left out. *)
Definition status_is_400 (error : Thrown) : bool :=
  is_str (err_statusCode error) "400" || status_is error 400.

Definition actionListBitbucketWorkspaces_try (options : JsVal) : M (E:=E) JsVal :=
  let options := params_of options in
  page <- lift (param options "page" (JNum 1)) ;;
  role <- lift (param options "role" (JStr "member")) ;;
  data <- client_get "/workspaces"
            [("page", page); ("pagelen", JNum 50); ("role", role)] ;;
  values <- lift (get_prop data "values") ;;
  ret (js_or values (JArr [])).

Definition actionListBitbucketWorkspaces (options : JsVal) : M (E:=E) JsVal :=
  let options := default_arg options in
  try_catch (actionListBitbucketWorkspaces_try options)
    (fun error =>
       if status_is error 400 then throw error
       else throw (new_AppError "Failed to fetch workspaces"
                     500 (Some "FETCH_WORKSPACES_FAILED"))).

(** The class defines [actionListRepos] twice; the later definition is the
    method of the class (the two differ in a log line only). *)
Definition actionListRepos_try (options : JsVal) : M (E:=E) JsVal :=
  owner <- get_owner ;;
  data <- client_get ("/repositories/" ++ toString owner)
            [("sort", js_or (get_prop_opt options "sort") (JStr "-updated_on"));
             ("page", js_or (get_prop_opt options "page") (JNum 1));
             ("pagelen", js_or (get_prop_opt options "perPage") (JNum 50))] ;;
  lift (get_prop data "values").

Definition actionListRepos (options : JsVal) : M (E:=E) JsVal :=
  let options := default_arg options in
  try_catch (actionListRepos_try options)
    (fun error =>
       throw (new_AppError "Failed to fetch repositories"
                500 (Some "FETCH_REPOS_FAILED"))).

Definition actionGetRepo_try (options : JsVal) : M (E:=E) JsVal :=
  let options := params_of options in
  repoName <- lift (param_trim options "repoName" (JStr "")) ;;
  if negb (truthy repoName) then throw Error_
  else
    owner <- get_owner ;;
    data <- client_get ("/repositories/" ++ toString owner ++ "/"
                        ++ toString repoName) [] ;;
    ret data.

Definition actionGetRepo (options : JsVal) : M (E:=E) JsVal :=
  let options := default_arg options in
  try_catch (actionGetRepo_try options)
    (fun error =>
       throw (new_AppError "Failed to fetch repository" 500 (Some "FETCH_REPO_FAILED"))).

Definition actionListRepoContents_try (options : JsVal) : M (E:=E) JsVal :=
  let options := params_of options in
  repoName <- lift (param_trim options "repoName" (JStr "")) ;;
  commit <- lift (param_trim options "ref" (JStr "")) ;;
  if negb (truthy repoName) || negb (truthy commit) then
    throw (new_AppError "Repository name and commit are required"
             400 (Some "MISSING_REQUIRED_PARAMS"))
  else
    owner <- get_owner ;;
    data <- client_get ("/repositories/" ++ toString owner ++ "/"
                        ++ toString repoName ++ "/src"
                        ++ (if truthy commit then "/" ++ toString commit else "")
                        ++ "/") [] ;;
    values <- lift (get_prop data "values") ;;
    ret (js_or values data).

Definition actionListRepoContents (options : JsVal) : M (E:=E) JsVal :=
  let options := default_arg options in
  try_catch (actionListRepoContents_try options)
    (fun error =>
       if status_is_400 error then throw error
       else throw (new_AppError "Failed to fetch repository contents"
                     500 (Some "FETCH_CONTENTS_FAILED"))).

Definition actionGetRepoFileContent_try (options : JsVal) : M (E:=E) JsVal :=
  let options := params_of options in
  repoName <- lift (param_trim options "repoName" (JStr "")) ;;
  path <- lift (param_trim options "path" (JStr "")) ;;
  ref <- lift (param_trim options "ref" (JStr "master")) ;;
  if negb (truthy repoName) || negb (truthy ref) || negb (truthy path) then
    throw (new_AppError
             "In order to fetch file/directory contents from Bitbucket please fill all required fields."
             400 None)
  else
    owner <- get_owner ;;
    data <- client_get ("/repositories/" ++ toString owner ++ "/"
                        ++ toString repoName ++ "/src"
                        ++ (if truthy ref then "/" ++ toString ref else "")
                        ++ "/" ++ toString path) [] ;;
    ret data.

Definition actionGetRepoFileContent (options : JsVal) : M (E:=E) JsVal :=
  let options := default_arg options in
  try_catch (actionGetRepoFileContent_try options)
    (fun error =>
       if status_is_400 error then throw error
       else throw (new_AppError "Failed to fetch file content"
                     500 (Some "FETCH_CONTENT_FAILED"))).

Definition actionListRepoBranches_try (options : JsVal) : M (E:=E) JsVal :=
  let options := params_of options in
  repoName <- lift (param_trim options "repoName" (JStr "")) ;;
  if negb (truthy repoName) then
    throw (new_AppError "Please required field (repository name)" 400 None)
  else
    owner <- get_owner ;;
    data <- client_get ("/repositories/" ++ toString owner ++ "/"
                        ++ toString repoName ++ "/refs/branches") [] ;;
    lift (get_prop data "values").

Definition actionListRepoBranches (options : JsVal) : M (E:=E) JsVal :=
  let options := default_arg options in
  try_catch (actionListRepoBranches_try options)
    (fun error =>
       if status_is_400 error then throw error
       else throw (new_AppError "Failed to fetch branches"
                     500 (Some "FETCH_BRANCHES_FAILED"))).

Definition actionListBranchCommits_try (options : JsVal) : M (E:=E) JsVal :=
  let options := params_of options in
  repoName <- lift (param_trim options "repoName" (JStr "")) ;;
  branch <- lift (param_trim options "branch" (JStr "")) ;;
  if negb (truthy repoName) then throw Error_
  else
    owner <- get_owner ;;
    data <- client_get ("/repositories/" ++ toString owner ++ "/"
                        ++ toString repoName ++ "/commits/"
                        ++ toString branch) [] ;;
    lift (get_prop data "values").

Definition actionListBranchCommits (options : JsVal) : M (E:=E) JsVal :=
  let options := default_arg options in
  try_catch (actionListBranchCommits_try options)
    (fun error =>
       throw (new_AppError "Failed to fetch commits" 500 (Some "FETCH_COMMITS_FAILED"))).

(** [(modification) => ({...modification, diffContent, commitHash,
    repository})]. *)
Definition enrich (diffContent commitSha repoName modification : JsVal) : Exn JsVal :=
  inr (JObj (obj_set (obj_set (obj_set (spread modification)
                                 "diffContent" diffContent)
                        "commitHash" commitSha)
               "repository" repoName)).

Definition actionListCommitModifications_try (options : JsVal) : M (E:=E) JsVal :=
  let options := params_of options in
  repoName <- lift (param_trim options "repoName" (JStr "")) ;;
  commitSha <- lift (param_trim options "commitSha" (JStr "")) ;;
  includeContent <- lift (param options "includeContent" (JBool false)) ;;
  if negb (truthy repoName) || negb (truthy commitSha) then
    throw (new_AppError "Repository name and commit SHA are required"
             400 (Some "MISSING_REQUIRED_PARAMS"))
  else
    owner <- get_owner ;;
    statsData <- client_get ("/repositories/" ++ toString owner ++ "/"
                             ++ toString repoName ++ "/diffstat/"
                             ++ toString commitSha) [] ;;
    diffContent <-
      (if truthy includeContent then
         client_get ("/repositories/" ++ toString owner ++ "/"
                     ++ toString repoName ++ "/diff/"
                     ++ toString commitSha) []
       else ret JNull) ;;
    values <- lift (get_prop statsData "values") ;;
    lift (call_map values (enrich diffContent commitSha repoName)).

Definition actionListCommitModifications (options : JsVal) : M (E:=E) JsVal :=
  let options := default_arg options in
  try_catch (actionListCommitModifications_try options)
    (fun error =>
       if status_is_400 error then throw error
       else throw (new_AppError "Failed to fetch commit modifications"
                     500 (Some "FETCH_MODIFICATIONS_FAILED"))).

(** The object returned by [actionGetCommitDetails]. *)
Definition commit_details (data : JsVal) : Exn JsVal :=
  let? hash := get_prop data "hash" in
  let? author := get_prop data "author" in
  let? message := get_prop data "message" in
  let? date := get_prop data "date" in
  let? parents := get_prop data "parents" in
  let? repository := get_prop data "repository" in
  inr (JObj [("hash", hash); ("author", author); ("message", message);
             ("date", date); ("parents", parents); ("repository", repository)]).

Definition actionGetCommitDetails_try (options : JsVal) : M (E:=E) JsVal :=
  let options := params_of options in
  repoName <- lift (param_trim options "repoName" (JStr "")) ;;
  commitSha <- lift (param_trim options "commitSha" (JStr "")) ;;
  if negb (truthy repoName) || negb (truthy commitSha) then
    throw (new_AppError "Repository name and commit SHA are required"
             400 (Some "MISSING_REQUIRED_PARAMS"))
  else
    owner <- get_owner ;;
    repoCheck_data <- client_get ("/repositories/" ++ toString owner ++ "/"
                                  ++ toString repoName) [] ;;
    if negb (truthy repoCheck_data) then
      throw (new_AppError "Repository not found or access denied"
               404 (Some "REPOSITORY_NOT_FOUND"))
    else
      data <- client_get ("/repositories/" ++ toString owner ++ "/"
                          ++ toString repoName ++ "/commit/"
                          ++ toString commitSha) [] ;;
      lift (commit_details data).

Definition actionGetCommitDetails (options : JsVal) : M (E:=E) JsVal :=
  let options := default_arg options in
  try_catch (actionGetCommitDetails_try options)
    (fun error =>
       if status_is error 404 then
         throw (new_AppError "Repository or commit not found"
                  404 (Some "RESOURCE_NOT_FOUND"))
       else throw (new_AppError "Failed to fetch commit details"
                     500 (Some "FETCH_COMMIT_DETAILS_FAILED"))).

Definition actionCommitsDiff_try (options : JsVal) : M (E:=E) JsVal :=
  let options := params_of options in
  repoName <- lift (param_trim options "repoName" (JStr "")) ;;
  baseCommit <- lift (param_trim options "baseCommit" (JStr "")) ;;
  headCommit <- lift (param_trim options "headCommit" (JStr "")) ;;
  if negb (truthy repoName) || negb (truthy baseCommit)
     || negb (truthy headCommit) then
    throw (new_AppError
             "Repository name, base commit and head commit are required"
             400 (Some "MISSING_REQUIRED_PARAMS"))
  else
    owner <- get_owner ;;
    data <- client_get ("/repositories/" ++ toString owner ++ "/"
                        ++ toString repoName ++ "/diff/"
                        ++ toString baseCommit ++ ".." ++ toString headCommit) [] ;;
    ret (js_or data (JObj [])).

Definition actionCommitsDiff (options : JsVal) : M (E:=E) JsVal :=
  let options := default_arg options in
  try_catch (actionCommitsDiff_try options)
    (fun error =>
       if status_is_400 error then throw error
       else throw (new_AppError "Failed to compare commits"
                     500 (Some "COMPARE_COMMITS_FAILED"))).

Definition actionCommentPRs_try (options : JsVal) : M (E:=E) JsVal :=
  let options := params_of options in
  repoName <- lift (param_trim options "repoName" (JStr "")) ;;
  prNumber <- lift (param_trim options "prNumber" (JStr "")) ;;
  comment <- lift (param_trim options "comment" (JStr "")) ;;
  if negb (truthy repoName) || negb (truthy prNumber)
     || negb (truthy comment) then
    throw (new_AppError
             "Repository name, PR number and comment text are required"
             400 (Some "MISSING_REQUIRED_PARAMS"))
  else
    owner <- get_owner ;;
    data <- client_post ("/repositories/" ++ toString owner ++ "/"
                         ++ toString repoName ++ "/pullrequests/"
                         ++ toString prNumber ++ "/comments")
              (JObj [("content", JObj [("raw", comment)])]) ;;
    ret data.

Definition actionCommentPRs (options : JsVal) : M (E:=E) JsVal :=
  let options := default_arg options in
  try_catch (actionCommentPRs_try options)
    (fun error =>
       if status_is error 400 then throw error
       else throw (new_AppError "Failed to add comment to pull request"
                     500 (Some "COMMENT_PR_FAILED"))).

Definition actionListPipelines_try (options : JsVal) : M (E:=E) JsVal :=
  let options := params_of options in
  repoName <- lift (param_trim options "repoName" (JStr "")) ;;
  if negb (truthy repoName) then
    throw (new_AppError "Repository name is required"
             400 (Some "MISSING_REQUIRED_PARAMS"))
  else
    owner <- get_owner ;;
    data <- client_get ("/repositories/" ++ toString owner ++ "/"
                        ++ toString repoName ++ "/pipelines/") [] ;;
    values <- lift (get_prop data "values") ;;
    ret (js_or values (JArr [])).

Definition actionListPipelines (options : JsVal) : M (E:=E) JsVal :=
  let options := default_arg options in
  try_catch (actionListPipelines_try options)
    (fun error =>
       if status_is_400 error then throw error
       else throw (new_AppError "Failed to fetch pipelines"
                     500 (Some "FETCH_PIPELINES_FAILED"))).

Definition actionListDeployments_try (options : JsVal) : M (E:=E) JsVal :=
  let options := params_of options in
  repoName <- lift (param_trim options "repoName" (JStr "")) ;;
  if negb (truthy repoName) then
    throw (new_AppError "Repository name is required"
             400 (Some "MISSING_REQUIRED_PARAMS"))
  else
    owner <- get_owner ;;
    data <- client_get ("/repositories/" ++ toString owner ++ "/"
                        ++ toString repoName ++ "/deployments") [] ;;
    values <- lift (get_prop data "values") ;;
    ret (js_or values (JArr [])).

Definition actionListDeployments (options : JsVal) : M (E:=E) JsVal :=
  let options := default_arg options in
  try_catch (actionListDeployments_try options)
    (fun error =>
       if status_is error 400 then throw error
       else throw (new_AppError "Failed to fetch deployments"
                     500 (Some "FETCH_DEPLOYMENTS_FAILED"))).

End Methods.

(** The actions of the class, by name. *)
Inductive Action : Type :=
| ListBitbucketWorkspaces | ListRepos | GetRepo | ListRepoContents
| GetRepoFileContent | ListRepoBranches | ListBranchCommits
| ListCommitModifications | GetCommitDetails | CommitsDiff | CommentPRs
| ListPipelines | ListDeployments.

Definition invoke {E : Env} (a : Action) : JsVal -> M (E:=E) JsVal :=
  match a with
  | ListBitbucketWorkspaces => actionListBitbucketWorkspaces
  | ListRepos => actionListRepos
  | GetRepo => actionGetRepo
  | ListRepoContents => actionListRepoContents
  | GetRepoFileContent => actionGetRepoFileContent
  | ListRepoBranches => actionListRepoBranches
  | ListBranchCommits => actionListBranchCommits
  | ListCommitModifications => actionListCommitModifications
  | GetCommitDetails => actionGetCommitDetails
  | CommitsDiff => actionCommitsDiff
  | CommentPRs => actionCommentPRs
  | ListPipelines => actionListPipelines
  | ListDeployments => actionListDeployments
  end.

(** The try block of each action. *)
Definition try_of {E : Env} (a : Action) : JsVal -> M (E:=E) JsVal :=
  match a with
  | ListBitbucketWorkspaces => actionListBitbucketWorkspaces_try
  | ListRepos => actionListRepos_try
  | GetRepo => actionGetRepo_try
  | ListRepoContents => actionListRepoContents_try
  | GetRepoFileContent => actionGetRepoFileContent_try
  | ListRepoBranches => actionListRepoBranches_try
  | ListBranchCommits => actionListBranchCommits_try
  | ListCommitModifications => actionListCommitModifications_try
  | GetCommitDetails => actionGetCommitDetails_try
  | CommitsDiff => actionCommitsDiff_try
  | CommentPRs => actionCommentPRs_try
  | ListPipelines => actionListPipelines_try
  | ListDeployments => actionListDeployments_try
  end.

(** The keys whose absence makes the guard of each action throw ([ref]
    of [actionGetRepoFileContent] defaults to "master" and is never
    empty). *)
Definition required (a : Action) : list string :=
  match a with
  | ListBitbucketWorkspaces | ListRepos => []
  | GetRepo | ListRepoBranches | ListBranchCommits
  | ListPipelines | ListDeployments => ["repoName"]
  | ListRepoContents => ["repoName"; "ref"]
  | GetRepoFileContent => ["repoName"; "path"]
  | ListCommitModifications | GetCommitDetails => ["repoName"; "commitSha"]
  | CommitsDiff => ["repoName"; "baseCommit"; "headCommit"]
  | CommentPRs => ["repoName"; "prNumber"; "comment"]
  end.

End BitbucketProvider.

(* ===================================================================== *)
(** ** Well-formed parameter lists and concrete environments *)
(* ===================================================================== *)

(** A ParameterSpec-shaped entry: an object with a string [key] and a
    [value] sequence whose first element, when there is one, is a string. *)
Definition param_spec_ok (par : JsVal) : bool :=
  match par with
  | JObj fs =>
      match assoc "key" fs, assoc "value" fs with
      | Some (JStr _), Some (JArr []) => true
      | Some (JStr _), Some (JArr (JStr _ :: _)) => true
      | _, _ => false
      end
  | _ => false
  end.

(** The first value of the first entry whose key is [k], read off the
    sequence directly. *)
Fixpoint first_value (k : string) (xs : list JsVal) : option string :=
  match xs with
  | [] => None
  | par :: rest =>
      if is_str (get_prop_opt par "key") k then
        match get_prop_opt par "value" with
        | JArr (JStr s :: _) => Some s
        | _ => None
        end
      else first_value k rest
  end.

(** Some entry of the sequence has the key [k]. *)
Definition has_key (k : string) (xs : list JsVal) : bool :=
  existsb (fun par => is_str (get_prop_opt par "key") k) xs.

(** The credential is absent from the group, or its first value is the
    empty string. *)
Definition empty_credential (k : string) (xs : list JsVal) : bool :=
  match first_value k xs with
  | None => true
  | Some s => (s =? "")%string
  end.

(** [options?.find(...)?.value[0]?.trim() || dflt] read off a well-formed
    sequence. *)
Definition trimmed_or (k : string) (xs : list JsVal) (dflt : JsVal) : JsVal :=
  match first_value k xs with
  | Some s => js_or (JStr (trim s)) dflt
  | None => dflt
  end.

Definition config_update_failed : Thrown :=
  new_AppError "Failed to update plugin configuration" 500 (Some "CONFIG_UPDATE_FAILED").

(** The parameter is absent, or its first value is empty once trimmed. *)
Definition missing (k : string) (xs : list JsVal) : bool :=
  match first_value k xs with
  | None => true
  | Some s => (trim s =? "")%string
  end.

(** The rejection of an HTTP call answered with status [n]. *)
Definition axios_error (n : Z) : Thrown :=
  Raw (mkRawError "AxiosError" JUndef (JNum n)).

(** Modelled from the spec: a [ConfigManager] over a store that holds the
    saved set of config groups; [getConfig(groupName)] gives the group of
    that name and [saveConfigs(newConfigGroups)] replaces the set. *)
Fixpoint find_group (name : string) (groups : list JsVal) : JsVal :=
  match groups with
  | [] => JUndef
  | g :: rest =>
      if is_str (get_prop_opt g "name") name then g else find_group name rest
  end.

Definition memory_env (vendor : list HttpEvent -> Request -> Exn JsVal) : Env :=
  mkEnv (fun groups name => inr (find_group name groups))
        (fun _ newConfigs =>
           match newConfigs with
           | JArr gs => inr gs
           | other => inr [other]
           end)
        vendor.

(** A vendor that rejects every call with status [n], and one that
    answers every call with [data]. *)
Definition rejecting (n : Z) : list HttpEvent -> Request -> Exn JsVal :=
  fun _ _ => inl (axios_error n).

Definition answering (data : JsVal) : list HttpEvent -> Request -> Exn JsVal :=
  fun _ _ => inr data.

(** The instance as its constructor leaves it: [client = null],
    [owner = ""]. *)
Definition constructed (E : Env) (cfg : JsVal) (s : Store E) : State E :=
  mkState None (JStr "") cfg s [].

Definition entry (k v : string) : JsVal :=
  JObj [("key", JStr k); ("value", JArr [JStr v])].

Definition group (name : string) (params : list JsVal) : JsVal :=
  JObj [("name", JStr name); ("params", JArr params)].

Definition call_options (params : list JsVal) : JsVal :=
  JObj [("configs", JObj [("params", JArr params)])].

(** Values for [this.config]; the source imports them from
    [config/github.config.js] and [config/bitbucket.config.js]. *)
Definition github_config : JsVal :=
  JObj [("apiBaseUrl", JStr "https://api.github.com");
        ("apiVersion", JStr "2022-11-28")].

Definition bitbucket_config : JsVal :=
  JObj [("apiBaseUrl", JStr "https://api.bitbucket.org/2.0")].

(** [client] confirmed: some call of the log fetched the current user
    through it and was answered. *)
Definition confirmed {E : Env} (st : State E) (c : Client) : Prop :=
  exists req data, In (req, inr data) (trace st) /\ via req = c /\ url req = "/user".

(* ===================================================================== *)
(** ** Concrete instances used in the examples *)
(* ===================================================================== *)

Definition a_client : Client :=
  mkClient (JStr "https://api.example.test") None
    [("Authorization", JStr "Bearer t")].

(** An initialised instance: [client] set, [owner = "acme"], nothing sent
    yet, over a vendor that rejects every call with status [n]. *)
Definition ready_rejecting (n : Z) : State (memory_env (rejecting n)) :=
  mkState (E:=memory_env (rejecting n)) (Some a_client) (JStr "acme") github_config [] [].

(** The same over a vendor that answers every call with [data]. *)
Definition ready_answering (data : JsVal) : State (memory_env (answering data)) :=
  mkState (E:=memory_env (answering data)) (Some a_client) (JStr "acme") github_config [] [].

Definition github_group (token owner : string) : JsVal :=
  group "github_config" [entry "token" token; entry "owner" owner].

(** The same group under a title of one's choice. *)
Definition titled_group (title : string) : JsVal :=
  JObj [("name", JStr "github_config"); ("title", JStr title);
        ("params", JArr [entry "token" "t"; entry "owner" "acme"])].

Definition bitbucket_group (username appPassword : string) : JsVal :=
  group "bitbucket_config"
    [entry "username" username; entry "appPassword" appPassword].

(** The client that [GithubProvider.createClient "t"] builds from
    [github_config]. *)
Definition github_client_t : Client :=
  mkClient (JStr "https://api.github.com") None
    [("Authorization", JStr "Bearer t");
     ("Accept", JStr "application/vnd.github+json");
     ("X-GitHub-Api-Version", JStr "2022-11-28")].

Definition get_user (c : Client) : Request := mkRequest c GET "/user" [] JUndef.

Definition get_repo_r : Request :=
  mkRequest a_client GET "/repos/acme/r" [] JUndef.

Definition gh_init_failed : Thrown :=
  new_AppError "Failed to initialize GitHub provider" 500 None.

Definition bb_auth_failed : Thrown :=
  new_AppError "Bitbucket authentication failed" 401 (Some "AUTH_FAILED").

(** The test of the catch block of [GithubProvider.init]:
    [error.statusCode === "401" || error.response?.status === 401 ||
    error.statusCode === 401]. *)
Definition gh_is_401 (error : Thrown) : bool :=
  is_str (err_statusCode error) "401" || is_num (err_response_status error) 401
  || is_num (err_statusCode error) 401.

Definition bb_init_failed : Thrown :=
  new_AppError "Failed to initialize Bitbucket provider" 500 None.

(** The Bitbucket actions whose catch block tests the caught error for
    status 400 and throws it again; the other four have one [throw] only. *)
Definition has_400_branch (a : BitbucketProvider.Action) : bool :=
  match a with
  | BitbucketProvider.ListRepos | BitbucketProvider.GetRepo
  | BitbucketProvider.ListBranchCommits | BitbucketProvider.GetCommitDetails => false
  | _ => true
  end.

(** The two guards that call [new AppError] with a message and the status
    400 only: [e] is what the guard of [a] throws. *)
Definition uncoded_guard (a : BitbucketProvider.Action) (e : Thrown) : Prop :=
  (a = BitbucketProvider.GetRepoFileContent /\
   e = new_AppError
         "In order to fetch file/directory contents from Bitbucket please fill all required fields."
         400 None) \/
  (a = BitbucketProvider.ListRepoBranches /\
   e = new_AppError "Please required field (repository name)" 400 None).

Definition contents_not_found : Thrown :=
  new_AppError "Repository path or reference not found" 404 (Some "RESOURCE_NOT_FOUND").

Definition file_not_found : Thrown :=
  new_AppError "File not found or inaccessible" 404 (Some "RESOURCE_NOT_FOUND").

Definition fetch_contents_failed : Thrown :=
  new_AppError "Failed to fetch repository contents" 500 (Some "FETCH_CONTENTS_FAILED").

Definition fetch_content_failed : Thrown :=
  new_AppError "Failed to fetch file content" 500 (Some "FETCH_CONTENT_FAILED").

(** Runs used in the examples: [actionGetRepo] of repository [r] on an
    initialised instance whose vendor answers [n], and [init] on a fresh
    instance whose store holds valid-looking credentials. *)
Definition gh_get_repo_rejected (n : Z) :=
  GithubProvider.invoke GithubProvider.GetRepo
    (call_options [entry "repoName" "r"]) (ready_rejecting n).

Definition bb_commit_details_rejected (n : Z) :=
  BitbucketProvider.actionGetCommitDetails
    (call_options [entry "repoName" "r"; entry "commitSha" "abc"])
    (ready_rejecting n).

Definition fresh_github (n : Z) : State (memory_env (rejecting n)) :=
  constructed (memory_env (rejecting n)) github_config [github_group "t" "acme"].

Definition fresh_bitbucket (n : Z) : State (memory_env (rejecting n)) :=
  constructed (memory_env (rejecting n)) bitbucket_config [bitbucket_group "u" "p"].

Definition gh_update_rejected (n : Z) :=
  GithubProvider.actionUpdatePluginConfig
    (JObj [("configs", JArr [github_group "t" "acme"])])
    (constructed (memory_env (rejecting n)) github_config []).

(** The client that [BitbucketProvider.createClient] builds from
    [bitbucket_config] and the credentials of [bitbucket_group "u" "p"]
    (each credential is the whole [value] sequence). *)
Definition bitbucket_client_up : Client :=
  mkClient (JStr "https://api.bitbucket.org/2.0")
    (Some (JArr [JStr "u"], JArr [JStr "p"]))
    [("Accept", JStr "application/json")].

(** A [ConfigManager] whose [saveConfigs] always throws. *)
Definition read_only_env : Env :=
  mkEnv (fun groups name => inr (find_group name groups))
        (fun (_ : list JsVal) _ => inl Error_)
        (answering JNull).

Definition update_options : JsVal :=
  JObj [("configs", JArr [github_group "t" "acme"])].

Definition sorted_options : JsVal :=
  JObj [("configs", JObj [("params", JArr [entry "repoName" "r"])]);
        ("sort", JStr "name")].

(* ===================================================================== *)
(** ** Further notions used to state properties of the methods *)
(* ===================================================================== *)

(** An entry that [find((par) => par.key === k)] passes over: it is not
    [null] or [undefined], and its key is not [k]. *)
Definition passed_over (k : string) (par : JsVal) : bool :=
  negb (nullish par) && negb (is_str (get_prop_opt par "key") k).

(** A [params] value on which the first step of every extraction throws:
    a value that is not an array, or an array whose first entry is [null]
    or [undefined]. *)
Definition malformed (ps : JsVal) : bool :=
  match ps with
  | JArr [] => false
  | JArr (p :: _) => nullish p
  | JUndef | JNull => false
  | _ => true
  end.

(** The entry that [(file) => ({filename: file.filename, ...})] builds
    from a file that is not [null] or [undefined]. *)
Definition summary_of (file : JsVal) : JsVal :=
  JObj [("filename", get_prop_opt file "filename");
        ("status", get_prop_opt file "status");
        ("additions", get_prop_opt file "additions");
        ("deletions", get_prop_opt file "deletions");
        ("changes", get_prop_opt file "changes")].

(** The object that [GithubProvider.actionGetCommitDetails] builds from an
    answer whose [commit] is [commit]. *)
Definition details_of (data commit : JsVal) : JsVal :=
  JObj [("sha", get_prop_opt data "sha"); ("author", get_prop_opt data "author");
        ("committer", get_prop_opt data "committer");
        ("commit", JObj [("message", get_prop_opt commit "message");
                         ("author", get_prop_opt commit "author");
                         ("committer", get_prop_opt commit "committer");
                         ("verification", get_prop_opt commit "verification")]);
        ("stats", get_prop_opt data "stats"); ("files", get_prop_opt data "files");
        ("parents", get_prop_opt data "parents");
        ("html_url", get_prop_opt data "html_url")].

(** The object that [BitbucketProvider.actionGetCommitDetails] builds from
    an answer that is not [null] or [undefined]. *)
Definition bb_details_of (data : JsVal) : JsVal :=
  JObj [("hash", get_prop_opt data "hash"); ("author", get_prop_opt data "author");
        ("message", get_prop_opt data "message"); ("date", get_prop_opt data "date");
        ("parents", get_prop_opt data "parents");
        ("repository", get_prop_opt data "repository")].

(** A query parameter that is sent with a value, or not sent at all:
    axios leaves out a parameter that is [undefined]. *)
Definition sent_or_dropped (kv : string * JsVal) : Prop :=
  snd kv = JUndef \/ truthy (snd kv) = true.

(** The Bitbucket actions that end in [|| []] or [|| {}]. *)
Definition has_fallback (a : BitbucketProvider.Action) : bool :=
  match a with
  | BitbucketProvider.ListBitbucketWorkspaces | BitbucketProvider.CommitsDiff
  | BitbucketProvider.ListPipelines | BitbucketProvider.ListDeployments => true
  | _ => false
  end.

(* ===================================================================== *)
(** ** Further concrete instances *)
(* ===================================================================== *)

(** Answers of the vendor used below. *)
Definition a_user : JsVal := JObj [("login", JStr "acme")].

Definition a_commit : JsVal :=
  JObj [("sha", JStr "abc"); ("hash", JStr "abc");
        ("commit", JObj [("message", JStr "fix")]);
        ("files", JArr [JObj [("filename", JStr "a.js"); ("patch", JStr "@@")]]);
        ("values", JArr [JObj [("status", JStr "modified")]])].

Definition repo_options : JsVal := call_options [entry "repoName" "r"].

Definition commit_options : JsVal :=
  call_options [entry "repoName" "r"; entry "commitSha" "abc"].

Definition comment_options : JsVal :=
  call_options [entry "repoName" "r"; entry "prNumber" "7"; entry "comment" "ok"].

Definition contents_options : JsVal :=
  call_options [entry "repoName" "r"; entry "ref" "main"].

(** Options whose [params] is a string, not an array. *)
Definition string_params : JsVal :=
  JObj [("configs", JObj [("params", JStr "repoName=r")])].

(** A fresh instance whose store holds credentials, over a vendor that
    answers every call with [data]. *)
Definition fresh_github_answering (data : JsVal) : State (memory_env (answering data)) :=
  constructed (memory_env (answering data)) github_config [github_group "t" "acme"].

Definition fresh_bitbucket_answering (data : JsVal)
  : State (memory_env (answering data)) :=
  constructed (memory_env (answering data)) bitbucket_config [bitbucket_group "u" "p"].

(** Runs on an initialised instance whose vendor answers [data]. *)
Definition gh_run (a : GithubProvider.Action) (options data : JsVal) :=
  GithubProvider.invoke a options (ready_answering data).

Definition bb_run (a : BitbucketProvider.Action) (options data : JsVal) :=
  BitbucketProvider.invoke a options (ready_answering data).

(** Requests that these runs send. *)
Definition post_comment : Request :=
  mkRequest a_client POST "/repos/acme/r/issues/7/comments" []
    (JObj [("body", JStr "ok")]).

Definition get_workspaces : Request :=
  mkRequest a_client GET "/workspaces"
    [("page", JNum 1); ("pagelen", JNum 50); ("role", JStr "member")] JUndef.

Definition list_user_repos : Request :=
  mkRequest a_client GET "/user/repos"
    [("visibility", JStr "all"); ("sort", JStr "updated");
     ("per_page", JNum 50); ("page", JNum 1)] JUndef.

Definition get_commit_abc : Request :=
  mkRequest a_client GET "/repos/acme/r/commits/abc" [] JUndef.

Definition bb_get_repo_r : Request :=
  mkRequest a_client GET "/repositories/acme/r" [] JUndef.

Definition get_src_main : Request :=
  mkRequest a_client GET "/repositories/acme/r/src/main/" [] JUndef.

(* ===================================================================== *)
(** ** Parameter extraction on well-formed lists *)
(* ===================================================================== *)

Unset Implicit Arguments.

(** On a well-formed list [find] gives nothing, or an entry that is
    well-formed and holds the first value. *)
Lemma find_in_wf (safe : bool) (k : string) (xs : list JsVal) :
  forallb param_spec_ok xs = true ->
  (find_in safe k xs = inr JUndef /\ first_value k xs = None /\
   has_key k xs = false) \/
  (exists fs, find_in safe k xs = inr (JObj fs) /\ has_key k xs = true /\
              param_spec_ok (JObj fs) = true /\
              first_value k xs =
                match assoc "value" fs with
                | Some (JArr (JStr s :: _)) => Some s
                | _ => None
                end).
Proof.
  induction xs as [|par rest IH]; simpl; intros Hok.
  - left; repeat split; reflexivity.
  - apply andb_true_iff in Hok. destruct Hok as [Hpar Hrest].
    destruct par as [ | | | | | |fs| ]; try discriminate Hpar.
    cbn [nullish].
    destruct (is_str (get_prop_opt (JObj fs) "key") k) eqn:Hk.
    + right. exists fs. split; [reflexivity|]. split; [reflexivity|].
      split; [assumption|].
      unfold get_prop_opt, get_prop.
      destruct (assoc "value" fs) as [[ | | | | |vs| | ]|]; reflexivity.
    + apply IH; assumption.
Qed.


(** On a well-formed list the extractions with a fully optional chain are
    total: they give the first value of the first matching entry, trimmed,
    or the default. *)
Lemma param_trim_raw_wf (k : string) (xs : list JsVal) :
  forallb param_spec_ok xs = true ->
  param_trim_raw (JArr xs) k =
    inr (match first_value k xs with
         | Some s => JStr (trim s)
         | None => JUndef
         end).
Proof.
  intros Hok. unfold param_trim_raw, opt_chain. cbn [nullish call_find ebind].
  destruct (find_in_wf false k xs Hok) as [(Hf & Hv & _)|(fs & Hf & _ & Hfs & Hv)];
    rewrite Hf, Hv; cbn [ebind nullish]; [reflexivity|].
  unfold param_spec_ok in Hfs. cbn [get_prop].
  destruct (assoc "key" fs) as [[]|]; try discriminate Hfs.
  destruct (assoc "value" fs) as [[ | | | | |vs| | ]|]; try discriminate Hfs.
  destruct vs as [|[] vs']; try discriminate Hfs; reflexivity.
Qed.

Lemma param_trim_wf (k : string) (xs : list JsVal) (dflt : JsVal) :
  forallb param_spec_ok xs = true ->
  param_trim (JArr xs) k dflt = inr (trimmed_or k xs dflt).
Proof.
  intros Hok. unfold param_trim, trimmed_or. rewrite (param_trim_raw_wf k xs Hok).
  cbn [ebind]. destruct (first_value k xs); reflexivity.
Qed.

Lemma param_wf (k : string) (xs : list JsVal) (dflt : JsVal) :
  forallb param_spec_ok xs = true ->
  param (JArr xs) k dflt =
    inr (match first_value k xs with
         | Some s => js_or (JStr s) dflt
         | None => dflt
         end).
Proof.
  intros Hok. unfold param, opt_chain. cbn [nullish call_find ebind].
  destruct (find_in_wf false k xs Hok) as [(Hf & Hv & _)|(fs & Hf & _ & Hfs & Hv)];
    rewrite Hf, Hv; cbn [ebind nullish]; [reflexivity|].
  unfold param_spec_ok in Hfs. cbn [get_prop].
  destruct (assoc "key" fs) as [[]|]; try discriminate Hfs.
  destruct (assoc "value" fs) as [[ | | | | |vs| | ]|]; try discriminate Hfs.
  destruct vs as [|[] vs']; try discriminate Hfs; reflexivity.
Qed.

(** The extraction of [GithubProvider.actionListCommitModifications]
    throws where the others give the default. *)
Lemma param_trim_strict_wf (k : string) (xs : list JsVal) :
  forallb param_spec_ok xs = true ->
  param_trim_strict (JArr xs) k =
    match first_value k xs with
    | Some s => inr (js_or (JStr (trim s)) (JStr ""))
    | None => inl TypeError
    end.
Proof.
  intros Hok. unfold param_trim_strict, opt_chain. cbn [nullish call_find ebind].
  destruct (find_in_wf false k xs Hok) as [(Hf & Hv & _)|(fs & Hf & _ & Hfs & Hv)];
    rewrite Hf, Hv; cbn [ebind nullish]; [reflexivity|].
  unfold param_spec_ok in Hfs. cbn [get_prop].
  destruct (assoc "key" fs) as [[]|]; try discriminate Hfs.
  destruct (assoc "value" fs) as [[ | | | | |vs| | ]|]; try discriminate Hfs.
  destruct vs as [|[] vs']; try discriminate Hfs; reflexivity.
Qed.

Lemma trimmed_or_missing (k : string) (xs : list JsVal) :
  missing k xs = true -> trimmed_or k xs (JStr "") = JStr "".
Proof.
  unfold missing, trimmed_or. destruct (first_value k xs) as [s|]; [|reflexivity].
  intros H. apply String.eqb_eq in H. rewrite H. reflexivity.
Qed.

(* ===================================================================== *)
(** ** Running a method: case analysis and the log of HTTP calls *)
(* ===================================================================== *)

(** Unfolds the actions and the monad in [H], down to the extractions
    and the calls of the vendor. *)
Ltac unfold_methods_in H :=
  cbv beta iota zeta delta
    [GithubProvider.invoke GithubProvider.try_of
     GithubProvider.actionListRepos GithubProvider.actionGetRepo
     GithubProvider.actionListRepoContents GithubProvider.actionGetRepoFileContent
     GithubProvider.actionListBranches GithubProvider.actionListBranchCommits
     GithubProvider.actionListCommitModifications
     GithubProvider.actionGetCommitDetails GithubProvider.actionCommitsDiff
     GithubProvider.actionCommentPrs GithubProvider.actionListPipelines
     GithubProvider.actionListDeployments
     GithubProvider.actionListRepos_try GithubProvider.actionGetRepo_try
     GithubProvider.actionListRepoContents_try
     GithubProvider.actionGetRepoFileContent_try
     GithubProvider.actionListBranches_try GithubProvider.actionListBranchCommits_try
     GithubProvider.actionListCommitModifications_try
     GithubProvider.actionGetCommitDetails_try GithubProvider.actionCommitsDiff_try
     GithubProvider.actionCommentPrs_try GithubProvider.actionListPipelines_try
     GithubProvider.actionListDeployments_try
     GithubProvider.catch_404_400
     BitbucketProvider.invoke BitbucketProvider.try_of
     BitbucketProvider.actionListBitbucketWorkspaces
     BitbucketProvider.actionListRepos BitbucketProvider.actionGetRepo
     BitbucketProvider.actionListRepoContents
     BitbucketProvider.actionGetRepoFileContent
     BitbucketProvider.actionListRepoBranches
     BitbucketProvider.actionListBranchCommits
     BitbucketProvider.actionListCommitModifications
     BitbucketProvider.actionGetCommitDetails BitbucketProvider.actionCommitsDiff
     BitbucketProvider.actionCommentPRs BitbucketProvider.actionListPipelines
     BitbucketProvider.actionListDeployments
     BitbucketProvider.actionListBitbucketWorkspaces_try
     BitbucketProvider.actionListRepos_try BitbucketProvider.actionGetRepo_try
     BitbucketProvider.actionListRepoContents_try
     BitbucketProvider.actionGetRepoFileContent_try
     BitbucketProvider.actionListRepoBranches_try
     BitbucketProvider.actionListBranchCommits_try
     BitbucketProvider.actionListCommitModifications_try
     BitbucketProvider.actionGetCommitDetails_try
     BitbucketProvider.actionCommitsDiff_try
     BitbucketProvider.actionCommentPRs_try BitbucketProvider.actionListPipelines_try
     BitbucketProvider.actionListDeployments_try
     try_catch bind lift ret throw get_owner client_get client_post request] in H.

(** Case analysis on the next test of a run [H : ... = (r, st')]. *)
Ltac step_run H :=
  match type of H with
  | context [match ?x with _ => _ end] =>
      lazymatch x with
      | context [match _ with _ => _ end] => fail
      | _ => destruct x eqn:?
      end
  end;
  cbv beta iota zeta in H; cbn [client trace] in H.

Ltac finish_run H :=
  injection H as <- <-.

(** A try block leaves the log as it was, or adds calls to it; when the
    last call was rejected, the try block throws the rejection. *)
Lemma gh_try_trace E (a : GithubProvider.Action) options (st st' : State E) r :
  GithubProvider.try_of a options st = (r, st') ->
  trace st' = trace st \/
  exists req res t, trace st' = (req, res) :: t /\
                    (length (trace st) < length (trace st'))%nat /\
                    forall e, res = inl e -> r = inl e.
Proof.
  intros H.
  destruct a; unfold_methods_in H; repeat step_run H; finish_run H.
  all: try (left; reflexivity).
  all: right; do 3 eexists; (split; [reflexivity|]); (split; [cbn [trace length]; lia|]).
  all: intros e0 He0; try congruence.
Qed.

Lemma bb_try_trace E (a : BitbucketProvider.Action) options (st st' : State E) r :
  BitbucketProvider.try_of a options st = (r, st') ->
  trace st' = trace st \/
  exists req res t, trace st' = (req, res) :: t /\
                    (length (trace st) < length (trace st'))%nat /\
                    forall e, res = inl e -> r = inl e.
Proof.
  intros H.
  destruct a; unfold_methods_in H; repeat step_run H; finish_run H.
  all: try (left; reflexivity).
  all: right; do 3 eexists; (split; [reflexivity|]); (split; [cbn [trace length]; lia|]).
  all: intros e0 He0; try congruence.
Qed.

Lemma only_TypeError_inr {A : Type} (a : A) : only_TypeError (inr a).
Proof. intros e H; discriminate H. Qed.

Lemma only_TypeError_ebind {A B : Type} (x : Exn A) (f : A -> Exn B) :
  only_TypeError x -> (forall a, only_TypeError (f a)) ->
  only_TypeError (ebind x f).
Proof.
  intros Hx Hf e. destruct x as [e0|a]; cbn [ebind].
  - intros H. injection H as <-. apply Hx. reflexivity.
  - apply Hf.
Qed.

Lemma get_prop_throws v k : only_TypeError (get_prop v k).
Proof. intros e; destruct v; cbn; intros H; congruence. Qed.

Lemma get_index0_throws v : only_TypeError (get_index0 v).
Proof.
  intros e; destruct v as [ | | | |[|]|[|]| | ]; cbn; intros H; congruence.
Qed.

Lemma call_trim_throws v : only_TypeError (call_trim v).
Proof. intros e; destruct v; cbn; intros H; congruence. Qed.

Lemma find_in_throws safe k xs : only_TypeError (find_in safe k xs).
Proof.
  induction xs as [|par rest IH]; cbn [find_in].
  - apply only_TypeError_inr.
  - destruct (nullish par).
    + destruct safe; [exact IH|]. intros e H; congruence.
    + destruct (is_str (get_prop_opt par "key") k); [apply only_TypeError_inr|exact IH].
Qed.

Lemma call_find_throws safe v k : only_TypeError (call_find safe v k).
Proof.
  destruct v; cbn [call_find]; try (intros e H; congruence).
  apply find_in_throws.
Qed.

Lemma opt_chain_throws v f :
  (forall x, only_TypeError (f x)) -> only_TypeError (opt_chain v f).
Proof.
  intros Hf. unfold opt_chain. destruct (nullish v); [apply only_TypeError_inr|apply Hf].
Qed.

Ltac throws :=
  repeat first
    [ apply only_TypeError_inr
    | apply get_prop_throws | apply get_index0_throws | apply call_trim_throws
    | apply call_find_throws
    | apply only_TypeError_ebind; [|intros ?]
    | apply opt_chain_throws; intros ? ].

Lemma param_throws o k d : only_TypeError (param o k d).
Proof. unfold param. throws. Qed.

Lemma param_trim_raw_throws o k : only_TypeError (param_trim_raw o k).
Proof. unfold param_trim_raw. throws. Qed.

Lemma param_trim_throws o k d : only_TypeError (param_trim o k d).
Proof. unfold param_trim, param_trim_raw. throws. Qed.

Lemma param_trim_strict_throws o k : only_TypeError (param_trim_strict o k).
Proof. unfold param_trim_strict. throws. Qed.

Lemma map_exn_throws f xs :
  (forall x, only_TypeError (f x)) -> only_TypeError (map_exn f xs).
Proof.
  intros Hf. induction xs as [|x rest IH]; cbn [map_exn].
  - apply only_TypeError_inr.
  - intros e. destruct (f x) as [e0|y] eqn:Hx.
    + intros H. injection H as <-. apply (Hf x). exact Hx.
    + destruct (map_exn f rest) as [e1|ys].
      * intros H. injection H as <-. apply IH. reflexivity.
      * intros H. discriminate H.
Qed.

Lemma call_map_throws v f :
  (forall x, only_TypeError (f x)) -> only_TypeError (call_map v f).
Proof.
  intros Hf. destruct v; cbn [call_map]; try (intros e H; congruence).
  intros e. destruct (map_exn f xs) as [e0|ys] eqn:Hm.
  - intros H. injection H as <-. apply (map_exn_throws f xs Hf). exact Hm.
  - intros H. discriminate H.
Qed.

Lemma gh_file_summary_throws x : only_TypeError (GithubProvider.file_summary x).
Proof. unfold GithubProvider.file_summary. throws. Qed.

Lemma gh_commit_details_throws x : only_TypeError (GithubProvider.commit_details x).
Proof. unfold GithubProvider.commit_details. throws. Qed.

Lemma bb_commit_details_throws x : only_TypeError (BitbucketProvider.commit_details x).
Proof. unfold BitbucketProvider.commit_details. throws. Qed.

Lemma bb_enrich_throws d c r x : only_TypeError (BitbucketProvider.enrich d c r x).
Proof. unfold BitbucketProvider.enrich. throws. Qed.

Lemma gh_credential_throws c k : only_TypeError (GithubProvider.credential c k).
Proof. unfold GithubProvider.credential. throws. Qed.

Lemma bb_credential_throws c k : only_TypeError (BitbucketProvider.credential c k).
Proof. unfold BitbucketProvider.credential. throws. Qed.

(** Turns each expression failure among the hypotheses into [TypeError]. *)
Ltac name_throws :=
  repeat match goal with
  | H : param _ _ _ = inl ?e |- _ => apply param_throws in H; subst e
  | H : param_trim _ _ _ = inl ?e |- _ => apply param_trim_throws in H; subst e
  | H : param_trim_raw _ _ = inl ?e |- _ => apply param_trim_raw_throws in H; subst e
  | H : param_trim_strict _ _ = inl ?e |- _ =>
      apply param_trim_strict_throws in H; subst e
  | H : get_prop _ _ = inl ?e |- _ => apply get_prop_throws in H; subst e
  | H : GithubProvider.credential _ _ = inl ?e |- _ =>
      apply gh_credential_throws in H; subst e
  | H : BitbucketProvider.credential _ _ = inl ?e |- _ =>
      apply bb_credential_throws in H; subst e
  | H : call_map _ GithubProvider.file_summary = inl ?e |- _ =>
      apply (call_map_throws _ _ gh_file_summary_throws) in H; subst e
  | H : call_map _ (BitbucketProvider.enrich ?d ?c ?r) = inl ?e |- _ =>
      apply (call_map_throws _ _ (bb_enrich_throws d c r)) in H; subst e
  | H : GithubProvider.commit_details _ = inl ?e |- _ =>
      apply gh_commit_details_throws in H; subst e
  | H : BitbucketProvider.commit_details _ = inl ?e |- _ =>
      apply bb_commit_details_throws in H; subst e
  end.

(** What a try block can throw: a NormalizedError of its own, a
    [TypeError], the bare [Error], the rejection of its last HTTP call, or,
    in two Bitbucket actions, the error of a guard that carries no
    errorCode and is thrown before anything is sent. *)
Lemma gh_try_thrown E (a : GithubProvider.Action) options (st st' : State E) e :
  GithubProvider.try_of a options st = (inl e, st') ->
  is_normalized e \/ e = TypeError \/
  exists req t, trace st' = (req, inl e) :: t.
Proof.
  intros H.
  destruct a; unfold_methods_in H; repeat step_run H;
    injection H as Hr <-;
    first [discriminate Hr | injection Hr as <- | subst e | idtac]; name_throws.
  all: try (left; eexists; reflexivity).
  all: try (right; left; reflexivity).
  all: right; right; do 2 eexists; reflexivity.
Qed.

Lemma bb_try_thrown E (a : BitbucketProvider.Action) options (st st' : State E) e :
  BitbucketProvider.try_of a options st = (inl e, st') ->
  is_normalized e \/ e = TypeError \/ e = Error_ \/
  (exists req t, trace st' = (req, inl e) :: t) \/
  (uncoded_guard a e /\ st' = st).
Proof.
  intros H.
  destruct a; unfold_methods_in H; repeat step_run H;
    injection H as Hr <-;
    first [discriminate Hr | injection Hr as <- | subst e | idtac]; name_throws.
  all: try (left; eexists; reflexivity).
  all: try (right; left; reflexivity).
  all: try (right; right; left; reflexivity).
  all: try (right; right; right; left; do 2 eexists; reflexivity).
  all: right; right; right; right; split; [|reflexivity].
  all: first [left; split; reflexivity | right; split; reflexivity].
Qed.

(** Every repository action of the GitHub class is its try block under
    the shared catch block. *)
Lemma gh_invoke_shape (a : GithubProvider.Action) :
  exists msg404 code404 msg500 code500,
    (code404 = "RESOURCE_NOT_FOUND" \/ code404 = "REPOSITORY_NOT_FOUND") /\
    forall (E : Env) options,
      GithubProvider.invoke (E:=E) a options =
      try_catch (GithubProvider.try_of a (default_arg options))
        (GithubProvider.catch_404_400
           (new_AppError msg404 404 (Some code404))
           (new_AppError msg500 500 (Some code500))).
Proof.
  destruct a; do 4 eexists;
    (split; [|intros E options; reflexivity]);
    first [left; reflexivity | right; reflexivity].
Qed.

Lemma catch_404_400_run E (e404 e500 e : Thrown) (st : State E) :
  GithubProvider.catch_404_400 e404 e500 e st =
  (inl (if status_is e 404 then e404 else if status_is e 400 then e else e500), st).
Proof.
  unfold GithubProvider.catch_404_400, throw.
  destruct (status_is e 404); [reflexivity|]. destruct (status_is e 400); reflexivity.
Qed.

(** The same for [init], [createClient] and [actionUpdatePluginConfig]. *)
Ltac unfold_init_in H :=
  cbv beta iota zeta delta
    [GithubProvider.actionUpdatePluginConfig GithubProvider.init
     GithubProvider.createClient BitbucketProvider.init
     BitbucketProvider.createClient
     ConfigManager_getConfig ConfigManager_saveConfigs set_owner set_client
     get_config
     try_catch bind lift ret throw get_owner client_get client_post request] in H.

(** [actionUpdatePluginConfig] throws one error only, and when it returns
    the log is unchanged or ends with an answered call. *)
Lemma update_config_failure E options (st st' : State E) e :
  GithubProvider.actionUpdatePluginConfig options st = (inl e, st') ->
  e = config_update_failed.
Proof.
  intros H. unfold GithubProvider.actionUpdatePluginConfig, try_catch in H.
  match type of H with
  | context [match ?x with _ => _ end] => destruct x as [[e0|v] st1]
  end; cbv beta iota zeta delta [throw] in H; [|discriminate H].
  injection H as <- _. reflexivity.
Qed.

Lemma update_config_trace E options (st st' : State E) v :
  GithubProvider.actionUpdatePluginConfig options st = (inr v, st') ->
  trace st' = trace st \/ exists req data, trace st' = (req, inr data) :: trace st.
Proof.
  intros H. unfold_init_in H. repeat step_run H.
  all: try discriminate H.
  all: injection H as _ <-; cbn [trace]; first [left; reflexivity | right; do 2 eexists; reflexivity].
Qed.

(** Unfolds an action into its try block (left folded) and its catch
    block. *)
Ltac unfold_catch_in H :=
  cbv beta iota zeta delta
    [GithubProvider.invoke
     GithubProvider.actionListRepos GithubProvider.actionGetRepo
     GithubProvider.actionListRepoContents GithubProvider.actionGetRepoFileContent
     GithubProvider.actionListBranches GithubProvider.actionListBranchCommits
     GithubProvider.actionListCommitModifications
     GithubProvider.actionGetCommitDetails GithubProvider.actionCommitsDiff
     GithubProvider.actionCommentPrs GithubProvider.actionListPipelines
     GithubProvider.actionListDeployments GithubProvider.catch_404_400
     BitbucketProvider.invoke
     BitbucketProvider.actionListBitbucketWorkspaces
     BitbucketProvider.actionListRepos BitbucketProvider.actionGetRepo
     BitbucketProvider.actionListRepoContents
     BitbucketProvider.actionGetRepoFileContent
     BitbucketProvider.actionListRepoBranches
     BitbucketProvider.actionListBranchCommits
     BitbucketProvider.actionListCommitModifications
     BitbucketProvider.actionGetCommitDetails BitbucketProvider.actionCommitsDiff
     BitbucketProvider.actionCommentPRs BitbucketProvider.actionListPipelines
     BitbucketProvider.actionListDeployments
     try_catch throw] in H.

Lemma status_is_400_of_status_is e :
  status_is e 400 = true -> BitbucketProvider.status_is_400 e = true.
Proof. intros H. unfold BitbucketProvider.status_is_400. rewrite H. apply orb_true_r. Qed.

(** What an action can throw: a NormalizedError, or the rejection of its
    last HTTP call when that carries status 400 and the catch block has the
    400 branch; the error of the two guards without an errorCode apart. *)
Lemma gh_action_thrown E (a : GithubProvider.Action) options (st st' : State E) e :
  GithubProvider.invoke a options st = (inl e, st') ->
  is_normalized e \/
  (status_is e 400 = true /\ exists req t, trace st' = (req, inl e) :: t).
Proof.
  intros H.
  destruct (gh_invoke_shape a) as (m4 & c4 & m5 & c5 & _ & Hshape).
  rewrite Hshape in H. unfold try_catch in H.
  destruct (GithubProvider.try_of a (default_arg options) st) as [[e0|v] st1] eqn:Htry;
    [|discriminate H].
  rewrite catch_404_400_run in H. injection H as <- <-.
  destruct (status_is e0 404); [left; eexists; reflexivity|].
  destruct (status_is e0 400) eqn:H400; [|left; eexists; reflexivity].
  destruct (gh_try_thrown _ _ _ _ _ _ Htry) as [Hn|[->|Hhttp]].
  - left; exact Hn.
  - discriminate H400.
  - right. split; [exact H400|exact Hhttp].
Qed.

Lemma bb_action_thrown E (a : BitbucketProvider.Action) options (st st' : State E) e :
  BitbucketProvider.invoke a options st = (inl e, st') ->
  if has_400_branch a then
    is_normalized e \/
    (BitbucketProvider.status_is_400 e = true /\
     exists req t, trace st' = (req, inl e) :: t) \/
    (uncoded_guard a e /\ st' = st)
  else is_normalized e.
Proof.
  intros H.
  pose proof (bb_try_thrown E a (default_arg options) st) as Hthrown.
  destruct a; cbn [has_400_branch]; unfold_catch_in H;
    match type of H with
    | context [match ?x with _ => _ end] => destruct x as [[e0|v] st1] eqn:Htry
    end; try discriminate H;
    apply Hthrown in Htry.
  all: repeat step_run H; injection H as <- <-;
    try (eexists; reflexivity); try (left; eexists; reflexivity).
  all: destruct Htry as [Hn|[->|[->|[Hhttp|[Hg ->]]]]];
    [left; exact Hn|discriminate|discriminate|right; left|right; right].
  all: try (split; [exact Hg|reflexivity]).
  all: split; [first [assumption|apply status_is_400_of_status_is; assumption]
              |exact Hhttp].
Qed.

(** Without a [params] sequence every credential is the empty string. *)
Lemma gh_credential_no_params (cfg : JsVal) (k : string) :
  nullish (get_prop_opt cfg "params") = true ->
  GithubProvider.credential cfg k = inr (JStr "").
Proof.
  unfold GithubProvider.credential, opt_chain, get_prop_opt.
  destruct cfg as [ | | | | | |fs| ]; cbn; try reflexivity.
  destruct (assoc "params" fs) as [ps|]; [|reflexivity].
  intros ->. reflexivity.
Qed.

Lemma bb_credential_no_params (cfg : JsVal) (k : string) :
  nullish (get_prop_opt cfg "params") = true ->
  BitbucketProvider.credential cfg k = inr (JStr "").
Proof.
  unfold BitbucketProvider.credential, opt_chain, get_prop_opt.
  destruct cfg as [ | | | | | |fs| ]; cbn; try reflexivity.
  destruct (assoc "params" fs) as [ps|]; [|reflexivity].
  intros ->. reflexivity.
Qed.

(** The credentials of a well-formed group: the first value for
    [GithubProvider], the whole [value] sequence for [BitbucketProvider],
    which is truthy whenever the entry exists. *)
Lemma gh_credential_wf (cfg : JsVal) (xs : list JsVal) (k : string) :
  get_prop_opt cfg "params" = JArr xs ->
  forallb param_spec_ok xs = true ->
  GithubProvider.credential cfg k =
    inr (match first_value k xs with
         | Some s => js_or (JStr s) (JStr "")
         | None => JStr ""
         end).
Proof.
  intros Hps Hok. unfold GithubProvider.credential, opt_chain.
  unfold get_prop_opt in Hps.
  destruct cfg; cbn [get_prop] in Hps; try discriminate Hps;
    cbn [nullish get_prop ebind]; rewrite Hps; cbn [nullish call_find ebind].
  all: destruct (find_in_wf true k xs Hok) as [(Hf & Hv & _)|(fs & Hf & _ & Hfs & Hv)];
    rewrite Hf, Hv; cbn [ebind nullish]; try reflexivity.
  all: unfold param_spec_ok in Hfs; cbn [get_prop];
    destruct (assoc "key" fs) as [[]|]; try discriminate Hfs;
    destruct (assoc "value" fs) as [[ | | | | |vs| | ]|]; try discriminate Hfs;
    destruct vs as [|[] vs']; try discriminate Hfs; reflexivity.
Qed.

Lemma bb_credential_wf (cfg : JsVal) (xs : list JsVal) (k : string) :
  get_prop_opt cfg "params" = JArr xs ->
  forallb param_spec_ok xs = true ->
  exists v, BitbucketProvider.credential cfg k = inr v /\
            truthy v = has_key k xs.
Proof.
  intros Hps Hok. unfold BitbucketProvider.credential, opt_chain.
  unfold get_prop_opt in Hps.
  destruct cfg; cbn [get_prop] in Hps; try discriminate Hps;
    cbn [nullish get_prop ebind]; rewrite Hps; cbn [nullish call_find ebind].
  all: destruct (find_in_wf true k xs Hok) as [(Hf & _ & Hh)|(fs & Hf & Hh & Hfs & _)];
    rewrite Hf, Hh; cbn [ebind nullish]; try (eexists; split; reflexivity).
  all: unfold param_spec_ok in Hfs; cbn [get_prop];
    destruct (assoc "key" fs) as [[]|]; try discriminate Hfs;
    destruct (assoc "value" fs) as [[ | | | | |vs| | ]|]; try discriminate Hfs;
    eexists; split; reflexivity.
Qed.


Lemma empty_credential_falsy k xs :
  empty_credential k xs = true ->
  match first_value k xs with
  | Some s => js_or (JStr s) (JStr "")
  | None => JStr ""
  end = JStr "".
Proof.
  unfold empty_credential. destruct (first_value k xs) as [s|]; [|reflexivity].
  intros H. apply String.eqb_eq in H. subst s. reflexivity.
Qed.

Lemma status_is_app_400 (e : AppError) :
  statusCode e = 400 ->
  status_is (App e) 404 = false /\ status_is (App e) 400 = true /\
  BitbucketProvider.status_is_400 (App e) = true.
Proof.
  intros H. unfold BitbucketProvider.status_is_400, status_is.
  cbn [err_statusCode err_response_status is_num is_str]. rewrite H.
  repeat split.
Qed.

Lemma confirmed_after_rejection E (st st' : State E) c req err :
  trace st' = (req, inl err) :: trace st ->
  confirmed st' c -> confirmed st c.
Proof.
  intros Htr (r & d & Hin & Hvia & Hurl). rewrite Htr in Hin.
  destruct Hin as [Heq|Hin]; [discriminate Heq|].
  exists r, d. repeat split; assumption.
Qed.

(* ===================================================================== *)
(** ** Required parameters (C1) *)
(* ===================================================================== *)

(** What each action does about a required parameter.  Take a well-formed
    parameter list in which the key [k] is absent or has a first value
    that is empty once trimmed, and an action whose guard tests [k].  The
    action then fails and leaves the state as it found it, so no HTTP call
    is made.  The
    failure is [{statusCode: 400, errorCode: "MISSING_REQUIRED_PARAMS"}] for
    every GitHub action but [actionListCommitModifications], and for the
    Bitbucket actions [actionListRepoContents],
    [actionListCommitModifications], [actionCommitsDiff],
    [actionCommentPRs], [actionListPipelines] and [actionListDeployments];
    the Bitbucket [actionGetRepoFileContent] and [actionListRepoBranches]
    fail with a 400 that carries no error code, and [actionGetRepo] and
    [actionListBranchCommits] throw a bare [Error] that their catch block
    turns into a 500 with the code of the action. *)
Theorem missing_required_param :
  forall (E : Env) (st : State E) (options : JsVal) (xs : list JsVal) (k : string),
    params_of (default_arg options) = JArr xs ->
    forallb param_spec_ok xs = true ->
    missing k xs = true ->
    (forall a, In k (GithubProvider.required a) ->
       exists e, GithubProvider.invoke a options st = (inl e, st) /\
         (a <> GithubProvider.ListCommitModifications ->
          exists msg, e = new_AppError msg 400 (Some "MISSING_REQUIRED_PARAMS")))
    /\
    (forall a, In k (BitbucketProvider.required a) ->
       exists e, BitbucketProvider.invoke a options st = (inl e, st) /\
         match a with
         | BitbucketProvider.GetRepo | BitbucketProvider.ListBranchCommits =>
             exists msg code, e = new_AppError msg 500 (Some code)
         | BitbucketProvider.GetRepoFileContent
         | BitbucketProvider.ListRepoBranches =>
             exists msg, e = new_AppError msg 400 None
         | BitbucketProvider.GetCommitDetails => True
         | _ => exists msg, e = new_AppError msg 400 (Some "MISSING_REQUIRED_PARAMS")
         end).
Proof.
  intros E st options xs k Hp Hok Hmiss.
  pose proof (trimmed_or_missing k xs Hmiss) as Hk.
  split; intros a Hin.
  - destruct a; cbn [GithubProvider.required In] in Hin; try contradiction;
      repeat (destruct Hin as [<-|Hin]; [|try contradiction]).
    all: match goal with
         | |- exists e, ?run = _ /\ _ =>
             let r := fresh "r" in let Hr := fresh "Hr" in
             destruct run as [r st1] eqn:Hr
         end.
    all: unfold_methods_in Hr; rewrite Hp in Hr;
      rewrite ?(param_trim_wf _ _ _ Hok), ?(param_trim_raw_wf _ _ Hok),
        ?(param_wf _ _ _ Hok), ?(param_trim_strict_wf _ _ Hok) in Hr;
      cbv beta iota zeta in Hr; rewrite ?Hk in Hr.
    all: cbn [truthy negb orb String.eqb] in Hr; rewrite ?orb_true_r in Hr;
      cbn [orb] in Hr; cbv beta iota zeta in Hr.
    all: try (injection Hr as <- <-; eexists; split;
              [reflexivity|intros _; eexists; reflexivity]).
    all: unfold trimmed_or in Hk;
      match type of Hmiss with
      | missing ?k0 _ = true => destruct (first_value k0 xs) eqn:Hfv
      end;
      cbv beta iota zeta in Hr; rewrite ?Hk in Hr;
      cbn [truthy negb orb String.eqb] in Hr;
      repeat step_run Hr; rewrite ?orb_true_r in *; try discriminate;
      injection Hr as <- <-; eexists;
      (split; [reflexivity|intros Hn; exfalso; apply Hn; reflexivity]).
  - destruct a; cbn [BitbucketProvider.required In] in Hin; try contradiction;
      repeat (destruct Hin as [<-|Hin]; [|try contradiction]).
    all: match goal with
         | |- exists e, ?run = _ /\ _ =>
             let r := fresh "r" in let Hr := fresh "Hr" in
             destruct run as [r st1] eqn:Hr
         end.
    all: unfold_methods_in Hr; rewrite Hp in Hr;
      rewrite ?(param_trim_wf _ _ _ Hok), ?(param_wf _ _ _ Hok) in Hr;
      cbv beta iota zeta in Hr; rewrite ?Hk in Hr.
    all: cbn [truthy negb orb String.eqb] in Hr; rewrite ?orb_true_r in Hr;
      cbn [orb] in Hr; cbv beta iota zeta in Hr.
    all: injection Hr as <- <-; eexists; (split; [reflexivity|]).
    all: first [exact I | eexists; reflexivity | do 2 eexists; reflexivity].
Qed.

(** A run of [missing_required_param]: [GithubProvider.actionGetRepo] with
    a [repoName] made of blanks. *)
Lemma missing_required_param_witness :
  params_of (default_arg (call_options [entry "repoName" "   "]))
  = JArr [entry "repoName" "   "] /\
  forallb param_spec_ok [entry "repoName" "   "] = true /\
  missing "repoName" [entry "repoName" "   "] = true /\
  exists e,
    GithubProvider.invoke GithubProvider.GetRepo
      (call_options [entry "repoName" "   "]) (ready_answering JNull)
    = (inl e, ready_answering JNull) /\
    (GithubProvider.GetRepo <> GithubProvider.ListCommitModifications ->
     exists msg, e = new_AppError msg 400 (Some "MISSING_REQUIRED_PARAMS")).
Proof.
  split; [reflexivity|]. split; [reflexivity|]. split; [reflexivity|].
  apply (proj1 (missing_required_param (memory_env (answering JNull))
                  (ready_answering JNull)
                  (call_options [entry "repoName" "   "])
                  [entry "repoName" "   "] "repoName"
                  eq_refl eq_refl eq_refl)
           GithubProvider.GetRepo).
  left; reflexivity.
Defined.

(** Claim C1 at the inputs the code gets wrong.  Without a [repoName],
    [GithubProvider.actionGetRepo] fails with 400
    [MISSING_REQUIRED_PARAMS], as do most actions of both classes; but
    [BitbucketProvider.actionGetRepo] and [actionListBranchCommits] throw a
    bare [Error] and fail with a 500, [BitbucketProvider.actionGetCommitDetails]
    throws the 400 and turns it into a 500 in its own catch block,
    [GithubProvider.actionListCommitModifications] fails with a 500 on the
    [TypeError] of its extraction, and
    [BitbucketProvider.actionGetRepoFileContent] and
    [actionListRepoBranches] fail with a 400 built without an error code.
    None of them makes an HTTP call. *)
Theorem missing_param_wrong_failure :
  forall (E : Env) (st : State E),
    GithubProvider.actionGetRepo (call_options []) st
    = (inl (new_AppError "Repository name is required" 400
              (Some "MISSING_REQUIRED_PARAMS")), st) /\
    BitbucketProvider.actionGetRepo (call_options []) st
    = (inl (new_AppError "Failed to fetch repository" 500
              (Some "FETCH_REPO_FAILED")), st) /\
    BitbucketProvider.actionListBranchCommits (call_options []) st
    = (inl (new_AppError "Failed to fetch commits" 500
              (Some "FETCH_COMMITS_FAILED")), st) /\
    BitbucketProvider.actionGetCommitDetails (call_options []) st
    = (inl (new_AppError "Failed to fetch commit details" 500
              (Some "FETCH_COMMIT_DETAILS_FAILED")), st) /\
    GithubProvider.actionListCommitModifications (call_options []) st
    = (inl (new_AppError "Failed to fetch commit modifications" 500
              (Some "FETCH_MODIFICATIONS_FAILED")), st) /\
    BitbucketProvider.actionGetRepoFileContent (call_options []) st
    = (inl (new_AppError
              "In order to fetch file/directory contents from Bitbucket please fill all required fields."
              400 None), st) /\
    BitbucketProvider.actionListRepoBranches (call_options []) st
    = (inl (new_AppError "Please required field (repository name)" 400 None), st).
Proof.
  intros E st. repeat split.
Qed.

(* ===================================================================== *)
(** ** Upstream 404 (C2) *)
(* ===================================================================== *)

(** Claim C2, as the code has it.  Suppose the last HTTP call of a run was
    made during the run and was rejected with [e].  For every repository
    action of the GitHub class: when [e] carries status 404 the action
    fails with statusCode 404 and errorCode [RESOURCE_NOT_FOUND] or
    [REPOSITORY_NOT_FOUND]; otherwise, when [e] carries status 400 the
    action throws [e] itself; otherwise it fails with a 500 and an error
    code (a 401 included).  [BitbucketProvider.actionGetCommitDetails]
    answers a 404 with 404 [RESOURCE_NOT_FOUND].
    [actionUpdatePluginConfig] answers every such failure with 500
    [CONFIG_UPDATE_FAILED]. *)
Theorem upstream_404_policy :
  forall (E : Env) (st st' : State E) (r : Exn JsVal)
         (req : Request) (e : Thrown) (t : list HttpEvent),
    trace st' = (req, inl e) :: t ->
    (length (trace st) < length (trace st'))%nat ->
    (forall a options,
       GithubProvider.invoke a options st = (r, st') ->
       (status_is e 404 = true ->
        exists msg code,
          r = inl (new_AppError msg 404 (Some code)) /\
          (code = "RESOURCE_NOT_FOUND" \/ code = "REPOSITORY_NOT_FOUND")) /\
       (status_is e 404 = false -> status_is e 400 = true -> r = inl e) /\
       (status_is e 404 = false -> status_is e 400 = false ->
        exists msg code, r = inl (new_AppError msg 500 (Some code)))) /\
    (forall options,
       BitbucketProvider.actionGetCommitDetails options st = (r, st') ->
       status_is e 404 = true ->
       r = inl (new_AppError "Repository or commit not found" 404
                  (Some "RESOURCE_NOT_FOUND"))) /\
    (forall options,
       GithubProvider.actionUpdatePluginConfig options st = (r, st') ->
       r = inl config_update_failed).
Proof.
  intros E st st' r req e t Htr Hlen. split; [|split].
  - intros a options H.
    destruct (gh_invoke_shape a) as (m4 & c4 & m5 & c5 & Hc4 & Hshape).
    rewrite Hshape in H. unfold try_catch in H.
    destruct (GithubProvider.try_of a (default_arg options) st) as [[e0|v] st1] eqn:Htry.
    + rewrite catch_404_400_run in H. injection H as <- <-.
      destruct (gh_try_trace _ _ _ _ _ _ Htry) as [Hsame|(req1 & res1 & t1 & Hhd & _ & Hres)].
      * rewrite Hsame in Hlen. lia.
      * rewrite Hhd in Htr. injection Htr as _ -> _.
        specialize (Hres e eq_refl). injection Hres as ->.
        repeat split.
        -- intros ->. exists m4, c4. split; [reflexivity|exact Hc4].
        -- intros -> ->. reflexivity.
        -- intros -> ->. exists m5, c5. reflexivity.
    + injection H as <- <-.
      destruct (gh_try_trace _ _ _ _ _ _ Htry) as [Hsame|(req1 & res1 & t1 & Hhd & _ & Hres)].
      * rewrite Hsame in Hlen. lia.
      * rewrite Hhd in Htr. injection Htr as _ -> _.
        specialize (Hres e eq_refl). discriminate Hres.
  - intros options H H404.
    unfold BitbucketProvider.actionGetCommitDetails, try_catch, throw in H.
    destruct (BitbucketProvider.actionGetCommitDetails_try (default_arg options) st)
      as [[e0|v] st1] eqn:Htry;
      apply (bb_try_trace E BitbucketProvider.GetCommitDetails) in Htry.
    + destruct Htry as [Hsame|(req1 & res1 & t1 & Hhd & _ & Hres)].
      * destruct (status_is e0 404); injection H as _ <-; rewrite Hsame in Hlen; lia.
      * assert (st' = st1) as -> by (destruct (status_is e0 404); injection H as _ <-; reflexivity).
        rewrite Hhd in Htr. injection Htr as _ -> _.
        specialize (Hres e eq_refl). injection Hres as ->.
        rewrite H404 in H. injection H as <-. reflexivity.
    + injection H as <- <-.
      destruct Htry as [Hsame|(req1 & res1 & t1 & Hhd & _ & Hres)].
      * rewrite Hsame in Hlen. lia.
      * rewrite Hhd in Htr. injection Htr as _ -> _.
        specialize (Hres e eq_refl). discriminate Hres.
  - intros options H. destruct r as [e0|v].
    + rewrite (update_config_failure _ _ _ _ _ H). reflexivity.
    + destruct (update_config_trace _ _ _ _ _ H) as [Hsame|(req1 & d & Hhd)].
      * rewrite Hsame in Hlen. lia.
      * rewrite Hhd in Htr. discriminate Htr.
Qed.

(** A run of the C2 theorem: [GithubProvider.actionGetRepo] against a
    vendor that answers 404. *)
Lemma upstream_404_policy_witness :
  (trace (snd (gh_get_repo_rejected 404)) = (get_repo_r, inl (axios_error 404)) :: [] /\
   (length (trace (ready_rejecting 404))
    < length (trace (snd (gh_get_repo_rejected 404))))%nat /\
   status_is (axios_error 404) 404 = true /\
   exists msg code,
     fst (gh_get_repo_rejected 404) = inl (new_AppError msg 404 (Some code)) /\
     (code = "RESOURCE_NOT_FOUND" \/ code = "REPOSITORY_NOT_FOUND")) /\
  (trace (snd (gh_get_repo_rejected 400)) = (get_repo_r, inl (axios_error 400)) :: [] /\
   status_is (axios_error 400) 404 = false /\
   status_is (axios_error 400) 400 = true /\
   fst (gh_get_repo_rejected 400) = inl (axios_error 400)) /\
  (trace (snd (gh_get_repo_rejected 503)) = (get_repo_r, inl (axios_error 503)) :: [] /\
   status_is (axios_error 503) 404 = false /\
   status_is (axios_error 503) 400 = false /\
   exists msg code,
     fst (gh_get_repo_rejected 503) = inl (new_AppError msg 500 (Some code))) /\
  (trace (snd (bb_commit_details_rejected 404))
   = (mkRequest a_client GET "/repositories/acme/r" [] JUndef,
      inl (axios_error 404)) :: [] /\
   fst (bb_commit_details_rejected 404)
   = inl (new_AppError "Repository or commit not found" 404
            (Some "RESOURCE_NOT_FOUND"))) /\
  (trace (snd (gh_update_rejected 404))
   = (get_user github_client_t, inl (axios_error 404)) :: [] /\
   fst (gh_update_rejected 404) = inl config_update_failed).
Proof.
  assert (Hlen : forall n, (length (trace (ready_rejecting n)) < 1)%nat)
    by (intros n; cbn; lia).
  split; [|split; [|split; [|split]]].
  - split; [reflexivity|]. split; [exact (Hlen 404)|]. split; [reflexivity|].
    exact (proj1 (proj1 (upstream_404_policy (memory_env (rejecting 404))
                           (ready_rejecting 404)
                           (snd (gh_get_repo_rejected 404))
                           (fst (gh_get_repo_rejected 404))
                           get_repo_r (axios_error 404) [] eq_refl (Hlen 404))
                    GithubProvider.GetRepo (call_options [entry "repoName" "r"])
                    eq_refl)
             eq_refl).
  - split; [reflexivity|]. split; [reflexivity|]. split; [reflexivity|].
    exact (proj1 (proj2 (proj1 (upstream_404_policy (memory_env (rejecting 400))
                                  (ready_rejecting 400)
                                  (snd (gh_get_repo_rejected 400))
                                  (fst (gh_get_repo_rejected 400))
                                  get_repo_r (axios_error 400) [] eq_refl (Hlen 400))
                           GithubProvider.GetRepo
                           (call_options [entry "repoName" "r"]) eq_refl))
             eq_refl eq_refl).
  - split; [reflexivity|]. split; [reflexivity|]. split; [reflexivity|].
    exact (proj2 (proj2 (proj1 (upstream_404_policy (memory_env (rejecting 503))
                                  (ready_rejecting 503)
                                  (snd (gh_get_repo_rejected 503))
                                  (fst (gh_get_repo_rejected 503))
                                  get_repo_r (axios_error 503) [] eq_refl (Hlen 503))
                           GithubProvider.GetRepo
                           (call_options [entry "repoName" "r"]) eq_refl))
             eq_refl eq_refl).
  - split; [reflexivity|].
    exact (proj1 (proj2 (upstream_404_policy (memory_env (rejecting 404))
                           (ready_rejecting 404)
                           (snd (bb_commit_details_rejected 404))
                           (fst (bb_commit_details_rejected 404))
                           (mkRequest a_client GET "/repositories/acme/r" [] JUndef)
                           (axios_error 404) [] eq_refl (Hlen 404)))
             (call_options [entry "repoName" "r"; entry "commitSha" "abc"])
             eq_refl eq_refl).
  - split; [reflexivity|].
    exact (proj2 (proj2 (upstream_404_policy (memory_env (rejecting 404))
                           (constructed (memory_env (rejecting 404)) github_config [])
                           (snd (gh_update_rejected 404))
                           (fst (gh_update_rejected 404))
                           (get_user github_client_t)
                           (axios_error 404) [] eq_refl (Nat.lt_0_succ 0)))
             (JObj [("configs", JArr [github_group "t" "acme"])]) eq_refl).
Defined.

(** C2 as stated fails: an upstream 404 leaves
    [BitbucketProvider.actionListBranchCommits] with 500
    [FETCH_COMMITS_FAILED], a 404 on the fetch-current-user call leaves
    [actionUpdatePluginConfig] with 500 [CONFIG_UPDATE_FAILED], and an
    upstream 401 is not passed through by [GithubProvider.actionGetRepo],
    which fails with 500 [FETCH_REPO_FAILED]. *)
Lemma upstream_404_becomes_500 :
  (trace (snd (BitbucketProvider.actionListBranchCommits
                 (call_options [entry "repoName" "r"; entry "branch" "main"])
                 (ready_rejecting 404)))
   = [(mkRequest a_client GET "/repositories/acme/r/commits/main" [] JUndef,
       inl (axios_error 404))] /\
   fst (BitbucketProvider.actionListBranchCommits
          (call_options [entry "repoName" "r"; entry "branch" "main"])
          (ready_rejecting 404))
   = inl (new_AppError "Failed to fetch commits" 500 (Some "FETCH_COMMITS_FAILED"))) /\
  (trace (snd (GithubProvider.actionUpdatePluginConfig
                 (JObj [("configs", JArr [github_group "t" "acme"])])
                 (constructed (memory_env (rejecting 404)) github_config [])))
   = [(get_user github_client_t, inl (axios_error 404))] /\
   fst (GithubProvider.actionUpdatePluginConfig
          (JObj [("configs", JArr [github_group "t" "acme"])])
          (constructed (memory_env (rejecting 404)) github_config []))
   = inl config_update_failed) /\
  (trace (snd (GithubProvider.actionGetRepo (call_options [entry "repoName" "r"])
                 (ready_rejecting 401)))
   = [(get_repo_r, inl (axios_error 401))] /\
   fst (GithubProvider.actionGetRepo (call_options [entry "repoName" "r"])
          (ready_rejecting 401))
   = inl (new_AppError "Failed to fetch repository" 500 (Some "FETCH_REPO_FAILED"))).
Proof.
  split; [|split]; split; reflexivity.
Qed.

(* ===================================================================== *)
(** ** Failures of init (C3) *)
(* ===================================================================== *)

(** Claim C3, as the code has it.  (1) [GithubProvider.init] fails with
    401 [AUTH_FAILED], before any HTTP call, when the [token] or [owner]
    entry of a well-formed group is absent or has an empty first value.
    (2) [BitbucketProvider.init] fails with 401 [AUTH_FAILED], before any
    HTTP call, when the group has no [username] or no [appPassword] entry.
    (3) When the fetch-current-user call of [GithubProvider.init] is
    rejected with [err], [init] throws [err] itself if it carries status
    401 and the generic 500 initialisation error otherwise.  (4) When that
    call of [BitbucketProvider.init] is rejected, [init] fails with 401
    [AUTH_FAILED] whatever the rejection.  (5) [init] with [token = ""] and
    [owner = "acme"] fails with 401 [AUTH_FAILED].  (6, 7) Both fail with
    401 [AUTH_FAILED] when the store has no group of the name, or a group
    without [params]. *)
Theorem init_failures :
  (forall (E : Env) (st : State E) cfg xs k,
     getConfig E (store st) "github_config" = inr cfg ->
     get_prop_opt cfg "params" = JArr xs ->
     forallb param_spec_ok xs = true ->
     k = "token" \/ k = "owner" ->
     empty_credential k xs = true ->
     exists msg owner',
       GithubProvider.init st =
       (inl (new_AppError msg 401 (Some "AUTH_FAILED")),
        mkState (client st) owner' (config st) (store st) (trace st))) /\
  (forall (E : Env) (st : State E) cfg xs k,
     getConfig E (store st) "bitbucket_config" = inr cfg ->
     get_prop_opt cfg "params" = JArr xs ->
     forallb param_spec_ok xs = true ->
     k = "username" \/ k = "appPassword" ->
     has_key k xs = false ->
     exists owner',
       BitbucketProvider.init st =
       (inl (new_AppError "Bitbucket credentials not found" 401 (Some "AUTH_FAILED")),
        mkState (client st) owner' (config st) (store st) (trace st))) /\
  (forall (E : Env) (st st' : State E) e req err,
     GithubProvider.init st = (inl e, st') ->
     trace st' = (req, inl err) :: trace st ->
     e = if gh_is_401 err then err else gh_init_failed) /\
  (forall (E : Env) (st st' : State E) e req err,
     BitbucketProvider.init st = (inl e, st') ->
     trace st' = (req, inl err) :: trace st ->
     e = bb_auth_failed) /\
  (forall vendor,
     fst (GithubProvider.init
            (constructed (memory_env vendor) github_config
               [group "github_config" [entry "token" ""; entry "owner" "acme"]]))
     = inl (new_AppError "GitHub token not found in configurations"
              401 (Some "AUTH_FAILED"))) /\
  (forall (E : Env) (st : State E) cfg,
     getConfig E (store st) "github_config" = inr cfg ->
     nullish (get_prop_opt cfg "params") = true ->
     GithubProvider.init st =
     (inl (new_AppError "GitHub token not found in configurations"
             401 (Some "AUTH_FAILED")),
      mkState (client st) (JStr "") (config st) (store st) (trace st))) /\
  (forall (E : Env) (st : State E) cfg,
     getConfig E (store st) "bitbucket_config" = inr cfg ->
     nullish (get_prop_opt cfg "params") = true ->
     BitbucketProvider.init st =
     (inl (new_AppError "Bitbucket credentials not found" 401 (Some "AUTH_FAILED")),
      mkState (client st) (JStr "") (config st) (store st) (trace st))).
Proof.
  split; [|split; [|split; [|split; [|split; [|split]]]]].
  - intros E st cfg xs k Hget Hps Hok Hk Hempty.
    pose proof (empty_credential_falsy k xs Hempty) as Hf.
    unfold GithubProvider.init, try_catch, bind, ConfigManager_getConfig, lift,
      set_owner, throw.
    rewrite Hget, !(gh_credential_wf cfg xs _ Hps Hok).
    destruct Hk as [-> | ->]; rewrite Hf; cbn [truthy negb String.eqb].
    + do 2 eexists. reflexivity.
    + destruct (negb (truthy _)); do 2 eexists; reflexivity.
  - intros E st cfg xs k Hget Hps Hok Hk Habs.
    unfold BitbucketProvider.init, try_catch, bind, ConfigManager_getConfig, lift,
      set_owner, throw.
    rewrite Hget.
    destruct (bb_credential_wf cfg xs "username" Hps Hok) as (u & -> & Hu).
    destruct (bb_credential_wf cfg xs "appPassword" Hps Hok) as (p & -> & Hp).
    destruct (bb_credential_wf cfg xs "owner" Hps Hok) as (o & -> & _).
    assert (negb (truthy u) || negb (truthy p) = true) as ->.
    { destruct Hk as [-> | ->]; [rewrite Hu, Habs|rewrite Hp, Habs];
        [reflexivity|apply orb_true_r]. }
    eexists. reflexivity.
  - intros E st st' e req err H Htr.
    unfold_init_in H. repeat step_run H.
    all: try discriminate H.
    all: injection H as <- <-; cbn [trace] in Htr.
    all: try (exfalso; apply (f_equal (@length _)) in Htr; cbn [length] in Htr; lia).
    all: try discriminate Htr.
    all: injection Htr as _ <-; unfold gh_is_401.
    all: match goal with Hb : _ = _ :> bool |- _ => rewrite Hb end; reflexivity.
  - intros E st st' e req err H Htr.
    unfold_init_in H. repeat step_run H.
    all: try discriminate H.
    all: injection H as <- <-; cbn [trace] in Htr.
    all: try (exfalso; apply (f_equal (@length _)) in Htr; cbn [length] in Htr; lia).
    all: try discriminate Htr.
    all: try reflexivity.
    all: discriminate Heqb0.
  - intros vendor. reflexivity.
  - intros E st cfg Hget Hno.
    unfold GithubProvider.init, try_catch, bind, ConfigManager_getConfig, lift,
      set_owner, throw.
    rewrite Hget, !(gh_credential_no_params cfg _ Hno). reflexivity.
  - intros E st cfg Hget Hno.
    unfold BitbucketProvider.init, try_catch, bind, ConfigManager_getConfig, lift,
      set_owner, throw.
    rewrite Hget, !(bb_credential_no_params cfg _ Hno). reflexivity.
Qed.

(** Runs of the C3 theorem: an empty GitHub token, a Bitbucket group with
    no [appPassword], and a vendor that answers 503 to the GitHub
    fetch-current-user call. *)
Lemma init_failures_witness :
  (getConfig (memory_env (answering JNull))
     (store (constructed (memory_env (answering JNull)) github_config
               [github_group "" "acme"])) "github_config"
   = inr (github_group "" "acme") /\
   get_prop_opt (github_group "" "acme") "params"
   = JArr [entry "token" ""; entry "owner" "acme"] /\
   forallb param_spec_ok [entry "token" ""; entry "owner" "acme"] = true /\
   ("token" = "token" \/ "token" = "owner") /\
   empty_credential "token" [entry "token" ""; entry "owner" "acme"] = true /\
   exists msg owner',
     GithubProvider.init (constructed (memory_env (answering JNull)) github_config
                            [github_group "" "acme"])
     = (inl (new_AppError msg 401 (Some "AUTH_FAILED")),
        mkState (E:=memory_env (answering JNull)) None owner' github_config
          [github_group "" "acme"] [])) /\
  (getConfig (memory_env (answering JNull))
     (store (constructed (memory_env (answering JNull)) bitbucket_config
               [group "bitbucket_config" [entry "username" "u"]])) "bitbucket_config"
   = inr (group "bitbucket_config" [entry "username" "u"]) /\
   get_prop_opt (group "bitbucket_config" [entry "username" "u"]) "params"
   = JArr [entry "username" "u"] /\
   forallb param_spec_ok [entry "username" "u"] = true /\
   ("appPassword" = "username" \/ "appPassword" = "appPassword") /\
   has_key "appPassword" [entry "username" "u"] = false /\
   exists owner',
     BitbucketProvider.init (constructed (memory_env (answering JNull))
                               bitbucket_config
                               [group "bitbucket_config" [entry "username" "u"]])
     = (inl (new_AppError "Bitbucket credentials not found" 401 (Some "AUTH_FAILED")),
        mkState (E:=memory_env (answering JNull)) None owner' bitbucket_config
          [group "bitbucket_config" [entry "username" "u"]] [])) /\
  (GithubProvider.init (constructed (memory_env (rejecting 503)) github_config
                          [github_group "t" "acme"])
   = (inl gh_init_failed,
      snd (GithubProvider.init
             (constructed (memory_env (rejecting 503)) github_config
                [github_group "t" "acme"]))) /\
   trace (snd (GithubProvider.init
                 (constructed (memory_env (rejecting 503)) github_config
                    [github_group "t" "acme"])))
   = (get_user github_client_t, inl (axios_error 503))
     :: trace (constructed (memory_env (rejecting 503)) github_config
                 [github_group "t" "acme"]) /\
   gh_init_failed
   = (if gh_is_401 (axios_error 503) then axios_error 503 else gh_init_failed)) /\
  (BitbucketProvider.init (fresh_bitbucket 503)
   = (inl bb_auth_failed, snd (BitbucketProvider.init (fresh_bitbucket 503))) /\
   trace (snd (BitbucketProvider.init (fresh_bitbucket 503)))
   = (get_user bitbucket_client_up, inl (axios_error 503))
     :: trace (fresh_bitbucket 503) /\
   bb_auth_failed = bb_auth_failed) /\
  (getConfig (memory_env (answering JNull))
     (store (constructed (memory_env (answering JNull)) github_config []))
     "github_config" = inr JUndef /\
   nullish (get_prop_opt JUndef "params") = true /\
   GithubProvider.init (constructed (memory_env (answering JNull)) github_config [])
   = (inl (new_AppError "GitHub token not found in configurations"
             401 (Some "AUTH_FAILED")),
      constructed (memory_env (answering JNull)) github_config [])) /\
  (getConfig (memory_env (answering JNull))
     (store (constructed (memory_env (answering JNull)) bitbucket_config []))
     "bitbucket_config" = inr JUndef /\
   nullish (get_prop_opt JUndef "params") = true /\
   BitbucketProvider.init
     (constructed (memory_env (answering JNull)) bitbucket_config [])
   = (inl (new_AppError "Bitbucket credentials not found" 401 (Some "AUTH_FAILED")),
      constructed (memory_env (answering JNull)) bitbucket_config [])).
Proof.
  split; [|split; [|split; [|split; [|split]]]].
  - do 5 (split; [first [reflexivity | left; reflexivity]|]).
    exact (proj1 init_failures (memory_env (answering JNull))
             (constructed (memory_env (answering JNull)) github_config
                [github_group "" "acme"])
             (github_group "" "acme") [entry "token" ""; entry "owner" "acme"]
             "token" eq_refl eq_refl eq_refl (or_introl eq_refl) eq_refl).
  - do 5 (split; [first [reflexivity | right; reflexivity]|]).
    exact (proj1 (proj2 init_failures) (memory_env (answering JNull))
             (constructed (memory_env (answering JNull)) bitbucket_config
                [group "bitbucket_config" [entry "username" "u"]])
             (group "bitbucket_config" [entry "username" "u"])
             [entry "username" "u"]
             "appPassword" eq_refl eq_refl eq_refl (or_intror eq_refl) eq_refl).
  - split; [reflexivity|]. split; [reflexivity|].
    exact (proj1 (proj2 (proj2 init_failures)) (memory_env (rejecting 503))
             (constructed (memory_env (rejecting 503)) github_config
                [github_group "t" "acme"])
             (snd (GithubProvider.init
                     (constructed (memory_env (rejecting 503)) github_config
                        [github_group "t" "acme"])))
             gh_init_failed (get_user github_client_t) (axios_error 503)
             eq_refl eq_refl).
  - split; [reflexivity|]. split; [reflexivity|].
    exact (eq_sym (proj1 (proj2 (proj2 (proj2 init_failures)))
                     (memory_env (rejecting 503)) (fresh_bitbucket 503)
                     (snd (BitbucketProvider.init (fresh_bitbucket 503)))
                     bb_auth_failed (get_user bitbucket_client_up)
                     (axios_error 503) eq_refl eq_refl)).
  - split; [reflexivity|]. split; [reflexivity|].
    exact (proj1 (proj2 (proj2 (proj2 (proj2 (proj2 init_failures)))))
             (memory_env (answering JNull))
             (constructed (memory_env (answering JNull)) github_config [])
             JUndef eq_refl eq_refl).
  - split; [reflexivity|]. split; [reflexivity|].
    exact (proj2 (proj2 (proj2 (proj2 (proj2 (proj2 init_failures)))))
             (memory_env (answering JNull))
             (constructed (memory_env (answering JNull)) bitbucket_config [])
             JUndef eq_refl eq_refl).
Defined.

(** C3 as stated fails for failures during client construction: a 401
    answer to the GitHub fetch-current-user call comes out of [init] as the
    raw rejection, and a 503 answer to the Bitbucket one comes out as 401
    [AUTH_FAILED]; neither is the generic 500. *)
Lemma init_failure_not_always_500 :
  (GithubProvider.init (constructed (memory_env (rejecting 401)) github_config
                          [github_group "t" "acme"])
   = (inl (axios_error 401),
      mkState (E:=memory_env (rejecting 401)) (Some github_client_t) (JStr "acme")
        github_config [github_group "t" "acme"]
        [(get_user github_client_t, inl (axios_error 401))])) /\
  (fst (BitbucketProvider.init
          (constructed (memory_env (rejecting 503)) bitbucket_config
             [bitbucket_group "u" "p"]))
   = inl bb_auth_failed /\
   exists req,
     trace (snd (BitbucketProvider.init
                   (constructed (memory_env (rejecting 503)) bitbucket_config
                      [bitbucket_group "u" "p"])))
     = [(req, inl (axios_error 503))] /\ url req = "/user").
Proof.
  split; [reflexivity|]. split; [reflexivity|]. eexists. split; reflexivity.
Qed.

(* ===================================================================== *)
(** ** The shape of thrown errors (C4) *)
(* ===================================================================== *)

(** Claim C4, as the code has it.  A failure of a repository action is a
    NormalizedError, or, where the catch block has the 400 branch, the
    rejection of the action's last HTTP call thrown again as it is because
    it carries status 400; the four Bitbucket actions without that branch
    throw a NormalizedError only.  The one other case is the error of the
    guards of [BitbucketProvider.actionGetRepoFileContent] and
    [actionListRepoBranches], thrown with no errorCode before anything is
    sent.  A failure of [actionUpdatePluginConfig] is a NormalizedError.
    A failure of [init] is a NormalizedError, the generic 500, which has
    no errorCode, or an error carrying status 401 thrown again as it is
    (the rejection of the fetch-current-user call or what [getConfig]
    threw).  [GithubProvider.createClient] throws again whatever it
    caught; [BitbucketProvider.createClient] always fails with 401
    [AUTH_FAILED]. *)
Theorem errors_crossing_the_boundary :
  (forall (E : Env) a options (st st' : State E) e,
     GithubProvider.invoke a options st = (inl e, st') ->
     is_normalized e \/
     (status_is e 400 = true /\ exists req t, trace st' = (req, inl e) :: t)) /\
  (forall (E : Env) a options (st st' : State E) e,
     BitbucketProvider.invoke a options st = (inl e, st') ->
     if has_400_branch a then
       is_normalized e \/
       (BitbucketProvider.status_is_400 e = true /\
        exists req t, trace st' = (req, inl e) :: t) \/
       (uncoded_guard a e /\ st' = st)
     else is_normalized e) /\
  (forall (E : Env) options (st st' : State E) e,
     GithubProvider.actionUpdatePluginConfig options st = (inl e, st') ->
     is_normalized e) /\
  (forall (E : Env) (st st' : State E) e,
     GithubProvider.init st = (inl e, st') ->
     is_normalized e \/ e = gh_init_failed \/
     (gh_is_401 e = true /\
      (getConfig E (store st) "github_config" = inl e \/
       exists req, trace st' = (req, inl e) :: trace st))) /\
  (forall (E : Env) (st st' : State E) e,
     BitbucketProvider.init st = (inl e, st') ->
     is_normalized e \/ e = bb_init_failed \/
     (status_is e 401 = true /\
      getConfig E (store st) "bitbucket_config" = inl e)) /\
  (forall (E : Env) token (st st' : State E) e,
     GithubProvider.createClient token st = (inl e, st') ->
     is_normalized e \/ e = TypeError \/
     exists req, trace st' = (req, inl e) :: trace st) /\
  (forall (E : Env) username appPassword (st st' : State E) e,
     BitbucketProvider.createClient username appPassword st = (inl e, st') ->
     e = bb_auth_failed /\ is_normalized e).
Proof.
  split; [|split; [|split; [|split; [|split; [|split]]]]].
  - intros E a options st st' e H. exact (gh_action_thrown E a options st st' e H).
  - intros E a options st st' e H. exact (bb_action_thrown E a options st st' e H).
  - intros E options st st' e H.
    rewrite (update_config_failure E options st st' e H). eexists; reflexivity.
  - intros E st st' e H. unfold_init_in H. repeat step_run H.
    all: try discriminate H.
    all: injection H as <- <-; try (left; eexists; reflexivity);
      try (right; left; reflexivity).
    all: name_throws; try discriminate.
    all: right; right; (split; [assumption|]).
    all: first [left; reflexivity | right; eexists; reflexivity].
  - intros E st st' e H. unfold_init_in H. repeat step_run H.
    all: try discriminate H.
    all: injection H as <- <-; try (left; eexists; reflexivity);
      try (right; left; reflexivity).
    all: name_throws; try discriminate.
    all: right; right; (split; [assumption|reflexivity]).
  - intros E token st st' e H. unfold_init_in H. repeat step_run H.
    all: try discriminate H.
    all: injection H as <- <-; try (left; eexists; reflexivity).
    all: name_throws.
    all: first [right; left; reflexivity | right; right; eexists; reflexivity].
  - intros E username appPassword st st' e H. unfold_init_in H. repeat step_run H.
    all: try discriminate H.
    all: injection H as <- <-; split; [reflexivity|eexists; reflexivity].
Qed.

(** Runs of the C4 theorem: a vendor that answers 400 to
    [GithubProvider.actionGetRepo] and to
    [BitbucketProvider.actionListPipelines], whose catch blocks have the
    400 branch, and to [BitbucketProvider.actionGetRepo], whose catch block
    has not; the guard of [BitbucketProvider.actionListRepoBranches]; and
    the failures of [actionUpdatePluginConfig], [init] and
    [createClient]. *)
Lemma errors_crossing_the_boundary_witness :
  (gh_get_repo_rejected 400
   = (inl (axios_error 400), snd (gh_get_repo_rejected 400)) /\
   (is_normalized (axios_error 400) \/
    (status_is (axios_error 400) 400 = true /\
     exists req t,
       trace (snd (gh_get_repo_rejected 400)) = (req, inl (axios_error 400)) :: t))) /\
  (BitbucketProvider.invoke BitbucketProvider.ListPipelines
     (call_options [entry "repoName" "r"]) (ready_rejecting 400)
   = (inl (axios_error 400),
      snd (BitbucketProvider.invoke BitbucketProvider.ListPipelines
             (call_options [entry "repoName" "r"]) (ready_rejecting 400))) /\
   (is_normalized (axios_error 400) \/
    (BitbucketProvider.status_is_400 (axios_error 400) = true /\
     exists req t,
       trace (snd (BitbucketProvider.invoke BitbucketProvider.ListPipelines
                     (call_options [entry "repoName" "r"]) (ready_rejecting 400)))
       = (req, inl (axios_error 400)) :: t) \/
    (uncoded_guard BitbucketProvider.ListPipelines (axios_error 400) /\
     snd (BitbucketProvider.invoke BitbucketProvider.ListPipelines
            (call_options [entry "repoName" "r"]) (ready_rejecting 400))
     = ready_rejecting 400))) /\
  (BitbucketProvider.invoke BitbucketProvider.GetRepo
     (call_options [entry "repoName" "r"]) (ready_rejecting 400)
   = (inl (new_AppError "Failed to fetch repository" 500 (Some "FETCH_REPO_FAILED")),
      snd (BitbucketProvider.invoke BitbucketProvider.GetRepo
             (call_options [entry "repoName" "r"]) (ready_rejecting 400))) /\
   is_normalized
     (new_AppError "Failed to fetch repository" 500 (Some "FETCH_REPO_FAILED"))) /\
  (BitbucketProvider.invoke BitbucketProvider.ListRepoBranches
     (call_options []) (ready_rejecting 400)
   = (inl (new_AppError "Please required field (repository name)" 400 None),
      ready_rejecting 400) /\
   (is_normalized
      (new_AppError "Please required field (repository name)" 400 None) \/
    (BitbucketProvider.status_is_400
       (new_AppError "Please required field (repository name)" 400 None) = true /\
     exists req t,
       trace (ready_rejecting 400)
       = (req, inl (new_AppError "Please required field (repository name)"
                      400 None)) :: t) \/
    (uncoded_guard BitbucketProvider.ListRepoBranches
       (new_AppError "Please required field (repository name)" 400 None) /\
     ready_rejecting 400 = ready_rejecting 400))) /\
  (gh_update_rejected 400
   = (inl config_update_failed, snd (gh_update_rejected 400)) /\
   is_normalized config_update_failed) /\
  (GithubProvider.init (fresh_github 401)
   = (inl (axios_error 401), snd (GithubProvider.init (fresh_github 401))) /\
   (is_normalized (axios_error 401) \/ axios_error 401 = gh_init_failed \/
    (gh_is_401 (axios_error 401) = true /\
     (getConfig (memory_env (rejecting 401)) (store (fresh_github 401))
        "github_config" = inl (axios_error 401) \/
      exists req,
        trace (snd (GithubProvider.init (fresh_github 401)))
        = (req, inl (axios_error 401)) :: trace (fresh_github 401))))) /\
  (GithubProvider.init (fresh_github 503)
   = (inl gh_init_failed, snd (GithubProvider.init (fresh_github 503))) /\
   (is_normalized gh_init_failed \/ gh_init_failed = gh_init_failed \/
    (gh_is_401 gh_init_failed = true /\
     (getConfig (memory_env (rejecting 503)) (store (fresh_github 503))
        "github_config" = inl gh_init_failed \/
      exists req,
        trace (snd (GithubProvider.init (fresh_github 503)))
        = (req, inl gh_init_failed) :: trace (fresh_github 503))))) /\
  (BitbucketProvider.init (fresh_bitbucket 401)
   = (inl bb_auth_failed, snd (BitbucketProvider.init (fresh_bitbucket 401))) /\
   (is_normalized bb_auth_failed \/ bb_auth_failed = bb_init_failed \/
    (status_is bb_auth_failed 401 = true /\
     getConfig (memory_env (rejecting 401)) (store (fresh_bitbucket 401))
       "bitbucket_config" = inl bb_auth_failed))) /\
  (GithubProvider.createClient (JStr "t") (fresh_github 401)
   = (inl (axios_error 401),
      snd (GithubProvider.createClient (JStr "t") (fresh_github 401))) /\
   (is_normalized (axios_error 401) \/ axios_error 401 = TypeError \/
    exists req,
      trace (snd (GithubProvider.createClient (JStr "t") (fresh_github 401)))
      = (req, inl (axios_error 401)) :: trace (fresh_github 401))) /\
  (BitbucketProvider.createClient (JStr "u") (JStr "p") (fresh_bitbucket 503)
   = (inl bb_auth_failed,
      snd (BitbucketProvider.createClient (JStr "u") (JStr "p")
             (fresh_bitbucket 503))) /\
   bb_auth_failed = bb_auth_failed /\ is_normalized bb_auth_failed).
Proof.
  pose proof errors_crossing_the_boundary as (H1 & H2 & H3 & H4 & H5 & H6 & H7).
  split; [|split; [|split; [|split; [|split; [|split; [|split; [|split; [|split]]]]]]]];
    (split; [reflexivity|]).
  - exact (H1 (memory_env (rejecting 400)) GithubProvider.GetRepo
             (call_options [entry "repoName" "r"]) (ready_rejecting 400)
             (snd (gh_get_repo_rejected 400)) (axios_error 400) eq_refl).
  - exact (H2 (memory_env (rejecting 400)) BitbucketProvider.ListPipelines
             (call_options [entry "repoName" "r"]) (ready_rejecting 400)
             (snd (BitbucketProvider.invoke BitbucketProvider.ListPipelines
                     (call_options [entry "repoName" "r"]) (ready_rejecting 400)))
             (axios_error 400) eq_refl).
  - exact (H2 (memory_env (rejecting 400)) BitbucketProvider.GetRepo
             (call_options [entry "repoName" "r"]) (ready_rejecting 400)
             (snd (BitbucketProvider.invoke BitbucketProvider.GetRepo
                     (call_options [entry "repoName" "r"]) (ready_rejecting 400)))
             (new_AppError "Failed to fetch repository" 500 (Some "FETCH_REPO_FAILED"))
             eq_refl).
  - exact (H2 (memory_env (rejecting 400)) BitbucketProvider.ListRepoBranches
             (call_options []) (ready_rejecting 400) (ready_rejecting 400)
             (new_AppError "Please required field (repository name)" 400 None)
             eq_refl).
  - exact (H3 (memory_env (rejecting 400))
             (JObj [("configs", JArr [github_group "t" "acme"])])
             (constructed (memory_env (rejecting 400)) github_config [])
             (snd (gh_update_rejected 400)) config_update_failed eq_refl).
  - exact (H4 (memory_env (rejecting 401)) (fresh_github 401)
             (snd (GithubProvider.init (fresh_github 401))) (axios_error 401)
             eq_refl).
  - exact (H4 (memory_env (rejecting 503)) (fresh_github 503)
             (snd (GithubProvider.init (fresh_github 503))) gh_init_failed
             eq_refl).
  - exact (H5 (memory_env (rejecting 401)) (fresh_bitbucket 401)
             (snd (BitbucketProvider.init (fresh_bitbucket 401))) bb_auth_failed
             eq_refl).
  - exact (H6 (memory_env (rejecting 401)) (JStr "t") (fresh_github 401)
             (snd (GithubProvider.createClient (JStr "t") (fresh_github 401)))
             (axios_error 401) eq_refl).
  - exact (H7 (memory_env (rejecting 503)) (JStr "u") (JStr "p")
             (fresh_bitbucket 503)
             (snd (BitbucketProvider.createClient (JStr "u") (JStr "p")
                     (fresh_bitbucket 503)))
             bb_auth_failed eq_refl).
Defined.

(** C4 as stated fails: the rejection with status 400 comes out of
    [GithubProvider.actionListRepos] as it is, and it is not a
    NormalizedError. *)
Lemma raw_400_escapes_unshaped :
  fst (GithubProvider.actionListRepos (call_options []) (ready_rejecting 400))
  = inl (axios_error 400) /\
  ~ is_normalized (axios_error 400) /\
  trace (snd (GithubProvider.actionListRepos (call_options []) (ready_rejecting 400)))
  = [(mkRequest a_client GET "/user/repos"
        [("visibility", JStr "all"); ("sort", JStr "updated");
         ("per_page", JNum 50); ("page", JNum 1)] JUndef,
      inl (axios_error 400))].
Proof.
  split; [reflexivity|]. split; [|reflexivity]. intros H. exact H.
Qed.

(* ===================================================================== *)
(** ** Propagation of nested errors (C5) *)
(* ===================================================================== *)

(** Claim C5, as the code has it.  A NormalizedError with statusCode 400
    thrown inside the try block of an action is what the action throws,
    unchanged and with the state the try block left, for every repository
    action of the GitHub class and for every Bitbucket action whose catch
    block has the 400 branch.  [actionUpdatePluginConfig] replaces every
    failure of its try block, the [AUTH_FAILED] of [init] included, by 500
    [CONFIG_UPDATE_FAILED]. *)
Theorem nested_error_propagation :
  (forall (E : Env) a options (st st' : State E) (e : AppError),
     GithubProvider.try_of a (default_arg options) st = (inl (App e), st') ->
     statusCode e = 400 ->
     GithubProvider.invoke a options st = (inl (App e), st')) /\
  (forall (E : Env) a options (st st' : State E) (e : AppError),
     BitbucketProvider.try_of a (default_arg options) st = (inl (App e), st') ->
     statusCode e = 400 ->
     match a with
     | BitbucketProvider.ListRepos | BitbucketProvider.GetRepo
     | BitbucketProvider.ListBranchCommits | BitbucketProvider.GetCommitDetails =>
         True
     | _ => BitbucketProvider.invoke a options st = (inl (App e), st')
     end) /\
  (forall (E : Env) options (st st' : State E) e,
     GithubProvider.actionUpdatePluginConfig options st = (inl e, st') ->
     e = config_update_failed).
Proof.
  split; [|split].
  - intros E a options st st' e Htry H400.
    destruct (status_is_app_400 e H400) as (H1 & H2 & _).
    destruct (gh_invoke_shape a) as (m4 & c4 & m5 & c5 & _ & Hshape).
    rewrite Hshape. unfold try_catch. rewrite Htry, catch_404_400_run, H1, H2.
    reflexivity.
  - intros E a options st st' e Htry H400.
    destruct (status_is_app_400 e H400) as (_ & H2 & H3).
    destruct a; try exact I;
      cbv beta iota zeta delta [BitbucketProvider.try_of] in Htry;
      match goal with
      | |- ?run = _ =>
          let H := fresh "H" in let r := fresh "r" in let s := fresh "s" in
          destruct run as [r s] eqn:H; unfold_catch_in H;
          rewrite Htry, ?H2, ?H3 in H; cbv beta iota zeta in H;
          symmetry; exact H
      end.
  - intros E options st st' e H. exact (update_config_failure E options st st' e H).
Qed.

(** A run of the C5 theorem: the [MISSING_REQUIRED_PARAMS] error of
    [GithubProvider.actionGetRepo]. *)
Lemma nested_error_propagation_witness :
  (GithubProvider.try_of GithubProvider.GetRepo (default_arg (call_options []))
     (ready_answering JNull)
   = (inl (App (mkAppError "Repository name is required" 400
                  (Some "MISSING_REQUIRED_PARAMS"))),
      ready_answering JNull) /\
   statusCode (mkAppError "Repository name is required" 400
                 (Some "MISSING_REQUIRED_PARAMS")) = 400 /\
   GithubProvider.invoke GithubProvider.GetRepo (call_options [])
     (ready_answering JNull)
   = (inl (App (mkAppError "Repository name is required" 400
                  (Some "MISSING_REQUIRED_PARAMS"))),
      ready_answering JNull)) /\
  (BitbucketProvider.try_of BitbucketProvider.ListPipelines
     (default_arg (call_options [])) (ready_answering JNull)
   = (inl (App (mkAppError "Repository name is required" 400
                  (Some "MISSING_REQUIRED_PARAMS"))),
      ready_answering JNull) /\
   BitbucketProvider.invoke BitbucketProvider.ListPipelines (call_options [])
     (ready_answering JNull)
   = (inl (App (mkAppError "Repository name is required" 400
                  (Some "MISSING_REQUIRED_PARAMS"))),
      ready_answering JNull)) /\
  (gh_update_rejected 401
   = (inl config_update_failed, snd (gh_update_rejected 401)) /\
   config_update_failed = config_update_failed).
Proof.
  pose proof nested_error_propagation as (H1 & H2 & H3).
  split; [|split].
  - split; [reflexivity|]. split; [reflexivity|].
    exact (H1 (memory_env (answering JNull)) GithubProvider.GetRepo
             (call_options []) (ready_answering JNull) (ready_answering JNull)
             (mkAppError "Repository name is required" 400
                (Some "MISSING_REQUIRED_PARAMS"))
             eq_refl eq_refl).
  - split; [reflexivity|].
    exact (H2 (memory_env (answering JNull)) BitbucketProvider.ListPipelines
             (call_options []) (ready_answering JNull) (ready_answering JNull)
             (mkAppError "Repository name is required" 400
                (Some "MISSING_REQUIRED_PARAMS"))
             eq_refl eq_refl).
  - split; [reflexivity|].
    exact (H3 (memory_env (rejecting 401))
             (JObj [("configs", JArr [github_group "t" "acme"])])
             (constructed (memory_env (rejecting 401)) github_config [])
             (snd (gh_update_rejected 401)) config_update_failed eq_refl).
Defined.

(** C5 as stated fails: with no token in the new configuration [init]
    throws 401 [AUTH_FAILED], and [actionUpdatePluginConfig] throws 500
    [CONFIG_UPDATE_FAILED] in its place. *)
Lemma update_config_rewraps_auth_failed :
  fst (GithubProvider.init
         (mkState (E:=memory_env (answering JNull)) None (JStr "") github_config
            [github_group "" "acme"] []))
  = inl (new_AppError "GitHub token not found in configurations" 401
           (Some "AUTH_FAILED")) /\
  fst (GithubProvider.actionUpdatePluginConfig
         (JObj [("configs", JArr [github_group "" "acme"])])
         (constructed (memory_env (answering JNull)) github_config []))
  = inl (new_AppError "Failed to update plugin configuration" 500
           (Some "CONFIG_UPDATE_FAILED")) /\
  store (snd (GithubProvider.actionUpdatePluginConfig
                (JObj [("configs", JArr [github_group "" "acme"])])
                (constructed (memory_env (answering JNull)) github_config [])))
  = [github_group "" "acme"].
Proof.
  split; [reflexivity|]. split; reflexivity.
Qed.

(* ===================================================================== *)
(** ** Updating the configuration (C6) *)
(* ===================================================================== *)

(** Claim C6.  [actionUpdatePluginConfig(options)] hands [options.configs]
    to [saveConfigs] and runs [init] on the store that results.  When both
    succeed it returns exactly
    [{message: "Configuration updated successfully", configs: newConfigs}]
    in the state [init] left; when saving or [init] fails, and on every
    other failure, it throws 500 [CONFIG_UPDATE_FAILED]. *)
Theorem update_plugin_config :
  forall (E : Env) (options : JsVal) (st : State E),
    (forall e st',
       GithubProvider.actionUpdatePluginConfig options st = (inl e, st') ->
       e = config_update_failed) /\
    (forall newConfigs e,
       get_prop (default_arg options) "configs" = inr newConfigs ->
       saveConfigs E (store st) newConfigs = inl e ->
       GithubProvider.actionUpdatePluginConfig options st
       = (inl config_update_failed, st)) /\
    (forall newConfigs store',
       get_prop (default_arg options) "configs" = inr newConfigs ->
       saveConfigs E (store st) newConfigs = inr store' ->
       let saved := mkState (client st) (owner st) (config st) store' (trace st) in
       GithubProvider.actionUpdatePluginConfig options st =
       match GithubProvider.init saved with
       | (inr _, st') =>
           (inr (JObj [("message", JStr "Configuration updated successfully");
                       ("configs", newConfigs)]), st')
       | (inl _, st') => (inl config_update_failed, st')
       end).
Proof.
  intros E options st. split; [|split].
  - intros e st' H. exact (update_config_failure E options st st' e H).
  - intros newConfigs e Hc Hs.
    unfold GithubProvider.actionUpdatePluginConfig, try_catch, bind, lift,
      ConfigManager_saveConfigs, throw.
    rewrite Hc, Hs. reflexivity.
  - intros newConfigs store' Hc Hs saved.
    unfold GithubProvider.actionUpdatePluginConfig, try_catch, bind, lift,
      ConfigManager_saveConfigs, throw, ret.
    rewrite Hc, Hs. fold saved.
    destruct (GithubProvider.init saved) as [[e|[]] st']; reflexivity.
Qed.

(** A run of the C6 theorem: a valid configuration against a vendor that
    answers the fetch-current-user call. *)
Lemma update_plugin_config_witness :
  (gh_update_rejected 503 = (inl config_update_failed, snd (gh_update_rejected 503)) /\
   config_update_failed = config_update_failed) /\
  (get_prop (default_arg update_options) "configs"
   = inr (JArr [github_group "t" "acme"]) /\
   saveConfigs read_only_env (store (constructed read_only_env github_config []))
     (JArr [github_group "t" "acme"])
   = inl Error_ /\
   GithubProvider.actionUpdatePluginConfig update_options
     (constructed read_only_env github_config [])
   = (inl config_update_failed, constructed read_only_env github_config [])) /\
  (get_prop (default_arg update_options) "configs"
   = inr (JArr [github_group "t" "acme"]) /\
   saveConfigs (memory_env (answering (JObj [("login", JStr "acme")])))
     (store (constructed (memory_env (answering (JObj [("login", JStr "acme")])))
               github_config []))
     (JArr [github_group "t" "acme"])
   = inr [github_group "t" "acme"] /\
   GithubProvider.actionUpdatePluginConfig update_options
     (constructed (memory_env (answering (JObj [("login", JStr "acme")])))
        github_config [])
   = (inr (JObj [("message", JStr "Configuration updated successfully");
                 ("configs", JArr [github_group "t" "acme"])]),
      mkState (E:=memory_env (answering (JObj [("login", JStr "acme")])))
        (Some github_client_t) (JStr "acme") github_config
        [github_group "t" "acme"]
        [(get_user github_client_t, inr (JObj [("login", JStr "acme")]))])).
Proof.
  split; [|split].
  - split; [reflexivity|].
    exact (proj1 (update_plugin_config (memory_env (rejecting 503)) update_options
                    (constructed (memory_env (rejecting 503)) github_config []))
             config_update_failed (snd (gh_update_rejected 503)) eq_refl).
  - split; [reflexivity|]. split; [reflexivity|].
    exact (proj1 (proj2 (update_plugin_config read_only_env update_options
                           (constructed read_only_env github_config [])))
             (JArr [github_group "t" "acme"]) Error_ eq_refl eq_refl).
  - split; [reflexivity|]. split; [reflexivity|].
    exact (proj2 (proj2 (update_plugin_config
                           (memory_env (answering (JObj [("login", JStr "acme")])))
                           update_options
                           (constructed
                              (memory_env (answering (JObj [("login", JStr "acme")])))
                              github_config [])))
             (JArr [github_group "t" "acme"]) [github_group "t" "acme"]
             eq_refl eq_refl).
Defined.

(* ===================================================================== *)
(** ** The client after a failed init (C7) *)
(* ===================================================================== *)

(** Claim C7, as the code has it.  After a failed [init] either no HTTP
    call was made and [client] is what it was before the call, or the
    fetch-current-user call was rejected and [client] holds the client
    just constructed, which that call did not confirm. *)
Theorem client_after_failed_init :
  (forall (E : Env) (st st' : State E) e,
     GithubProvider.init st = (inl e, st') ->
     (client st' = client st /\ trace st' = trace st) \/
     (exists c req err,
        client st' = Some c /\ trace st' = (req, inl err) :: trace st /\
        via req = c /\ url req = "/user" /\
        (~ confirmed st c -> ~ confirmed st' c))) /\
  (forall (E : Env) (st st' : State E) e,
     BitbucketProvider.init st = (inl e, st') ->
     (client st' = client st /\ trace st' = trace st) \/
     (exists c req err,
        client st' = Some c /\ trace st' = (req, inl err) :: trace st /\
        via req = c /\ url req = "/user" /\
        (~ confirmed st c -> ~ confirmed st' c))).
Proof.
  split; intros E st st' e H; unfold_init_in H; repeat step_run H.
  all: try discriminate H.
  all: injection H as _ <-; cbn [client trace].
  all: try (left; split; reflexivity).
  all: right; do 3 eexists; repeat (split; [reflexivity|]).
  all: intros Hn Hc; apply Hn; eapply confirmed_after_rejection; [|exact Hc];
    reflexivity.
Qed.

(** A run of the C7 theorem: a vendor that answers 401 to the
    fetch-current-user call. *)
Lemma client_after_failed_init_witness :
  (GithubProvider.init (fresh_github 401)
   = (inl (axios_error 401), snd (GithubProvider.init (fresh_github 401))) /\
   ((client (snd (GithubProvider.init (fresh_github 401)))
     = client (fresh_github 401) /\
     trace (snd (GithubProvider.init (fresh_github 401)))
     = trace (fresh_github 401)) \/
    (exists c req err,
       client (snd (GithubProvider.init (fresh_github 401))) = Some c /\
       trace (snd (GithubProvider.init (fresh_github 401)))
       = (req, inl err) :: trace (fresh_github 401) /\
       via req = c /\ url req = "/user" /\
       (~ confirmed (fresh_github 401) c ->
        ~ confirmed (snd (GithubProvider.init (fresh_github 401))) c)))) /\
  (BitbucketProvider.init (fresh_bitbucket 401)
   = (inl bb_auth_failed, snd (BitbucketProvider.init (fresh_bitbucket 401))) /\
   ((client (snd (BitbucketProvider.init (fresh_bitbucket 401)))
     = client (fresh_bitbucket 401) /\
     trace (snd (BitbucketProvider.init (fresh_bitbucket 401)))
     = trace (fresh_bitbucket 401)) \/
    (exists c req err,
       client (snd (BitbucketProvider.init (fresh_bitbucket 401))) = Some c /\
       trace (snd (BitbucketProvider.init (fresh_bitbucket 401)))
       = (req, inl err) :: trace (fresh_bitbucket 401) /\
       via req = c /\ url req = "/user" /\
       (~ confirmed (fresh_bitbucket 401) c ->
        ~ confirmed (snd (BitbucketProvider.init (fresh_bitbucket 401))) c)))).
Proof.
  split; (split; [reflexivity|]).
  - exact (proj1 client_after_failed_init (memory_env (rejecting 401))
             (fresh_github 401) (snd (GithubProvider.init (fresh_github 401)))
             (axios_error 401) eq_refl).
  - exact (proj2 client_after_failed_init (memory_env (rejecting 401))
             (fresh_bitbucket 401)
             (snd (BitbucketProvider.init (fresh_bitbucket 401)))
             bb_auth_failed eq_refl).
Defined.

(** C7 as stated fails: after that failed [init] on a fresh instance,
    [client] is neither [null] nor confirmed. *)
Lemma failed_init_leaves_unconfirmed_client :
  client (fresh_github 401) = None /\
  fst (GithubProvider.init (fresh_github 401)) = inl (axios_error 401) /\
  client (snd (GithubProvider.init (fresh_github 401))) = Some github_client_t /\
  trace (snd (GithubProvider.init (fresh_github 401)))
  = [(get_user github_client_t, inl (axios_error 401))] /\
  ~ confirmed (snd (GithubProvider.init (fresh_github 401))) github_client_t.
Proof.
  split; [reflexivity|]. split; [reflexivity|]. split; [reflexivity|].
  split; [reflexivity|].
  intros (req & data & Hin & _). vm_compute in Hin.
  destruct Hin as [Heq|[]]. discriminate Heq.
Qed.

(* ===================================================================== *)
(** ** Totality of the extraction (C8) *)
(* ===================================================================== *)

(** Claim C8 at the input the code gets wrong.  With an empty parameter
    list the extraction of [repoName] in
    [GithubProvider.actionListCommitModifications], whose chain is optional
    in its first link only, throws a [TypeError], where the extraction used
    by every other action gives the default; the action then fails with 500
    [FETCH_MODIFICATIONS_FAILED], where its Bitbucket sibling fails with 400
    [MISSING_REQUIRED_PARAMS]. *)
Theorem commit_modifications_extraction_throws :
  param_trim_strict (params_of (default_arg (call_options []))) "repoName"
  = inl TypeError /\
  param_trim (params_of (default_arg (call_options []))) "repoName" (JStr "")
  = inr (JStr "") /\
  forall (E : Env) (st : State E),
    GithubProvider.actionListCommitModifications (call_options []) st
    = (inl (new_AppError "Failed to fetch commit modifications" 500
              (Some "FETCH_MODIFICATIONS_FAILED")), st) /\
    BitbucketProvider.actionListCommitModifications (call_options []) st
    = (inl (new_AppError "Repository name and commit SHA are required" 400
              (Some "MISSING_REQUIRED_PARAMS")), st).
Proof.
  split; [reflexivity|]. split; [reflexivity|]. intros E st. split; reflexivity.
Qed.

(* ===================================================================== *)
(** ** The input channel (C9) *)
(* ===================================================================== *)

(** [BitbucketProvider.actionListRepos] is determined by the top-level
    [sort], [page] and [perPage] of its options; it does not read
    [configs.params]. *)
Lemma bitbucket_list_repos_reads_top_level :
  forall (E : Env) o1 o2 (st : State E),
    get_prop_opt (default_arg o1) "sort" = get_prop_opt (default_arg o2) "sort" ->
    get_prop_opt (default_arg o1) "page" = get_prop_opt (default_arg o2) "page" ->
    get_prop_opt (default_arg o1) "perPage"
    = get_prop_opt (default_arg o2) "perPage" ->
    BitbucketProvider.actionListRepos o1 st = BitbucketProvider.actionListRepos o2 st.
Proof.
  intros E o1 o2 st Hs Hp Hpp.
  unfold BitbucketProvider.actionListRepos, BitbucketProvider.actionListRepos_try.
  cbv zeta. rewrite Hs, Hp, Hpp. reflexivity.
Qed.

(** Claim C9, as the code has it.  Two option values with the same
    [configs.params] give the same run of every repository action of the
    GitHub class and of every Bitbucket action but [actionListRepos].
    [actionUpdatePluginConfig] is determined by [options.configs] as a
    whole. *)
Theorem params_are_the_input_channel :
  (forall (E : Env) a o1 o2 (st : State E),
     params_of (default_arg o1) = params_of (default_arg o2) ->
     GithubProvider.invoke a o1 st = GithubProvider.invoke a o2 st) /\
  (forall (E : Env) a o1 o2 (st : State E),
     params_of (default_arg o1) = params_of (default_arg o2) ->
     a <> BitbucketProvider.ListRepos ->
     BitbucketProvider.invoke a o1 st = BitbucketProvider.invoke a o2 st) /\
  (forall (E : Env) o1 o2 (st : State E),
     get_prop (default_arg o1) "configs" = get_prop (default_arg o2) "configs" ->
     GithubProvider.actionUpdatePluginConfig o1 st
     = GithubProvider.actionUpdatePluginConfig o2 st).
Proof.
  split; [|split].
  - intros E a o1 o2 st H.
    destruct a; cbv beta iota zeta delta
      [GithubProvider.invoke
       GithubProvider.actionListRepos GithubProvider.actionGetRepo
       GithubProvider.actionListRepoContents GithubProvider.actionGetRepoFileContent
       GithubProvider.actionListBranches GithubProvider.actionListBranchCommits
       GithubProvider.actionListCommitModifications
       GithubProvider.actionGetCommitDetails GithubProvider.actionCommitsDiff
       GithubProvider.actionCommentPrs GithubProvider.actionListPipelines
       GithubProvider.actionListDeployments
       GithubProvider.actionListRepos_try GithubProvider.actionGetRepo_try
       GithubProvider.actionListRepoContents_try
       GithubProvider.actionGetRepoFileContent_try
       GithubProvider.actionListBranches_try
       GithubProvider.actionListBranchCommits_try
       GithubProvider.actionListCommitModifications_try
       GithubProvider.actionGetCommitDetails_try GithubProvider.actionCommitsDiff_try
       GithubProvider.actionCommentPrs_try GithubProvider.actionListPipelines_try
       GithubProvider.actionListDeployments_try];
      rewrite H; reflexivity.
  - intros E a o1 o2 st H Hne.
    destruct a; try (exfalso; apply Hne; reflexivity);
      cbv beta iota zeta delta
      [BitbucketProvider.invoke
       BitbucketProvider.actionListBitbucketWorkspaces
       BitbucketProvider.actionGetRepo BitbucketProvider.actionListRepoContents
       BitbucketProvider.actionGetRepoFileContent
       BitbucketProvider.actionListRepoBranches
       BitbucketProvider.actionListBranchCommits
       BitbucketProvider.actionListCommitModifications
       BitbucketProvider.actionGetCommitDetails BitbucketProvider.actionCommitsDiff
       BitbucketProvider.actionCommentPRs BitbucketProvider.actionListPipelines
       BitbucketProvider.actionListDeployments
       BitbucketProvider.actionListBitbucketWorkspaces_try
       BitbucketProvider.actionGetRepo_try
       BitbucketProvider.actionListRepoContents_try
       BitbucketProvider.actionGetRepoFileContent_try
       BitbucketProvider.actionListRepoBranches_try
       BitbucketProvider.actionListBranchCommits_try
       BitbucketProvider.actionListCommitModifications_try
       BitbucketProvider.actionGetCommitDetails_try
       BitbucketProvider.actionCommitsDiff_try
       BitbucketProvider.actionCommentPRs_try
       BitbucketProvider.actionListPipelines_try
       BitbucketProvider.actionListDeployments_try];
      rewrite H; reflexivity.
  - intros E o1 o2 st H.
    unfold GithubProvider.actionUpdatePluginConfig. cbv zeta. rewrite H. reflexivity.
Qed.

(** A run of the C9 theorem: a top-level [sort] does not change
    [GithubProvider.actionGetRepo]. *)
Lemma params_are_the_input_channel_witness :
  (params_of (default_arg sorted_options)
   = params_of (default_arg (call_options [entry "repoName" "r"])) /\
   GithubProvider.invoke GithubProvider.GetRepo sorted_options (ready_answering JNull)
   = GithubProvider.invoke GithubProvider.GetRepo
       (call_options [entry "repoName" "r"]) (ready_answering JNull)) /\
  (BitbucketProvider.GetRepo <> BitbucketProvider.ListRepos /\
   BitbucketProvider.invoke BitbucketProvider.GetRepo sorted_options
     (ready_answering JNull)
   = BitbucketProvider.invoke BitbucketProvider.GetRepo
       (call_options [entry "repoName" "r"]) (ready_answering JNull)) /\
  (get_prop (default_arg update_options) "configs"
   = get_prop (default_arg (JObj [("configs", JArr [github_group "t" "acme"]);
                                  ("sort", JStr "name")])) "configs" /\
   GithubProvider.actionUpdatePluginConfig update_options
     (constructed (memory_env (answering JNull)) github_config [])
   = GithubProvider.actionUpdatePluginConfig
       (JObj [("configs", JArr [github_group "t" "acme"]); ("sort", JStr "name")])
       (constructed (memory_env (answering JNull)) github_config [])).
Proof.
  pose proof params_are_the_input_channel as (H1 & H2 & H3).
  assert (Hne : BitbucketProvider.GetRepo <> BitbucketProvider.ListRepos)
    by (intros H; discriminate H).
  split; [|split].
  - split; [reflexivity|].
    exact (H1 (memory_env (answering JNull)) GithubProvider.GetRepo sorted_options
             (call_options [entry "repoName" "r"]) (ready_answering JNull) eq_refl).
  - split; [exact Hne|].
    exact (H2 (memory_env (answering JNull)) BitbucketProvider.GetRepo
             sorted_options (call_options [entry "repoName" "r"])
             (ready_answering JNull) eq_refl Hne).
  - split; [reflexivity|].
    exact (H3 (memory_env (answering JNull)) update_options
             (JObj [("configs", JArr [github_group "t" "acme"]);
                    ("sort", JStr "name")])
             (constructed (memory_env (answering JNull)) github_config [])
             eq_refl).
Defined.

(** C9 as stated fails: with equal [configs.params], a top-level [sort]
    changes the request of [BitbucketProvider.actionListRepos], and the
    title of the group changes the result of [actionUpdatePluginConfig]. *)
Lemma top_level_options_are_read :
  (params_of (default_arg (JObj [("configs", JObj [("params", JArr [])]);
                                 ("sort", JStr "name")]))
   = params_of (default_arg (call_options [])) /\
   trace (snd (BitbucketProvider.actionListRepos
                 (JObj [("configs", JObj [("params", JArr [])]);
                        ("sort", JStr "name")])
                 (ready_answering (JObj [("values", JArr [])]))))
   = [(mkRequest a_client GET "/repositories/acme"
         [("sort", JStr "name"); ("page", JNum 1); ("pagelen", JNum 50)] JUndef,
       inr (JObj [("values", JArr [])]))] /\
   trace (snd (BitbucketProvider.actionListRepos (call_options [])
                 (ready_answering (JObj [("values", JArr [])]))))
   = [(mkRequest a_client GET "/repositories/acme"
         [("sort", JStr "-updated_on"); ("page", JNum 1); ("pagelen", JNum 50)]
         JUndef,
       inr (JObj [("values", JArr [])]))]) /\
  (params_of (default_arg (JObj [("configs", titled_group "a")]))
   = params_of (default_arg (JObj [("configs", titled_group "b")])) /\
   fst (GithubProvider.actionUpdatePluginConfig
          (JObj [("configs", titled_group "a")])
          (constructed (memory_env (answering JNull)) github_config []))
   = inr (JObj [("message", JStr "Configuration updated successfully");
                ("configs", titled_group "a")]) /\
   fst (GithubProvider.actionUpdatePluginConfig
          (JObj [("configs", titled_group "b")])
          (constructed (memory_env (answering JNull)) github_config []))
   = inr (JObj [("message", JStr "Configuration updated successfully");
                ("configs", titled_group "b")])).
Proof.
  split.
  - split; [reflexivity|]. split; reflexivity.
  - split; [reflexivity|]. split; reflexivity.
Qed.

(* ===================================================================== *)
(** ** Listing contents and getting a file (C10) *)
(* ===================================================================== *)

(** Claim C10, as the code has it.  When [repoName] and [path] both
    extract non-empty, [actionListRepoContents] and
    [actionGetRepoFileContent] leave the same state, hence send the same
    request: a GET of [/repos/{owner}/{repoName}/contents/{path}] with the
    query [ref] set to the extracted value or to [undefined].  They return
    the same data on success; on failure they throw the same passed-through
    error, or their own 404 [RESOURCE_NOT_FOUND] errors (the messages
    differ), or their own 500 errors, which differ in message and in
    errorCode ([FETCH_CONTENTS_FAILED] and [FETCH_CONTENT_FAILED]). *)
Theorem contents_and_file_content :
  forall (E : Env) (options : JsVal) (st : State E) (repoName path : JsVal),
    param_trim (params_of (default_arg options)) "repoName" (JStr "") = inr repoName ->
    param_trim (params_of (default_arg options)) "path" (JStr "") = inr path ->
    truthy repoName = true ->
    truthy path = true ->
    let run1 := GithubProvider.actionListRepoContents options st in
    let run2 := GithubProvider.actionGetRepoFileContent options st in
    snd run1 = snd run2 /\
    (forall data, fst run1 = inr data <-> fst run2 = inr data) /\
    (forall e1, fst run1 = inl e1 ->
       exists e2, fst run2 = inl e2 /\
         ((e1 = e2 /\ status_is e1 404 = false /\ status_is e1 400 = true) \/
          (e1 = contents_not_found /\ e2 = file_not_found) \/
          (e1 = fetch_contents_failed /\ e2 = fetch_content_failed))) /\
    (forall req res,
       trace (snd run1) = (req, res) :: trace st ->
       method req = GET /\
       url req = "/repos/" ++ toString (owner st) ++ "/" ++ toString repoName
                 ++ "/contents/" ++ toString path /\
       exists ref,
         param_trim (params_of (default_arg options)) "ref" (JStr "") = inr ref /\
         query req = [("ref", js_or ref JUndef)]).
Proof.
  intros E options st repoName path Hr Hp Tr Tp run1 run2. subst run1 run2.
  cbv beta iota zeta delta
    [GithubProvider.actionListRepoContents GithubProvider.actionGetRepoFileContent
     GithubProvider.actionListRepoContents_try
     GithubProvider.actionGetRepoFileContent_try
     GithubProvider.catch_404_400
     try_catch bind lift ret throw get_owner client_get request].
  rewrite Hr, Hp, Tr, Tp. cbn [negb orb]. cbv beta iota zeta.
  destruct (param_trim (params_of (default_arg options)) "ref" (JStr ""))
    as [eref|ref] eqn:Href; cbv beta iota zeta.
  - apply param_trim_throws in Href. subst eref. cbn.
    repeat split; try (intros H; discriminate H).
    + intros e1 H. injection H as <-. eexists. split; [reflexivity|].
      right; right. split; reflexivity.
    + exfalso. apply (f_equal (@length _)) in H. cbn [length] in H. lia.
    + exfalso. apply (f_equal (@length _)) in H. cbn [length] in H. lia.
    + exfalso. apply (f_equal (@length _)) in H. cbn [length] in H. lia.
  - destruct (client st) as [c|] eqn:Hc; cbv beta iota zeta.
    + match goal with
      | |- context [http E ?t ?r] => destruct (http E t r) as [err|data] eqn:Hh
      end; cbv beta iota zeta.
      * destruct (status_is err 404) eqn:H404; [|destruct (status_is err 400) eqn:H400];
          cbn [fst snd trace]; repeat split; try (intros H; discriminate H).
        all: try (intros e1 H; injection H as <-; eexists; split; [reflexivity|]).
        all: try (injection H as <- _; reflexivity).
        all: try (injection H as <- _; eexists; split; reflexivity).
        -- right; left; split; reflexivity.
        -- left. repeat split; assumption.
        -- right; right; split; reflexivity.
      * cbn [fst snd trace]. repeat split; try (intros H; exact H).
        all: try (intros e1 H; discriminate H).
        all: try (injection H as <- _; reflexivity).
        all: try (injection H as <- _; eexists; split; reflexivity).
    + cbn. repeat split; try (intros H; discriminate H).
      * intros e1 H. injection H as <-. eexists. split; [reflexivity|].
        right; right. split; reflexivity.
      * exfalso. apply (f_equal (@length _)) in H. cbn [length] in H. lia.
      * exfalso. apply (f_equal (@length _)) in H. cbn [length] in H. lia.
      * exfalso. apply (f_equal (@length _)) in H. cbn [length] in H. lia.
Qed.

(** A run of the C10 theorem: the contents of [src/a.js] in repository
    [r]. *)
Lemma contents_and_file_content_witness :
  param_trim (params_of (default_arg (call_options [entry "repoName" "r";
                                                    entry "path" "src/a.js"])))
    "repoName" (JStr "") = inr (JStr "r") /\
  param_trim (params_of (default_arg (call_options [entry "repoName" "r";
                                                    entry "path" "src/a.js"])))
    "path" (JStr "") = inr (JStr "src/a.js") /\
  truthy (JStr "r") = true /\ truthy (JStr "src/a.js") = true /\
  snd (GithubProvider.actionListRepoContents
         (call_options [entry "repoName" "r"; entry "path" "src/a.js"])
         (ready_answering (JObj [("type", JStr "file")])))
  = snd (GithubProvider.actionGetRepoFileContent
           (call_options [entry "repoName" "r"; entry "path" "src/a.js"])
           (ready_answering (JObj [("type", JStr "file")]))).
Proof.
  split; [reflexivity|]. split; [reflexivity|]. split; [reflexivity|].
  split; [reflexivity|].
  exact (proj1 (contents_and_file_content
                  (memory_env (answering (JObj [("type", JStr "file")])))
                  (call_options [entry "repoName" "r"; entry "path" "src/a.js"])
                  (ready_answering (JObj [("type", JStr "file")]))
                  (JStr "r") (JStr "src/a.js") eq_refl eq_refl eq_refl eq_refl)).
Defined.

(** C10 as stated fails: against a vendor that answers 503 the two
    actions differ in the errorCode of a 500 error, not in the message of a
    404 only. *)
Lemma contents_and_file_content_500_differ :
  fst (GithubProvider.actionListRepoContents
         (call_options [entry "repoName" "r"; entry "path" "src/a.js"])
         (ready_rejecting 503))
  = inl (new_AppError "Failed to fetch repository contents" 500
           (Some "FETCH_CONTENTS_FAILED")) /\
  fst (GithubProvider.actionGetRepoFileContent
         (call_options [entry "repoName" "r"; entry "path" "src/a.js"])
         (ready_rejecting 503))
  = inl (new_AppError "Failed to fetch file content" 500
           (Some "FETCH_CONTENT_FAILED")) /\
  Some "FETCH_CONTENTS_FAILED" <> Some "FETCH_CONTENT_FAILED".
Proof.
  split; [reflexivity|]. split; [reflexivity|]. intros H. discriminate H.
Qed.

(* ===================================================================== *)
(** ** Repository actions: what they leave untouched and what they send *)
(* ===================================================================== *)

Lemma append_empty_r (s : string) : (s ++ "")%string = s.
Proof. induction s as [|c s IH]; cbn; [reflexivity|rewrite IH; reflexivity]. Qed.

Lemma cons_neq_self {A : Type} (x : A) (l : list A) : l <> x :: l.
Proof.
  intros H. apply (f_equal (@length A)) in H. cbn [length] in H. lia.
Qed.

(** The request of a GitHub action goes through the current client, is a
    GET with no body unless the action is [actionCommentPrs], and is
    addressed under [/repos/{owner}/] unless the action is
    [actionListRepos]. *)
Theorem gh_request_shape :
  forall (E : Env) (a : GithubProvider.Action) (options : JsVal)
         (st st' : State E) (r : Exn JsVal) (req : Request) (res : Exn JsVal),
    GithubProvider.invoke a options st = (r, st') ->
    trace st' = (req, res) :: trace st ->
    client st = Some (via req) /\
    res = http E (trace st) req /\
    match a with
    | GithubProvider.CommentPrs =>
        method req = POST /\ query req = [] /\
        exists comment, body req = JObj [("body", comment)] /\ truthy comment = true
    | _ => method req = GET /\ body req = JUndef
    end /\
    match a with
    | GithubProvider.ListRepos => url req = "/user/repos"
    | _ => exists rest,
        url req = "/repos/" ++ toString (owner st) ++ "/" ++ rest
    end.
Proof.
  intros E a options st st' r req res H Htr.
  destruct a; unfold_methods_in H; repeat step_run H; injection H as _ <-;
    cbn [trace] in Htr;
    try (exfalso; exact (cons_neq_self _ _ Htr));
    injection Htr as <- <-; cbn [via method body url query].
  all: split; [first [assumption|reflexivity]|].
  all: split; [first [reflexivity|symmetry; assumption]|].
  all: split; [|first [reflexivity|eexists; reflexivity]].
  all: try (split; reflexivity).
  all: split; [reflexivity|]; split; [reflexivity|]; eexists; split; [reflexivity|].
  all: match goal with
       | Hb : _ || negb (truthy ?c) = false |- truthy ?c = true =>
           destruct (truthy c); [reflexivity|rewrite orb_true_r in Hb; discriminate Hb]
       end.
Qed.

Lemma gh_request_shape_witness :
  trace (snd (gh_run GithubProvider.CommentPrs comment_options a_user))
  = (post_comment, inr a_user) :: trace (ready_answering a_user) /\
  client (ready_answering a_user) = Some (via post_comment) /\
  exists rest,
    url post_comment
    = ("/repos/" ++ toString (owner (ready_answering a_user)) ++ "/" ++ rest)%string.
Proof.
  split; [reflexivity|].
  destruct (gh_request_shape (memory_env (answering a_user)) GithubProvider.CommentPrs
              comment_options (ready_answering a_user)
              (snd (gh_run GithubProvider.CommentPrs comment_options a_user))
              (fst (gh_run GithubProvider.CommentPrs comment_options a_user))
              post_comment (inr a_user) eq_refl eq_refl) as (Hc & _ & _ & Hu).
  split; [exact Hc|exact Hu].
Defined.

(** Before [init] has set a client, every repository action fails with a
    NormalizedError of status 400 or 500 and the state is untouched. *)
Theorem action_before_init :
  forall (E : Env) (st : State E) (options : JsVal),
    client st = None ->
    (forall a, exists e,
        GithubProvider.invoke a options st = (inl (App e), st) /\
        (statusCode e = 400 \/ statusCode e = 500)) /\
    (forall a, exists e,
        BitbucketProvider.invoke a options st = (inl (App e), st) /\
        (statusCode e = 400 \/ statusCode e = 500)).
Proof.
  intros E st options Hc. split; intros a.
  - destruct (GithubProvider.invoke a options st) as [r st'] eqn:H.
    destruct a; unfold_methods_in H; rewrite ?Hc in H; cbv beta iota zeta in H;
      repeat step_run H; rewrite ?Hc in *; try discriminate;
      injection H as <- <-; name_throws; try discriminate;
      eexists; (split; [reflexivity|]); cbn; auto.
  - destruct (BitbucketProvider.invoke a options st) as [r st'] eqn:H.
    destruct a; unfold_methods_in H; rewrite ?Hc in H; cbv beta iota zeta in H;
      repeat step_run H; rewrite ?Hc in *; try discriminate;
      injection H as <- <-; name_throws; try discriminate;
      eexists; (split; [reflexivity|]); cbn; auto.
Qed.

Lemma action_before_init_witness :
  client (fresh_github 401) = None /\
  exists e,
    GithubProvider.invoke GithubProvider.GetRepo repo_options (fresh_github 401)
    = (inl (App e), fresh_github 401) /\
    (statusCode e = 400 \/ statusCode e = 500).
Proof.
  split; [reflexivity|].
  exact (proj1 (action_before_init (memory_env (rejecting 401)) (fresh_github 401)
                  repo_options eq_refl)
           GithubProvider.GetRepo).
Defined.

(** A repository action of [GithubProvider] never writes a field of the
    instance or the store, and sends at most one request; when it returns,
    it has sent exactly one, and that one was answered. *)
Theorem gh_action_frame :
  forall (E : Env) (a : GithubProvider.Action) (options : JsVal)
         (st st' : State E) (r : Exn JsVal),
    GithubProvider.invoke a options st = (r, st') ->
    client st' = client st /\ owner st' = owner st /\
    config st' = config st /\ store st' = store st /\
    (trace st' = trace st \/ exists req res, trace st' = (req, res) :: trace st) /\
    (forall v, r = inr v -> exists req data, trace st' = (req, inr data) :: trace st).
Proof.
  intros E a options st st' r H.
  destruct a; unfold_methods_in H; repeat step_run H; injection H as <- <-;
    name_throws; try discriminate;
    cbn [client owner config store trace];
    repeat (split; [first [reflexivity|assumption]|]);
    (split; [first [left; reflexivity | right; do 2 eexists; reflexivity]|]);
    intros v Hv; first [discriminate Hv | do 2 eexists; reflexivity | idtac].
  all: name_throws; discriminate Hv.
Qed.

Lemma gh_action_frame_witness :
  gh_run GithubProvider.GetRepo repo_options a_user
  = (inr a_user, snd (gh_run GithubProvider.GetRepo repo_options a_user)) /\
  store (snd (gh_run GithubProvider.GetRepo repo_options a_user))
  = store (ready_answering a_user) /\
  exists req data,
    trace (snd (gh_run GithubProvider.GetRepo repo_options a_user))
    = (req, inr data) :: trace (ready_answering a_user).
Proof.
  split; [reflexivity|].
  destruct (gh_action_frame (memory_env (answering a_user)) GithubProvider.GetRepo
              repo_options (ready_answering a_user)
              (snd (gh_run GithubProvider.GetRepo repo_options a_user))
              (inr a_user) eq_refl) as (_ & _ & _ & Hs & _ & Hv).
  split; [exact Hs|exact (Hv a_user eq_refl)].
Defined.

(** The same for [BitbucketProvider], with at most two requests; only
    [actionListCommitModifications] and [actionGetCommitDetails] send a
    second one, and only after the first was answered. *)
Theorem bb_action_frame :
  forall (E : Env) (a : BitbucketProvider.Action) (options : JsVal)
         (st st' : State E) (r : Exn JsVal),
    BitbucketProvider.invoke a options st = (r, st') ->
    client st' = client st /\ owner st' = owner st /\
    config st' = config st /\ store st' = store st /\
    (trace st' = trace st \/
     (exists req res, trace st' = (req, res) :: trace st) \/
     (exists req2 res2 req1 data1,
        trace st' = (req2, res2) :: (req1, inr data1) :: trace st /\
        (a = BitbucketProvider.ListCommitModifications \/
         a = BitbucketProvider.GetCommitDetails))) /\
    (forall v, r = inr v -> exists req data t, trace st' = (req, inr data) :: t).
Proof.
  intros E a options st st' r H.
  destruct a; unfold_methods_in H; repeat step_run H; injection H as <- <-;
    name_throws; try discriminate;
    cbn [client owner config store trace];
    repeat (split; [first [reflexivity|assumption]|]);
    (split;
     [first [left; reflexivity
            | right; left; do 2 eexists; reflexivity
            | right; right; do 4 eexists; split;
              [reflexivity|first [left; reflexivity|right; reflexivity]]]|]);
    intros v Hv; first [discriminate Hv | do 3 eexists; reflexivity | idtac].
  all: name_throws; discriminate Hv.
Qed.

Lemma bb_action_frame_witness :
  fst (bb_run BitbucketProvider.GetCommitDetails commit_options a_commit)
  = inr (bb_details_of a_commit) /\
  owner (snd (bb_run BitbucketProvider.GetCommitDetails commit_options a_commit))
  = owner (ready_answering a_commit) /\
  exists req data t,
    trace (snd (bb_run BitbucketProvider.GetCommitDetails commit_options a_commit))
    = (req, inr data) :: t.
Proof.
  split; [reflexivity|].
  destruct (bb_action_frame (memory_env (answering a_commit))
              BitbucketProvider.GetCommitDetails
              commit_options (ready_answering a_commit)
              (snd (bb_run BitbucketProvider.GetCommitDetails commit_options a_commit))
              (inr (bb_details_of a_commit)) eq_refl) as (_ & Ho & _ & _ & _ & Hv).
  split; [exact Ho|exact (Hv (bb_details_of a_commit) eq_refl)].
Defined.

(** What ten of the GitHub actions return is the data of the answer,
    unchanged. *)
Theorem gh_action_returns_data :
  forall (E : Env) (a : GithubProvider.Action) (options : JsVal)
         (st st' : State E) (v : JsVal),
    GithubProvider.invoke a options st = (inr v, st') ->
    a <> GithubProvider.ListCommitModifications ->
    a <> GithubProvider.GetCommitDetails ->
    exists req, trace st' = (req, inr v) :: trace st.
Proof.
  intros E a options st st' v H H1 H2.
  destruct a; try (exfalso; apply H1; reflexivity);
    try (exfalso; apply H2; reflexivity);
    unfold_methods_in H; repeat step_run H; try discriminate H;
    injection H as <- <-; eexists; reflexivity.
Qed.

Lemma gh_action_returns_data_witness :
  GithubProvider.GetRepo <> GithubProvider.ListCommitModifications /\
  GithubProvider.GetRepo <> GithubProvider.GetCommitDetails /\
  exists req,
    trace (snd (gh_run GithubProvider.GetRepo repo_options a_user))
    = (req, inr a_user) :: trace (ready_answering a_user).
Proof.
  assert (H1 : GithubProvider.GetRepo <> GithubProvider.ListCommitModifications)
    by discriminate.
  assert (H2 : GithubProvider.GetRepo <> GithubProvider.GetCommitDetails)
    by discriminate.
  split; [exact H1|]. split; [exact H2|].
  exact (gh_action_returns_data (memory_env (answering a_user)) GithubProvider.GetRepo
           repo_options (ready_answering a_user)
           (snd (gh_run GithubProvider.GetRepo repo_options a_user))
           a_user eq_refl H1 H2).
Defined.

(** Every request of a Bitbucket action goes through the current client,
    is a GET unless the action is [actionCommentPRs], and is addressed
    under [/repositories/{owner}] unless the action is
    [actionListBitbucketWorkspaces]. *)
Theorem bb_request_shape :
  forall (E : Env) (a : BitbucketProvider.Action) (options : JsVal)
         (st st' : State E) (r : Exn JsVal) (req : Request) (res : Exn JsVal),
    BitbucketProvider.invoke a options st = (r, st') ->
    In (req, res) (trace st') ->
    In (req, res) (trace st) \/
    (client st = Some (via req) /\
     method req = match a with
                  | BitbucketProvider.CommentPRs => POST
                  | _ => GET
                  end /\
     match a with
     | BitbucketProvider.ListBitbucketWorkspaces => url req = "/workspaces"
     | _ => exists rest,
         url req = "/repositories/" ++ toString (owner st) ++ rest
     end).
Proof.
  intros E a options st st' r req res H Hin.
  destruct a; unfold_methods_in H; repeat step_run H; injection H as _ <-;
    cbn [trace In] in Hin;
    repeat match goal with
           | Hd : _ \/ _ |- _ => destruct Hd as [Hd|Hd]
           end;
    try (left; assumption);
    injection Hin as <- <-; right; cbn [via method url];
    (split; [first [assumption|reflexivity]|]); (split; [reflexivity|]);
    first [reflexivity | eexists; reflexivity
          | exists ""%string; rewrite append_empty_r; reflexivity].
Qed.

Lemma bb_request_shape_witness :
  In (get_workspaces, inr a_commit)
    (trace (snd (bb_run BitbucketProvider.ListBitbucketWorkspaces
                   (call_options []) a_commit))) /\
  (In (get_workspaces, inr a_commit) (trace (ready_answering a_commit)) \/
   (client (ready_answering a_commit) = Some (via get_workspaces) /\
    method get_workspaces = GET /\ url get_workspaces = "/workspaces"%string)).
Proof.
  split; [left; reflexivity|].
  exact (bb_request_shape (memory_env (answering a_commit))
           BitbucketProvider.ListBitbucketWorkspaces (call_options [])
           (ready_answering a_commit)
           (snd (bb_run BitbucketProvider.ListBitbucketWorkspaces
                   (call_options []) a_commit))
           (fst (bb_run BitbucketProvider.ListBitbucketWorkspaces
                   (call_options []) a_commit))
           get_workspaces (inr a_commit) eq_refl (or_introl eq_refl)).
Defined.

(* ===================================================================== *)
(** ** [init] and [actionUpdatePluginConfig]: what they write *)
(* ===================================================================== *)

(** [GithubProvider.init] does not write the store. *)
Lemma gh_init_keeps_store :
  forall (E : Env) (st st' : State E) r,
    GithubProvider.init st = (r, st') -> store st' = store st.
Proof.
  intros E st st' r H; unfold_init_in H; repeat step_run H;
    injection H as _ <-; reflexivity.
Qed.

(** [init] writes [owner] and [client] only; it sends at most one request,
    the fetch-current-user call through the client it has just set. *)
Theorem init_frame :
  (forall (E : Env) (st st' : State E) r,
     GithubProvider.init st = (r, st') ->
     store st' = store st /\ config st' = config st /\
     (trace st' = trace st \/
      exists c, client st' = Some c /\
                trace st' = (get_user c, http E (trace st) (get_user c)) :: trace st)) /\
  (forall (E : Env) (st st' : State E) r,
     BitbucketProvider.init st = (r, st') ->
     store st' = store st /\ config st' = config st /\
     (trace st' = trace st \/
      exists c, client st' = Some c /\
                trace st' = (get_user c, http E (trace st) (get_user c)) :: trace st)).
Proof.
  split; intros E st st' r H; unfold_init_in H; repeat step_run H;
    injection H as _ <-; cbn [store config trace client];
    (split; [reflexivity|]); (split; [reflexivity|]);
    first [left; reflexivity
          | right; eexists; split; [reflexivity|]; unfold get_user;
            apply (f_equal2 cons); [|reflexivity];
            apply (f_equal2 pair); [reflexivity|symmetry; eassumption]].
Qed.

Lemma init_frame_witness :
  fst (GithubProvider.init (fresh_github 401)) = inl (axios_error 401)
  /\ store (snd (GithubProvider.init (fresh_github 401))) = store (fresh_github 401)
  /\ config (snd (GithubProvider.init (fresh_github 401)))
     = config (fresh_github 401).
Proof.
  split; [reflexivity|].
  destruct (proj1 init_frame (memory_env (rejecting 401)) (fresh_github 401)
              (snd (GithubProvider.init (fresh_github 401)))
              (fst (GithubProvider.init (fresh_github 401))) eq_refl)
    as (Hs & Hc & _).
  split; [exact Hs|exact Hc].
Defined.

(** A successful [GithubProvider.init] read a truthy token and a truthy
    owner from the group, kept the owner, and left a client whose
    fetch-current-user call was answered and that carries the token, when
    it is a string, as a bearer. *)
Theorem gh_init_success :
  forall (E : Env) (st st' : State E),
    GithubProvider.init st = (inr tt, st') ->
    exists cfg token c data,
      getConfig E (store st) "github_config" = inr cfg /\
      GithubProvider.credential cfg "token" = inr token /\ truthy token = true /\
      GithubProvider.credential cfg "owner" = inr (owner st') /\
      truthy (owner st') = true /\
      client st' = Some c /\ auth c = None /\
      get_prop (config st) "apiBaseUrl" = inr (baseURL c) /\
      (forall s, token = JStr s ->
                 assoc "Authorization" (headers c) = Some (JStr ("Bearer " ++ s))) /\
      trace st' = (get_user c, inr data) :: trace st /\
      confirmed st' c.
Proof.
  intros E st st' H. unfold_init_in H. repeat step_run H; try discriminate H.
  injection H as <-. do 4 eexists.
  repeat (split; [first [eassumption | reflexivity
                        | apply negb_false_iff; assumption
                        | intros s ->; reflexivity]|]).
  eexists; eexists. split; [left; reflexivity|split; reflexivity].
Qed.

Lemma gh_init_success_witness :
  GithubProvider.init (fresh_github_answering a_user)
  = (inr tt, snd (GithubProvider.init (fresh_github_answering a_user))) /\
  exists c,
    client (snd (GithubProvider.init (fresh_github_answering a_user))) = Some c /\
    assoc "Authorization" (headers c) = Some (JStr "Bearer t") /\
    confirmed (snd (GithubProvider.init (fresh_github_answering a_user))) c.
Proof.
  split; [reflexivity|].
  destruct (gh_init_success (memory_env (answering a_user))
              (fresh_github_answering a_user)
              (snd (GithubProvider.init (fresh_github_answering a_user))) eq_refl)
    as (cfg & token & c & data & Hcfg & Htok & _ & _ & _ & Hc & _ & _ & Ha & _ & Hconf).
  exists c. split; [exact Hc|]. split; [|exact Hconf].
  injection Hcfg as <-. injection Htok as <-. exact (Ha "t"%string eq_refl).
Defined.

(** A successful [BitbucketProvider.init] read a truthy username and a
    truthy app password, which the client carries as basic-auth
    credentials; the owner is kept as read, unchecked. *)
Theorem bb_init_success :
  forall (E : Env) (st st' : State E),
    BitbucketProvider.init st = (inr tt, st') ->
    exists cfg username appPassword c data,
      getConfig E (store st) "bitbucket_config" = inr cfg /\
      BitbucketProvider.credential cfg "username" = inr username /\
      truthy username = true /\
      BitbucketProvider.credential cfg "appPassword" = inr appPassword /\
      truthy appPassword = true /\
      BitbucketProvider.credential cfg "owner" = inr (owner st') /\
      client st' = Some c /\ auth c = Some (username, appPassword) /\
      trace st' = (get_user c, inr data) :: trace st /\
      confirmed st' c.
Proof.
  intros E st st' H. unfold_init_in H. repeat step_run H; try discriminate H.
  injection H as <-.
  apply orb_false_iff in Heqb. destruct Heqb as [Hu Hp].
  apply negb_false_iff in Hu, Hp.
  do 5 eexists.
  repeat (split; [first [eassumption | reflexivity]|]).
  eexists; eexists. split; [left; reflexivity|split; reflexivity].
Qed.

Lemma bb_init_success_witness :
  BitbucketProvider.init (fresh_bitbucket_answering a_user)
  = (inr tt, snd (BitbucketProvider.init (fresh_bitbucket_answering a_user))) /\
  exists c,
    client (snd (BitbucketProvider.init (fresh_bitbucket_answering a_user)))
    = Some c /\
    confirmed (snd (BitbucketProvider.init (fresh_bitbucket_answering a_user))) c.
Proof.
  split; [reflexivity|].
  destruct (bb_init_success (memory_env (answering a_user))
              (fresh_bitbucket_answering a_user)
              (snd (BitbucketProvider.init (fresh_bitbucket_answering a_user)))
              eq_refl)
    as (cfg & u & p & c & data & _ & _ & _ & _ & _ & _ & Hc & _ & _ & Hconf).
  exists c. split; [exact Hc|exact Hconf].
Defined.

(** Case analysis on the next test of the goal. *)
Ltac step_goal :=
  match goal with
  | |- context [match ?x with _ => _ end] =>
      lazymatch x with
      | context [match _ with _ => _ end] => fail
      | _ => destruct x eqn:?
      end
  end;
  cbv beta iota zeta; cbn [client trace owner config store fst snd].

(** [init] does not read the [client] and [owner] it finds: two instances
    over the same store, configuration and log get the same result, and
    when [init] succeeds they end in the same state. *)
Theorem init_replaces_state :
  forall (E : Env) (c1 c2 : option Client) (o1 o2 cfg : JsVal)
         (s : Store E) (t : list HttpEvent),
    (fst (GithubProvider.init (mkState c1 o1 cfg s t))
     = fst (GithubProvider.init (mkState c2 o2 cfg s t)) /\
     (forall u, fst (GithubProvider.init (mkState c1 o1 cfg s t)) = inr u ->
        snd (GithubProvider.init (mkState c1 o1 cfg s t))
        = snd (GithubProvider.init (mkState c2 o2 cfg s t)))) /\
    (fst (BitbucketProvider.init (mkState c1 o1 cfg s t))
     = fst (BitbucketProvider.init (mkState c2 o2 cfg s t)) /\
     (forall u, fst (BitbucketProvider.init (mkState c1 o1 cfg s t)) = inr u ->
        snd (BitbucketProvider.init (mkState c1 o1 cfg s t))
        = snd (BitbucketProvider.init (mkState c2 o2 cfg s t)))).
Proof.
  intros E c1 c2 o1 o2 cfg s t.
  split;
    cbv beta iota zeta delta
      [GithubProvider.init GithubProvider.createClient BitbucketProvider.init
       BitbucketProvider.createClient ConfigManager_getConfig set_owner set_client
       get_config try_catch bind lift ret throw client_get request];
    cbn [client trace owner config store fst snd];
    repeat step_goal;
    (split; [reflexivity|intros u Hu; first [discriminate Hu|reflexivity]]).
Qed.

Lemma init_replaces_state_witness :
  fst (GithubProvider.init (fresh_github_answering a_user)) = inr tt /\
  snd (GithubProvider.init (fresh_github_answering a_user))
  = snd (GithubProvider.init
           (mkState (E:=memory_env (answering a_user)) (Some a_client) (JStr "other")
              github_config [github_group "t" "acme"] [])).
Proof.
  split; [reflexivity|].
  exact (proj2 (proj1 (init_replaces_state (memory_env (answering a_user))
                         None (Some a_client) (JStr "") (JStr "other")
                         github_config [github_group "t" "acme"] []))
           tt eq_refl).
Defined.

(** [actionUpdatePluginConfig] does not roll back: once [saveConfigs] has
    succeeded the store holds the new configuration, whether the
    re-initialisation succeeds or the action fails. *)
Theorem update_config_keeps_saved :
  forall (E : Env) (options : JsVal) (st : State E) (newConfigs : JsVal)
         (store' : Store E),
    get_prop (default_arg options) "configs" = inr newConfigs ->
    saveConfigs E (store st) newConfigs = inr store' ->
    store (snd (GithubProvider.actionUpdatePluginConfig options st)) = store'.
Proof.
  intros E options st newConfigs store' Hc Hs.
  unfold GithubProvider.actionUpdatePluginConfig, try_catch, bind, lift,
    ConfigManager_saveConfigs, throw, ret.
  rewrite Hc, Hs.
  destruct (GithubProvider.init
              (mkState (client st) (owner st) (config st) store' (trace st)))
    as [[e|[]] st1] eqn:Hinit;
    exact (gh_init_keeps_store E _ _ _ Hinit).
Qed.

Lemma update_config_keeps_saved_witness :
  get_prop (default_arg update_options) "configs"
  = inr (JArr [github_group "t" "acme"]) /\
  fst (gh_update_rejected 503) = inl config_update_failed /\
  store (snd (gh_update_rejected 503)) = [github_group "t" "acme"].
Proof.
  split; [reflexivity|]. split; [reflexivity|].
  exact (update_config_keeps_saved (memory_env (rejecting 503)) update_options
           (constructed (memory_env (rejecting 503)) github_config [])
           (JArr [github_group "t" "acme"]) [github_group "t" "acme"]
           eq_refl eq_refl).
Defined.

(* ===================================================================== *)
(** ** Parameter extraction on arbitrary lists *)
(* ===================================================================== *)

Lemma find_in_first_match (k : string) (xs ys : list JsVal) (par : JsVal) :
  forallb (passed_over k) xs = true ->
  nullish par = false ->
  is_str (get_prop_opt par "key") k = true ->
  find_in false k (xs ++ par :: ys) = inr par.
Proof.
  intros Hxs Hn Hk. induction xs as [|x xs IH]; cbn [app find_in].
  - rewrite Hn, Hk. reflexivity.
  - cbn [forallb] in Hxs. apply andb_true_iff in Hxs. destruct Hxs as [Hx Hxs].
    unfold passed_over in Hx. apply andb_true_iff in Hx. destruct Hx as [Hx1 Hx2].
    apply negb_true_iff in Hx1, Hx2. rewrite Hx1, Hx2. exact (IH Hxs).
Qed.

(** The first entry with the key decides: what follows it in the sequence
    is never looked at, whatever it is, and the entries before it only have
    to be passed over. *)
Theorem extraction_first_match :
  forall (k : string) (xs ys : list JsVal) (par dflt : JsVal),
    forallb (passed_over k) xs = true ->
    is_str (get_prop_opt par "key") k = true ->
    param (JArr (xs ++ par :: ys)) k dflt = param (JArr [par]) k dflt /\
    param_trim (JArr (xs ++ par :: ys)) k dflt = param_trim (JArr [par]) k dflt /\
    param_trim_strict (JArr (xs ++ par :: ys)) k = param_trim_strict (JArr [par]) k.
Proof.
  intros k xs ys par dflt Hxs Hk.
  assert (Hn : nullish par = false) by (destruct par; try reflexivity; discriminate Hk).
  pose proof (find_in_first_match k xs ys par Hxs Hn Hk) as H1.
  pose proof (find_in_first_match k [] [] par eq_refl Hn Hk) as H2.
  cbn [app] in H2.
  unfold param, param_trim, param_trim_raw, param_trim_strict, opt_chain.
  cbn [nullish call_find]. rewrite H1, H2. repeat split.
Qed.

Lemma extraction_first_match_witness :
  forallb (passed_over "repoName") [entry "path" "a"] = true /\
  is_str (get_prop_opt (entry "repoName" "r") "key") "repoName" = true /\
  param_trim (JArr [entry "path" "a"; entry "repoName" "r"; entry "repoName" "s"])
    "repoName" (JStr "")
  = param_trim (JArr [entry "repoName" "r"]) "repoName" (JStr "").
Proof.
  split; [reflexivity|]. split; [reflexivity|].
  exact (proj1 (proj2 (extraction_first_match "repoName" [entry "path" "a"]
                         [entry "repoName" "s"] (entry "repoName" "r") (JStr "")
                         eq_refl eq_refl))).
Defined.

Lemma extraction_malformed (ps : JsVal) (k : string) (dflt : JsVal) :
  malformed ps = true ->
  param ps k dflt = inl TypeError /\ param_trim ps k dflt = inl TypeError /\
  param_trim_raw ps k = inl TypeError /\ param_trim_strict ps k = inl TypeError.
Proof.
  intros H. unfold param, param_trim, param_trim_raw, param_trim_strict, opt_chain.
  destruct ps as [ | | | | |[|p rest]| | ]; try discriminate H;
    cbn [nullish call_find find_in ebind malformed] in *;
    rewrite ?H; repeat split.
Qed.

(** When [configs.params] is not an array, or its first entry is [null],
    every action that reads parameters fails with a 500 and its own error
    code, and sends nothing. *)
Theorem malformed_params_fail :
  forall (E : Env) (st : State E) (options : JsVal),
    malformed (params_of (default_arg options)) = true ->
    (forall a, exists msg code,
        GithubProvider.invoke a options st
        = (inl (new_AppError msg 500 (Some code)), st)) /\
    (forall a, a <> BitbucketProvider.ListRepos ->
        exists msg code,
          BitbucketProvider.invoke a options st
          = (inl (new_AppError msg 500 (Some code)), st)).
Proof.
  intros E st options Hm.
  assert (Hp : forall k d, param (params_of (default_arg options)) k d = inl TypeError)
    by (intros k d; apply (extraction_malformed _ k d Hm)).
  assert (Ht : forall k d, param_trim (params_of (default_arg options)) k d
                           = inl TypeError)
    by (intros k d; apply (extraction_malformed _ k d Hm)).
  assert (Hs : forall k, param_trim_strict (params_of (default_arg options)) k
                         = inl TypeError)
    by (intros k; apply (extraction_malformed _ k JUndef Hm)).
  split.
  - intros a.
    destruct (GithubProvider.invoke a options st) as [r st'] eqn:H.
    destruct a; unfold_methods_in H; rewrite ?Hp, ?Ht, ?Hs in H;
      cbv beta iota zeta in H; injection H as <- <-; do 2 eexists; reflexivity.
  - intros a Hne.
    destruct (BitbucketProvider.invoke a options st) as [r st'] eqn:H.
    destruct a; try (exfalso; apply Hne; reflexivity);
      unfold_methods_in H; rewrite ?Hp, ?Ht, ?Hs in H;
      cbv beta iota zeta in H; injection H as <- <-; do 2 eexists; reflexivity.
Qed.

Lemma malformed_params_fail_witness :
  malformed (params_of (default_arg string_params)) = true /\
  exists msg code,
    GithubProvider.invoke GithubProvider.GetRepo string_params (ready_answering a_user)
    = (inl (new_AppError msg 500 (Some code)), ready_answering a_user).
Proof.
  split; [reflexivity|].
  exact (proj1 (malformed_params_fail (memory_env (answering a_user))
                  (ready_answering a_user) string_params eq_refl)
           GithubProvider.GetRepo).
Defined.

(* --- trimming --- *)

Lemma trim_end_cons_clean (c : ascii) (r : string) :
  is_space c = false -> trim_end (String c r) = String c (trim_end r).
Proof.
  intros H. cbn [trim_end]. destruct (trim_end r); [rewrite H|]; reflexivity.
Qed.

Lemma trim_end_idem (s : string) : trim_end (trim_end s) = trim_end s.
Proof.
  induction s as [|c r IH]; [reflexivity|].
  cbn [trim_end]. destruct (trim_end r) as [|c' r'] eqn:Hr.
  - destruct (is_space c) eqn:Hc; [reflexivity|].
    cbn [trim_end]. rewrite Hc. reflexivity.
  - cbn [trim_end] in *. rewrite IH. reflexivity.
Qed.

Lemma trim_start_clean (s : string) :
  match trim_start s with
  | EmptyString => True
  | String c _ => is_space c = false
  end.
Proof.
  induction s as [|c r IH]; cbn [trim_start]; [exact I|].
  destruct (is_space c) eqn:Hc; [exact IH|exact Hc].
Qed.

(** [trim] is idempotent. *)
Lemma trim_idem (s : string) : trim (trim s) = trim s.
Proof.
  unfold trim. pose proof (trim_start_clean s) as H.
  destruct (trim_start s) as [|c r]; [reflexivity|].
  rewrite (trim_end_cons_clean c r H). cbn [trim_start]. rewrite H.
  rewrite <- (trim_end_cons_clean c r H). apply trim_end_idem.
Qed.

(** What the trimming extraction gives, on any [params] value at all, is a
    string that trimming leaves as it is: the values that reach a URL have
    no white space around them. *)
Theorem extracted_value_is_trimmed :
  forall (options : JsVal) (k : string) (v : JsVal),
    param_trim options k (JStr "") = inr v ->
    exists s, v = JStr s /\ trim s = s.
Proof.
  intros options k v. unfold param_trim, param_trim_raw, opt_chain.
  destruct (nullish options); cbn [ebind js_or truthy];
    [intros H; injection H as <-; exists ""%string; split; reflexivity|].
  destruct (call_find false options k) as [e|par]; cbn [ebind]; [discriminate|].
  destruct (nullish par); cbn [ebind js_or truthy];
    [intros H; injection H as <-; exists ""%string; split; reflexivity|].
  destruct (get_prop par "value") as [e|vs]; cbn [ebind]; [discriminate|].
  destruct (get_index0 vs) as [e|w]; cbn [ebind]; [discriminate|].
  destruct (nullish w); cbn [ebind js_or truthy];
    [intros H; injection H as <-; exists ""%string; split; reflexivity|].
  destruct w; cbn [call_trim ebind]; try discriminate.
  unfold js_or. cbn [truthy].
  destruct (negb (trim s =? "")%string); intros H; injection H as <-.
  - exists (trim s). split; [reflexivity|apply trim_idem].
  - exists ""%string. split; reflexivity.
Qed.

Lemma extracted_value_is_trimmed_witness :
  param_trim (JArr [entry "repoName" "  r "]) "repoName" (JStr "") = inr (JStr "r") /\
  exists s, JStr "r" = JStr s /\ trim s = s.
Proof.
  split; [reflexivity|].
  exact (extracted_value_is_trimmed (JArr [entry "repoName" "  r "]) "repoName"
           (JStr "r") eq_refl).
Defined.

(* ===================================================================== *)
(** ** Results built from the answer of the vendor *)
(* ===================================================================== *)

Lemma get_prop_defined (v : JsVal) (k : string) :
  nullish v = false -> get_prop v k = inr (get_prop_opt v k).
Proof. intros H. unfold get_prop_opt. destruct v; try discriminate H; reflexivity. Qed.

Lemma get_prop_inr (v x : JsVal) (k : string) :
  get_prop v k = inr x -> nullish v = false /\ x = get_prop_opt v k.
Proof.
  intros H. unfold get_prop_opt. rewrite H.
  destruct v; try discriminate H; split; reflexivity.
Qed.

Lemma file_summary_inr (file y : JsVal) :
  GithubProvider.file_summary file = inr y ->
  nullish file = false /\ y = summary_of file.
Proof.
  unfold GithubProvider.file_summary. intros H.
  destruct (nullish file) eqn:Hn; [destruct file; discriminate|].
  split; [reflexivity|].
  rewrite !(get_prop_defined file _ Hn) in H. cbn [ebind] in H.
  injection H as <-. reflexivity.
Qed.

Lemma map_exn_inr (f : JsVal -> Exn JsVal) (g : JsVal -> JsVal) (P : JsVal -> bool) :
  (forall x y, f x = inr y -> P x = true /\ y = g x) ->
  forall xs ys, map_exn f xs = inr ys -> forallb P xs = true /\ ys = map g xs.
Proof.
  intros Hf. induction xs as [|x xs IH]; cbn [map_exn forallb map]; intros ys H.
  - injection H as <-. split; reflexivity.
  - destruct (f x) as [e|y] eqn:Hx; [discriminate H|].
    destruct (map_exn f xs) as [e|ys'] eqn:Hxs; [discriminate H|].
    injection H as <-. destruct (Hf x y Hx) as [HP ->].
    destruct (IH ys' eq_refl) as [HPs ->]. rewrite HP, HPs. split; reflexivity.
Qed.

(** What [GithubProvider.actionListCommitModifications] returns: with a
    truthy [includeContent] the [files] of the answer as they are,
    otherwise one five-field summary per file, in order. *)
Theorem gh_commit_modifications_result :
  forall (E : Env) (options : JsVal) (st st' : State E) (v : JsVal),
    GithubProvider.actionListCommitModifications options st = (inr v, st') ->
    exists req data includeContent,
      trace st' = (req, inr data) :: trace st /\
      param (params_of (default_arg options)) "includeContent" (JBool false)
      = inr includeContent /\
      (truthy includeContent = true -> get_prop data "files" = inr v) /\
      (truthy includeContent = false ->
       exists files,
         get_prop data "files" = inr (JArr files) /\
         forallb (fun f => negb (nullish f)) files = true /\
         v = JArr (map summary_of files)).
Proof.
  intros E options st st' v H.
  unfold_methods_in H. repeat step_run H; try discriminate H.
  - injection H as <- <-. do 3 eexists. split; [reflexivity|]. split; [reflexivity|].
    apply negb_true_iff in Heqb0. split; [intros Ht; congruence|intros _].
    match goal with
    | Hc : call_map ?x _ = inr _ |- _ =>
        unfold call_map in Hc;
        destruct x as [ | | | | |files| | ]; try discriminate Hc;
        destruct (map_exn GithubProvider.file_summary files) as [e|ys] eqn:Hm;
        [discriminate Hc|]; injection Hc as <-
    end.
    destruct (map_exn_inr GithubProvider.file_summary summary_of
                (fun f => negb (nullish f))
                (fun x y Hxy => match file_summary_inr x y Hxy with
                                | conj Hn Hy =>
                                    conj (proj2 (negb_true_iff _) Hn) Hy
                                end)
                files ys Hm) as [Hall ->].
    exists files. repeat split; assumption.
  - injection H as <- <-. do 3 eexists. split; [reflexivity|]. split; [reflexivity|].
    apply negb_false_iff in Heqb0. split; [intros _; assumption|intros Hf; congruence].
Qed.

Lemma gh_commit_modifications_result_witness :
  fst (gh_run GithubProvider.ListCommitModifications commit_options a_commit)
  = inr (JArr [summary_of (JObj [("filename", JStr "a.js"); ("patch", JStr "@@")])]) /\
  exists req data,
    trace (snd (gh_run GithubProvider.ListCommitModifications commit_options a_commit))
    = (req, inr data) :: trace (ready_answering a_commit).
Proof.
  split; [reflexivity|].
  destruct (gh_commit_modifications_result (memory_env (answering a_commit))
              commit_options (ready_answering a_commit)
              (snd (gh_run GithubProvider.ListCommitModifications
                      commit_options a_commit))
              (JArr [summary_of (JObj [("filename", JStr "a.js");
                                       ("patch", JStr "@@")])])
              eq_refl) as (req & data & ic & Ht & _).
  exists req, data. exact Ht.
Defined.

Lemma assoc_obj_set_same (fs : list (string * JsVal)) (k : string) (v : JsVal) :
  assoc k (obj_set fs k v) = Some v.
Proof.
  induction fs as [|[k' v'] fs IH]; cbn [obj_set assoc].
  - rewrite String.eqb_refl. reflexivity.
  - destruct (k' =? k)%string eqn:Hk; cbn [assoc].
    + rewrite String.eqb_refl. reflexivity.
    + rewrite Hk. exact IH.
Qed.

Lemma assoc_obj_set_other (fs : list (string * JsVal)) (k k' : string) (v : JsVal) :
  k <> k' -> assoc k (obj_set fs k' v) = assoc k fs.
Proof.
  intros Hne. induction fs as [|[k0 v0] fs IH]; cbn [obj_set assoc].
  - destruct (k' =? k)%string eqn:Hk; [|reflexivity].
    apply String.eqb_eq in Hk. congruence.
  - destruct (k0 =? k')%string eqn:Hk0; cbn [assoc].
    + apply String.eqb_eq in Hk0. subst k0.
      destruct (k' =? k)%string eqn:Hk; [|reflexivity].
      apply String.eqb_eq in Hk. congruence.
    + destruct (k0 =? k)%string; [reflexivity|exact IH].
Qed.

Lemma Forall2_map_same {A B : Type} (g : A -> B) (P : A -> B -> Prop) (xs : list A) :
  (forall x, P x (g x)) -> Forall2 P xs (map g xs).
Proof. intros H. induction xs; cbn [map]; constructor; auto. Qed.

(** What [BitbucketProvider.actionListCommitModifications] returns: one
    object per entry of the diffstat, in order, that keeps the fields of
    the entry and carries the extracted commit and repository and the diff,
    which is [null] unless [includeContent] is truthy; the diff is fetched
    by a second request, and only then. *)
Theorem bb_commit_modifications_result :
  forall (E : Env) (options : JsVal) (st st' : State E) (v : JsVal),
    BitbucketProvider.actionListCommitModifications options st = (inr v, st') ->
    exists repoName commitSha includeContent statsData diffContent values,
      param_trim (params_of (default_arg options)) "repoName" (JStr "") = inr repoName /\
      param_trim (params_of (default_arg options)) "commitSha" (JStr "")
      = inr commitSha /\
      param (params_of (default_arg options)) "includeContent" (JBool false)
      = inr includeContent /\
      get_prop statsData "values" = inr (JArr values) /\
      (if truthy includeContent
       then exists req1 req2,
           trace st' = (req2, inr diffContent) :: (req1, inr statsData) :: trace st
       else diffContent = JNull /\
            exists req, trace st' = (req, inr statsData) :: trace st) /\
      exists ys,
        v = JArr ys /\
        Forall2 (fun m y =>
                   get_prop y "diffContent" = inr diffContent /\
                   get_prop y "commitHash" = inr commitSha /\
                   get_prop y "repository" = inr repoName /\
                   forall k, k <> "diffContent"%string -> k <> "commitHash"%string ->
                             k <> "repository"%string ->
                             get_prop y k
                             = inr (match assoc k (spread m) with
                                    | Some x => x
                                    | None => JUndef
                                    end))
                values ys.
Proof.
  intros E options st st' v H.
  unfold_methods_in H. repeat step_run H; try discriminate H.
  all: injection H as <- <-.
  all: match goal with
       | Hc : call_map ?x (BitbucketProvider.enrich ?d ?c ?r) = inr _ |- _ =>
           unfold call_map in Hc;
           destruct x as [ | | | | |values| | ]; try discriminate Hc;
           destruct (map_exn (BitbucketProvider.enrich d c r) values)
             as [e|ys] eqn:Hm; [discriminate Hc|]; injection Hc as <-;
           destruct (map_exn_inr (BitbucketProvider.enrich d c r)
                       (fun m => JObj (obj_set (obj_set (obj_set (spread m)
                                                           "diffContent" d)
                                                  "commitHash" c)
                                         "repository" r))
                       (fun _ => true)
                       (fun x y Hxy =>
                          conj eq_refl
                            (eq_sym (f_equal (fun o => match o with
                                                       | inr z => z
                                                       | inl _ => y
                                                       end) Hxy)))
                       values ys Hm) as [_ ->];
           exists r, c
       end.
  all: do 4 eexists; repeat (split; [first [eassumption|reflexivity]|]).
  all: match goal with
       | Hb : truthy ?ic = _ |- context [if truthy ?ic then _ else _] => rewrite Hb
       end.
  all: (split; [first [do 2 eexists; reflexivity
                      | split; [reflexivity|eexists; reflexivity]]|]).
  all: eexists; split; [reflexivity|]; apply Forall2_map_same; intros m;
    cbn [get_prop];
    rewrite ?assoc_obj_set_same;
    repeat split.
  all: try (rewrite assoc_obj_set_other by discriminate;
            rewrite ?assoc_obj_set_same; reflexivity).
  all: try (rewrite !assoc_obj_set_other by discriminate;
            rewrite ?assoc_obj_set_same; reflexivity).
  all: intros k H1 H2 H3; rewrite !assoc_obj_set_other by congruence; reflexivity.
Qed.

Lemma bb_commit_modifications_result_witness :
  fst (bb_run BitbucketProvider.ListCommitModifications commit_options a_commit)
  = inr (JArr [JObj [("status", JStr "modified"); ("diffContent", JNull);
                     ("commitHash", JStr "abc"); ("repository", JStr "r")]]) /\
  exists repoName commitSha,
    param_trim (params_of (default_arg commit_options)) "repoName" (JStr "")
    = inr repoName /\
    param_trim (params_of (default_arg commit_options)) "commitSha" (JStr "")
    = inr commitSha.
Proof.
  split; [reflexivity|].
  destruct (bb_commit_modifications_result (memory_env (answering a_commit))
              commit_options (ready_answering a_commit)
              (snd (bb_run BitbucketProvider.ListCommitModifications
                      commit_options a_commit))
              (JArr [JObj [("status", JStr "modified"); ("diffContent", JNull);
                           ("commitHash", JStr "abc"); ("repository", JStr "r")]])
              eq_refl) as (rn & cs & _ & _ & _ & _ & H1 & H2 & _).
  exists rn, cs. split; [exact H1|exact H2].
Defined.

Lemma js_or_truthy (a b : JsVal) : truthy b = true -> truthy (js_or a b) = true.
Proof. intros Hb. unfold js_or. destruct (truthy a) eqn:Ha; assumption. Qed.

Lemma js_or_undefined (k : string) (a : JsVal) :
  sent_or_dropped (k, js_or a JUndef).
Proof.
  unfold sent_or_dropped, js_or. cbn [snd].
  destruct (truthy a) eqn:Ha; [right; exact Ha|left; reflexivity].
Qed.

Lemma param_truthy (ps : JsVal) (k : string) (dflt v : JsVal) :
  truthy dflt = true -> param ps k dflt = inr v -> truthy v = true.
Proof.
  intros Hd H. unfold param, ebind in H.
  destruct (opt_chain ps _) as [e|r]; [discriminate H|].
  injection H as <-. apply js_or_truthy. exact Hd.
Qed.

Lemma commit_details_inr (data y : JsVal) :
  GithubProvider.commit_details data = inr y ->
  exists commit,
    get_prop data "commit" = inr commit /\ nullish data = false /\
    nullish commit = false /\ y = details_of data commit.
Proof.
  intros H. unfold GithubProvider.commit_details in H.
  destruct (nullish data) eqn:Hn; [destruct data; discriminate|].
  rewrite !(get_prop_defined data _ Hn) in H. cbn [ebind] in H.
  destruct (nullish (get_prop_opt data "commit")) eqn:Hc;
    [destruct (get_prop_opt data "commit"); discriminate|].
  rewrite !(get_prop_defined _ _ Hc) in H. cbn [ebind] in H.
  injection H as <-. exists (get_prop_opt data "commit").
  split; [apply get_prop_defined; exact Hn|].
  split; [reflexivity|]. split; [exact Hc|reflexivity].
Qed.

Lemma commit_details_inl (data : JsVal) (e : Thrown) :
  GithubProvider.commit_details data = inl e ->
  nullish data = true \/ nullish (get_prop_opt data "commit") = true.
Proof.
  intros H. unfold GithubProvider.commit_details in H.
  destruct (nullish data) eqn:Hn; [left; reflexivity|right].
  rewrite !(get_prop_defined data _ Hn) in H. cbn [ebind] in H.
  destruct (nullish (get_prop_opt data "commit")) eqn:Hc; [reflexivity|].
  rewrite !(get_prop_defined _ _ Hc) in H. cbn [ebind] in H. discriminate H.
Qed.

(** What [GithubProvider.actionGetCommitDetails] does with an answer: it
    returns the object built from the answer and its [commit], and once the
    vendor has answered it fails only where the answer or its [commit] is
    [null] or [undefined], with the 500 of the action. *)
Theorem gh_commit_details_result :
  forall (E : Env) (options : JsVal) (st st' : State E) (r : Exn JsVal)
         (req : Request) (data : JsVal),
    GithubProvider.actionGetCommitDetails options st = (r, st') ->
    trace st' = (req, inr data) :: trace st ->
    match r with
    | inr v =>
        exists commit,
          get_prop data "commit" = inr commit /\ nullish data = false /\
          nullish commit = false /\ v = details_of data commit
    | inl t =>
        (nullish data = true \/ nullish (get_prop_opt data "commit") = true) /\
        t = new_AppError "Failed to fetch commit details"
              500 (Some "FETCH_COMMIT_DETAILS_FAILED")
    end.
Proof.
  intros E options st st' r req data H Htr.
  unfold_methods_in H. repeat step_run H; injection H as <- <-;
    cbn [trace] in Htr;
    try (exfalso; exact (cons_neq_self _ _ Htr)).
  all: injection Htr as <- Hres.
  all: try discriminate Hres; subst data.
  all: match goal with
       | Hc : GithubProvider.commit_details _ = inr _ |- _ =>
           exact (commit_details_inr _ _ Hc)
       | Hc : GithubProvider.commit_details _ = inl _ |- _ =>
           pose proof (commit_details_inl _ _ Hc) as Hn; name_throws
       end.
  all: try discriminate.
  all: split; [exact Hn|reflexivity].
Qed.

Lemma gh_commit_details_result_witness :
  trace (snd (gh_run GithubProvider.GetCommitDetails commit_options a_commit))
  = (get_commit_abc, inr a_commit) :: trace (ready_answering a_commit) /\
  exists commit,
    get_prop a_commit "commit" = inr commit /\ nullish a_commit = false /\
    nullish commit = false /\
    details_of a_commit (JObj [("message", JStr "fix")]) = details_of a_commit commit.
Proof.
  split; [reflexivity|].
  exact (gh_commit_details_result (memory_env (answering a_commit)) commit_options
           (ready_answering a_commit)
           (snd (gh_run GithubProvider.GetCommitDetails commit_options a_commit))
           (inr (details_of a_commit (JObj [("message", JStr "fix")])))
           get_commit_abc a_commit eq_refl eq_refl).
Defined.

Lemma bb_commit_details_inr (data y : JsVal) :
  BitbucketProvider.commit_details data = inr y ->
  nullish data = false /\ y = bb_details_of data.
Proof.
  intros H. unfold BitbucketProvider.commit_details in H.
  destruct (nullish data) eqn:Hn; [destruct data; discriminate|].
  rewrite !(get_prop_defined data _ Hn) in H. cbn [ebind] in H.
  injection H as <-. split; reflexivity.
Qed.

(** [BitbucketProvider.actionGetCommitDetails] fails in two ways only, so
    neither the 400 of its own guard nor the [REPOSITORY_NOT_FOUND] of its
    repository check reaches the caller; when it returns, the repository
    check was answered with a truthy value, the commit was fetched after
    it, and the result is the six-field object built from the commit. *)
Theorem bb_commit_details_outcomes :
  forall (E : Env) (options : JsVal) (st st' : State E) (r : Exn JsVal),
    BitbucketProvider.actionGetCommitDetails options st = (r, st') ->
    match r with
    | inl t =>
        t = new_AppError "Repository or commit not found"
              404 (Some "RESOURCE_NOT_FOUND") \/
        t = new_AppError "Failed to fetch commit details"
              500 (Some "FETCH_COMMIT_DETAILS_FAILED")
    | inr v =>
        exists req1 repo req2 data,
          trace st' = (req2, inr data) :: (req1, inr repo) :: trace st /\
          truthy repo = true /\ nullish data = false /\ v = bb_details_of data
    end.
Proof.
  intros E options st st' r H.
  unfold_methods_in H. repeat step_run H; injection H as <- <-;
    try (left; reflexivity); try (right; reflexivity).
  all: match goal with
       | Hc : BitbucketProvider.commit_details _ = inr _ |- _ =>
           destruct (bb_commit_details_inr _ _ Hc) as [Hn ->]
       end.
  all: do 4 eexists; split; [reflexivity|]; split; [|split; [exact Hn|reflexivity]].
  all: match goal with
       | Hb : negb (truthy ?d) = false |- truthy ?d = true =>
           apply negb_false_iff in Hb; exact Hb
       end.
Qed.

Lemma bb_commit_details_outcomes_witness :
  bb_commit_details_rejected 404
  = (inl (new_AppError "Repository or commit not found" 404
            (Some "RESOURCE_NOT_FOUND")),
     snd (bb_commit_details_rejected 404)) /\
  (new_AppError "Repository or commit not found" 404 (Some "RESOURCE_NOT_FOUND")
   = new_AppError "Repository or commit not found" 404 (Some "RESOURCE_NOT_FOUND") \/
   new_AppError "Repository or commit not found" 404 (Some "RESOURCE_NOT_FOUND")
   = new_AppError "Failed to fetch commit details"
       500 (Some "FETCH_COMMIT_DETAILS_FAILED")).
Proof.
  split; [reflexivity|].
  exact (bb_commit_details_outcomes (memory_env (rejecting 404))
           (call_options [entry "repoName" "r"; entry "commitSha" "abc"])
           (ready_rejecting 404) (snd (bb_commit_details_rejected 404))
           (inl (new_AppError "Repository or commit not found" 404
                   (Some "RESOURCE_NOT_FOUND")))
           eq_refl).
Defined.

(** The repository check of [BitbucketProvider.actionGetCommitDetails]:
    when the only request sent was answered and the action failed, the
    answer was falsy and the failure is the 404 [RESOURCE_NOT_FOUND]. *)
Theorem bb_commit_details_repo_check :
  forall (E : Env) (options : JsVal) (st st' : State E) (t : Thrown)
         (req : Request) (repo : JsVal),
    BitbucketProvider.actionGetCommitDetails options st = (inl t, st') ->
    trace st' = (req, inr repo) :: trace st ->
    truthy repo = false /\
    url req = "/repositories/" ++ toString (owner st) ++ "/"
              ++ match param_trim (params_of (default_arg options))
                         "repoName" (JStr "") with
                 | inr repoName => toString repoName
                 | inl _ => ""
                 end /\
    t = new_AppError "Repository or commit not found"
          404 (Some "RESOURCE_NOT_FOUND").
Proof.
  intros E options st st' t req repo H Htr.
  unfold_methods_in H. repeat step_run H; injection H as Hr <-;
    first [discriminate Hr | subst t];
    cbn [trace] in Htr;
    try (exfalso; exact (cons_neq_self _ _ Htr)).
  all: try (exfalso; apply (f_equal (@length HttpEvent)) in Htr;
            cbn [length] in Htr; lia).
  all: injection Htr as <- Hres; try discriminate Hres; subst repo.
  all: try match goal with
           | Hs : status_is (new_AppError _ _ _) _ = _ |- _ =>
               cbv in Hs; discriminate Hs
           end.
  all: cbn [url]; split; [|split; reflexivity].
  all: match goal with
       | Hb : negb (truthy ?d) = true |- truthy ?d = false =>
           apply negb_true_iff in Hb; exact Hb
       end.
Qed.

Lemma bb_commit_details_repo_check_witness :
  trace (snd (bb_run BitbucketProvider.GetCommitDetails commit_options JNull))
  = (bb_get_repo_r, inr JNull) :: trace (ready_answering JNull) /\
  fst (bb_run BitbucketProvider.GetCommitDetails commit_options JNull)
  = inl (new_AppError "Repository or commit not found" 404
           (Some "RESOURCE_NOT_FOUND")) /\
  truthy JNull = false.
Proof.
  split; [reflexivity|]. split; [reflexivity|].
  exact (proj1 (bb_commit_details_repo_check (memory_env (answering JNull))
                  commit_options (ready_answering JNull)
                  (snd (bb_run BitbucketProvider.GetCommitDetails commit_options JNull))
                  (new_AppError "Repository or commit not found" 404
                     (Some "RESOURCE_NOT_FOUND"))
                  bb_get_repo_r JNull eq_refl eq_refl)).
Defined.

(** Four Bitbucket actions end in [|| []] or [|| {}]: what they return is
    never falsy, whatever the vendor answered. *)
Theorem bb_fallback_results_truthy :
  forall (E : Env) (a : BitbucketProvider.Action) (options : JsVal)
         (st st' : State E) (v : JsVal),
    has_fallback a = true ->
    BitbucketProvider.invoke a options st = (inr v, st') ->
    truthy v = true.
Proof.
  intros E a options st st' v Ha H.
  destruct a; try discriminate Ha; unfold_methods_in H; repeat step_run H;
    injection H as Hr _; first [discriminate Hr | subst v];
    apply js_or_truthy; reflexivity.
Qed.

Lemma bb_fallback_results_truthy_witness :
  has_fallback BitbucketProvider.ListPipelines = true /\
  bb_run BitbucketProvider.ListPipelines repo_options a_user
  = (inr (JArr []), snd (bb_run BitbucketProvider.ListPipelines repo_options a_user)) /\
  truthy (JArr []) = true.
Proof.
  split; [reflexivity|]. split; [reflexivity|].
  exact (bb_fallback_results_truthy (memory_env (answering a_user))
           BitbucketProvider.ListPipelines repo_options (ready_answering a_user)
           (snd (bb_run BitbucketProvider.ListPipelines repo_options a_user))
           (JArr []) eq_refl eq_refl).
Defined.

(** No action sends a query parameter with a falsy value other than
    [undefined], which axios leaves out; the page size is always 50 for
    [GithubProvider.actionListRepos], and Bitbucket sends no [undefined]
    at all. *)
Theorem query_values_sent :
  forall (E : Env) (options : JsVal) (st st' : State E) (r : Exn JsVal)
         (req : Request) (res : Exn JsVal),
    (forall a,
        GithubProvider.invoke a options st = (r, st') ->
        trace st' = (req, res) :: trace st ->
        Forall sent_or_dropped (query req) /\
        (a = GithubProvider.ListRepos ->
         assoc "per_page" (query req) = Some (JNum 50))) /\
    (forall a,
        BitbucketProvider.invoke a options st = (r, st') ->
        In (req, res) (trace st') ->
        In (req, res) (trace st) \/
        Forall (fun kv => truthy (snd kv) = true) (query req)).
Proof.
  intros E options st st' r req res. split.
  - intros a H Htr.
    destruct a; unfold_methods_in H; repeat step_run H; injection H as _ <-;
      cbn [trace] in Htr;
      try (exfalso; exact (cons_neq_self _ _ Htr));
      injection Htr as <- _; cbn [query].
    all: split; [|first [discriminate|intros _; reflexivity]].
    all: repeat first [apply Forall_nil | apply Forall_cons].
    all: try apply js_or_undefined.
    all: right; cbn [snd];
      first [reflexivity | eapply param_truthy; [|eassumption]; reflexivity].
  - intros a H Hin.
    destruct a; unfold_methods_in H; repeat step_run H; injection H as _ <-;
      cbn [trace In] in Hin;
      repeat match goal with
             | Hd : _ \/ _ |- _ => destruct Hd as [Hd|Hd]
             end;
      try (left; assumption);
      injection Hin as <- _; right; cbn [query].
    all: repeat first [apply Forall_nil | apply Forall_cons]; cbn [snd].
    all: first [reflexivity
               | apply js_or_truthy; reflexivity
               | eapply param_truthy; [|eassumption]; reflexivity].
Qed.

Lemma query_values_sent_witness :
  trace (snd (gh_run GithubProvider.ListRepos (call_options []) a_user))
  = (list_user_repos, inr a_user) :: trace (ready_answering a_user) /\
  Forall sent_or_dropped (query list_user_repos).
Proof.
  split; [reflexivity|].
  exact (proj1 (proj1 (query_values_sent (memory_env (answering a_user))
                         (call_options []) (ready_answering a_user)
                         (snd (gh_run GithubProvider.ListRepos (call_options []) a_user))
                         (fst (gh_run GithubProvider.ListRepos (call_options []) a_user))
                         list_user_repos (inr a_user))
                  GithubProvider.ListRepos eq_refl eq_refl)).
Defined.

(** The two Bitbucket actions that read under [/src]: every request they
    send names a ref, since the guard before it has rejected a falsy one;
    [actionGetRepoFileContent] falls back to [master], so its own test of
    the ref never fails. *)
Theorem bb_src_requests :
  forall (E : Env) (options : JsVal) (st st' : State E) (r : Exn JsVal)
         (req : Request) (res : Exn JsVal),
    (BitbucketProvider.actionListRepoContents options st = (r, st') ->
     trace st' = (req, res) :: trace st ->
     exists repoName commit,
       param_trim (params_of (default_arg options)) "repoName" (JStr "")
       = inr repoName /\
       param_trim (params_of (default_arg options)) "ref" (JStr "") = inr commit /\
       truthy commit = true /\
       url req = "/repositories/" ++ toString (owner st) ++ "/"
                 ++ toString repoName ++ "/src/" ++ toString commit ++ "/") /\
    (BitbucketProvider.actionGetRepoFileContent options st = (r, st') ->
     trace st' = (req, res) :: trace st ->
     exists repoName path ref,
       param_trim (params_of (default_arg options)) "repoName" (JStr "")
       = inr repoName /\
       param_trim (params_of (default_arg options)) "path" (JStr "") = inr path /\
       param_trim (params_of (default_arg options)) "ref" (JStr "master")
       = inr ref /\
       truthy ref = true /\
       url req = "/repositories/" ++ toString (owner st) ++ "/"
                 ++ toString repoName ++ "/src/" ++ toString ref ++ "/"
                 ++ toString path) /\
    (forall ref,
        param_trim (params_of (default_arg options)) "ref" (JStr "master") = inr ref ->
        truthy ref = true).
Proof.
  intros E options st st' r req res. split; [|split].
  - intros H Htr.
    unfold_methods_in H. repeat step_run H; injection H as _ <-;
      cbn [trace] in Htr;
      try (exfalso; exact (cons_neq_self _ _ Htr));
      injection Htr as <- _.
    all: try match goal with
             | Hb : _ || negb false = false |- _ =>
                 rewrite orb_true_r in Hb; discriminate Hb
             end.
    all: do 2 eexists; split; [reflexivity|]; split; [reflexivity|];
      split; [assumption|]; reflexivity.
  - intros H Htr.
    unfold_methods_in H. repeat step_run H; injection H as _ <-;
      cbn [trace] in Htr;
      try (exfalso; exact (cons_neq_self _ _ Htr));
      injection Htr as <- _.
    all: try match goal with
             | Hb : _ || negb false || _ = false |- _ =>
                 rewrite orb_true_r in Hb; discriminate Hb
             end.
    all: do 3 eexists; split; [reflexivity|]; split; [reflexivity|];
      split; [reflexivity|]; split; [assumption|]; reflexivity.
  - intros ref H. unfold param_trim, ebind in H.
    destruct (param_trim_raw _ _) as [e|x]; [discriminate H|].
    injection H as <-. apply js_or_truthy. reflexivity.
Qed.

Lemma bb_src_requests_witness :
  trace (snd (bb_run BitbucketProvider.ListRepoContents contents_options a_user))
  = (get_src_main, inr a_user) :: trace (ready_answering a_user) /\
  exists repoName commit,
    param_trim (params_of (default_arg contents_options)) "repoName" (JStr "")
    = inr repoName /\
    param_trim (params_of (default_arg contents_options)) "ref" (JStr "")
    = inr commit /\
    truthy commit = true /\
    url get_src_main
    = ("/repositories/" ++ toString (owner (ready_answering a_user)) ++ "/"
       ++ toString repoName ++ "/src/" ++ toString commit ++ "/")%string.
Proof.
  split; [reflexivity|].
  exact (proj1 (bb_src_requests (memory_env (answering a_user)) contents_options
                  (ready_answering a_user)
                  (snd (bb_run BitbucketProvider.ListRepoContents
                          contents_options a_user))
                  (fst (bb_run BitbucketProvider.ListRepoContents
                          contents_options a_user))
                  get_src_main (inr a_user))
           eq_refl eq_refl).
Defined.
